(** * iocage fetch module ([iocage/lib/ioc_fetch.py]): a shallow embedding

    The class [IOCFetch] fetches a RELEASE, verifies it against its
    MANIFEST, extracts it into a release dataset and provisions plugins.
    Python strings are [string]; dictionaries are [gmap]s or, where the
    iteration order matters, association lists; code that touches the file
    system, ZFS or the network threads an explicit state and may raise. *)

From Stdlib Require Import ZArith Lia Ascii.
From stdpp Require Import base gmap strings list pretty.

Local Open Scope Z_scope.

(** ** Python string primitives used by the module *)

Module Py.

Definition is_lower (c : ascii) : bool :=
  let n := nat_of_ascii c in (97 <=? n)%nat && (n <=? 122)%nat.

Definition is_upper (c : ascii) : bool :=
  let n := nat_of_ascii c in (65 <=? n)%nat && (n <=? 90)%nat.

Definition upper_char (c : ascii) : ascii :=
  if is_lower c then ascii_of_nat (nat_of_ascii c - 32) else c.

Definition lower_char (c : ascii) : ascii :=
  if is_upper c then ascii_of_nat (nat_of_ascii c + 32) else c.

(** [str.upper()] and [str.lower()] on ASCII text. *)
Fixpoint upper (s : string) : string :=
  match s with
  | EmptyString => EmptyString
  | String c s' => String (upper_char c) (upper s')
  end.

Fixpoint lower (s : string) : string :=
  match s with
  | EmptyString => EmptyString
  | String c s' => String (lower_char c) (lower s')
  end.

(** The slice [s[:n]]. *)
Fixpoint take (n : nat) (s : string) : string :=
  match n, s with
  | S n', String c s' => String c (take n' s')
  | _, _ => EmptyString
  end.

Definition eqb (a b : string) : bool := bool_decide (a = b).

(** [s.startswith(p)]. *)
Fixpoint startswith (s p : string) : bool :=
  match p, s with
  | EmptyString, _ => true
  | String a p', String b s' => bool_decide (a = b) && startswith s' p'
  | String _ _, EmptyString => false
  end.

(** [sub in s] for strings. *)
Fixpoint contains (sub s : string) : bool :=
  startswith s sub ||
  match s with
  | EmptyString => false
  | String _ s' => contains sub s'
  end.

(** [c in s] for a character. *)
Fixpoint has_char (c : ascii) (s : string) : bool :=
  match s with
  | EmptyString => false
  | String x s' => bool_decide (x = c) || has_char c s'
  end.

(** [s.split(sep)] for a separator of one character: never empty. *)
Fixpoint split (sep : ascii) (s : string) : list string :=
  match s with
  | EmptyString => [EmptyString]
  | String c s' =>
      if bool_decide (c = sep) then EmptyString :: split sep s'
      else match split sep s' with
           | [] => [String c EmptyString]
           | h :: t => String c h :: t
           end
  end.

(** [sep.join(l)]. *)
Fixpoint join (sep : string) (l : list string) : string :=
  match l with
  | [] => EmptyString
  | [x] => x
  | x :: rest => x +:+ sep +:+ join sep rest
  end.

(** [s.replace(old, new)] for a non-empty [old]; [skip] counts the
    characters of a match that are still to be dropped. *)
Fixpoint replace_from (skip : nat) (old new s : string) : string :=
  match s with
  | EmptyString => EmptyString
  | String c s' =>
      match skip with
      | S k => replace_from k old new s'
      | O =>
          if startswith s old
          then new +:+ replace_from (String.length old - 1) old new s'
          else String c (replace_from 0 old new s')
      end
  end.

Definition replace (old new s : string) : string := replace_from 0 old new s.

(** [x in l] for a list or tuple of strings. *)
Definition mem (x : string) (l : list string) : bool :=
  bool_decide (x ∈ l).

(** The newline character as a string. *)
Definition nl : string := String (ascii_of_nat 10) EmptyString.

(** Truthiness of an optional string: [None] and [""] are false. *)
Definition truthy (o : option string) : bool :=
  match o with
  | Some (String _ _) => true
  | _ => false
  end.

End Py.

(** ** The [IOCFetch] object and its constructor *)

Record IOCFetch := mkIOCFetch {
  iocroot : string;
  pool : string;
  server : string;
  auth : option string;
  release : option string;
  root_dir : option string;
  arch : string;
  http : bool;
  _file : bool;
  verify : bool;
  hardened : bool;
  files : list string;
  update : bool;
  eol : bool
}.

(** The arguments of [IOCFetch.__init__]; [pool], [iocroot] and [arch] are
    read from the configuration store and from [os.uname()]. *)
Record init_args := mkArgs {
  a_release : option string;
  a_server : string;
  a_auth : option string;
  a_root_dir : option string;
  a_http : bool;
  a_file : bool;
  a_verify : bool;
  a_hardened : bool;
  a_update : bool;
  a_eol : bool;
  a_files : list string
}.

Definition default_files : list string :=
  ["MANIFEST"; "base.txz"; "lib32.txz"; "doc.txz"].

Definition init (cfg_pool cfg_iocroot uname_arch : string) (a : init_args)
  : IOCFetch :=
  let release0 :=
    if Py.truthy (a_release a) then Py.upper <$> a_release a
    else a_release a in
  let http0 := a_http a in
  let http1 := if a_hardened a then true else http0 in
  let release1 :=
    if a_hardened a then
      if Py.truthy (a_release a)
      then (fun r => Py.upper (Py.take 2 r +:+ "-stable")) <$> release0
      else a_release a
    else release0 in
  {| iocroot := cfg_iocroot; pool := cfg_pool; server := a_server a;
     auth := a_auth a; release := release1; root_dir := a_root_dir a;
     arch := uname_arch; http := http1; _file := a_file a;
     verify := a_verify a; hardened := a_hardened a; files := a_files a;
     update := a_update a; eol := a_eol a |}.

(** [fetch_release] is a wrapper that chooses the fetch: the test on
    [self.http] comes first, then [self._file], and FTP is what remains. *)
Inductive backend := HttpBackend | FileBackend | FtpBackend.

Definition fetch_release_backend (self : IOCFetch) : backend :=
  if http self then HttpBackend
  else if _file self then FileBackend
  else FtpBackend.

(** ** Exceptions, events and the state-and-error monad *)

Inductive exn :=
| SystemExit (code : Z)
| Fatal (msg : string)
| KeyError (key : string)
| IndexError
| ValueError (msg : string)
| FileNotFoundError (path : string)
| OSError (path : string)
| HTTPError (url : string)
| FTPError (cmd : string)
| ZFSException (name : string)
| PathTraversal
| KeyboardInterrupt
| UnboundLocalError (var : string)
| AttributeError.

Inductive result (A : Type) :=
| Ok (a : A)
| Raise (e : exn).
Arguments Ok {A} a.
Arguments Raise {A} e.

(** What a run leaves behind, in the order it happens. *)
Inductive event :=
| Log (level msg : string)
| ZfsCreate (name : string)
| ZfsMount (name : string)
| ZfsUnmount (name : string)
| ZfsDelete (name : string)
| Download (f : string)
| FetchManifest
| Copy (f : string)
| ExtractArchive (f : string)
| Remove (path : string)
| ExtractMember (name : string)
| FreebsdUpdate (release : string)
| CreateJail (uuid : string)
| DestroyJail (path : string)
| Kldload (kmod : string)
| WriteFile (path : string)
| InstallPackages (uuid : string)
| CloneArtifact (url : string)
| ExecJail (uuid : string).

(** The state a method runs in: the object, the part of the outside world
    it reads and changes, and the trace. *)
Record st (W : Type) := mkSt {
  self : IOCFetch;
  world : W;
  trace : list event
}.
Arguments mkSt {W} self world trace.
Arguments self {W} s.
Arguments world {W} s.
Arguments trace {W} s.

Definition M (W A : Type) : Type := st W -> result A * st W.

Definition ret {W A} (a : A) : M W A := fun s => (Ok a, s).

Definition raise {W A} (e : exn) : M W A := fun s => (Raise e, s).

Definition bind {W A B} (m : M W A) (k : A -> M W B) : M W B :=
  fun s => match m s with
           | (Ok a, s') => k a s'
           | (Raise e, s') => (Raise e, s')
           end.

Notation "x <- m ;; k" := (bind m (fun x => k))
  (at level 20, m at level 99, k at level 200, only parsing).
Notation "m ;;; k" := (bind m (fun _ => k))
  (at level 20, k at level 200, only parsing).

(** [try: m except <handled>: h]. *)
Definition try_except {W A} (m : M W A) (handler : exn -> option (M W A))
  : M W A :=
  fun s => match m s with
           | (Ok a, s') => (Ok a, s')
           | (Raise e, s') =>
               match handler e with
               | Some h => h s'
               | None => (Raise e, s')
               end
           end.

Definition emit {W} (e : event) : M W unit :=
  fun s => (Ok tt, mkSt (self s) (world s) (trace s ++ [e])).

Definition get_self {W} : M W IOCFetch := fun s => (Ok (self s), s).

Definition put_self {W} (o : IOCFetch) : M W unit :=
  fun s => (Ok tt, mkSt o (world s) (trace s)).

Definition get_world {W} : M W W := fun s => (Ok (world s), s).

Definition put_world {W} (w : W) : M W unit :=
  fun s => (Ok tt, mkSt (self s) w (trace s)).

(** Modelled from the spec: [iocage.lib.ioc_common.logit] is not part of the
    sources at hand.  A message at level EXCEPTION is a fatal condition that
    surfaces one message and ends the run; every other level is reported
    and the run goes on. *)
Definition logit {W} (level msg : string) : M W unit :=
  if Py.eqb level "EXCEPTION" then raise (Fatal msg)
  else emit (Log level msg).

Definition set_release (o : IOCFetch) (r : option string) : IOCFetch :=
  {| iocroot := iocroot o; pool := pool o; server := server o;
     auth := auth o; release := r; root_dir := root_dir o; arch := arch o;
     http := http o; _file := _file o; verify := verify o;
     hardened := hardened o; files := files o; update := update o;
     eol := eol o |}.

Definition set_hardened (o : IOCFetch) (h : bool) : IOCFetch :=
  {| iocroot := iocroot o; pool := pool o; server := server o;
     auth := auth o; release := release o; root_dir := root_dir o;
     arch := arch o; http := http o; _file := _file o; verify := verify o;
     hardened := h; files := files o; update := update o; eol := eol o |}.

Definition set_files (o : IOCFetch) (fs : list string) : IOCFetch :=
  {| iocroot := iocroot o; pool := pool o; server := server o;
     auth := auth o; release := release o; root_dir := root_dir o;
     arch := arch o; http := http o; _file := _file o; verify := verify o;
     hardened := hardened o; files := fs; update := update o;
     eol := eol o |}.

Definition set_server_root (o : IOCFetch) (sv : string) (rd : option string)
  : IOCFetch :=
  {| iocroot := iocroot o; pool := pool o; server := sv;
     auth := auth o; release := release o; root_dir := rd;
     arch := arch o; http := http o; _file := _file o; verify := verify o;
     hardened := hardened o; files := files o; update := update o;
     eol := eol o |}.

(** [self.release] where the code needs a string. *)
Definition release_str (o : IOCFetch) : string := default "None" (release o).

(** ** Release selection: [__fetch_host_release__] and
    [__fetch_validate_release__] *)

Module Validate.

(** A character of the model is a code point below 256.  Those Python
    counts as white space ([str.isspace], which [str.strip()] and its kin
    use) are U+0009 to U+000D, U+001C to U+0020, U+0085 and U+00A0. *)
Definition is_space (c : ascii) : bool :=
  let n := nat_of_ascii c in
  ((9 <=? n)%nat && (n <=? 13)%nat) || ((28 <=? n)%nat && (n <=? 32)%nat)
  || (n =? 133)%nat || (n =? 160)%nat.

Definition digit (c : ascii) : option Z :=
  let n := nat_of_ascii c in
  if (48 <=? n)%nat && (n <=? 57)%nat then Some (Z.of_nat n - 48)
  else None.

Fixpoint lstrip (s : string) : string :=
  match s with
  | String c s' => if is_space c then lstrip s' else s
  | EmptyString => EmptyString
  end.

(** What [int()] skips before and after a number is less: U+0009 to
    U+000D and the space, and of the characters from U+0080 on those that
    are white space, U+0085 and U+00A0; the separators U+001C to U+001F
    are not skipped. *)
Definition int_space (c : ascii) : bool :=
  let n := nat_of_ascii c in
  ((9 <=? n)%nat && (n <=? 13)%nat) || (n =? 32)%nat
  || (n =? 133)%nat || (n =? 160)%nat.

Fixpoint int_lstrip (s : string) : string :=
  match s with
  | String c s' => if int_space c then int_lstrip s' else s
  | EmptyString => EmptyString
  end.

Definition int_strip (s : string) : string :=
  String.rev (int_lstrip (String.rev (int_lstrip s))).

(** Decimal digits, where single underscores may stand between digits. *)
Fixpoint digits (acc : Z) (after_digit : bool) (s : string) : option Z :=
  match s with
  | EmptyString => if after_digit then Some acc else None
  | String c s' =>
      match digit c with
      | Some d => digits (10 * acc + d) true s'
      | None =>
          if bool_decide (c = "_"%char) && after_digit
          then digits acc false s'
          else None
      end
  end.

(** [int(s)] for a string; [None] where Python raises [ValueError].  Below
    code point 256 the decimal digits of Unicode are [0] to [9] alone, so
    on the strings of the model this is [int()] in full. *)
Definition py_int (s : string) : option Z :=
  match int_strip s with
  | String "+" r => digits 0 false r
  | String "-" r => Z.opp <$> digits 0 false r
  | t => digits 0 false t
  end.

(** [l[i]] with Python's negative indices; [None] is [IndexError]. *)
Definition getitem {A} (l : list A) (i : Z) : option A :=
  let n := Z.of_nat (length l) in
  let j := if i <? 0 then i + n else i in
  if (0 <=? j) && (j <? n) then l !! Z.to_nat j else None.

(** [s.rsplit("-", 1)[0]]: what precedes the last dash, or all of [s]. *)
Fixpoint before_last_dash (s : string) : option string :=
  match s with
  | EmptyString => None
  | String c s' =>
      match before_last_dash s' with
      | Some p => Some (String c p)
      | None => if bool_decide (c = "-"%char) then Some EmptyString else None
      end
  end.

Definition rsplit_dash_first (s : string) : string :=
  default s (before_last_dash s).

Definition is_word (c : ascii) : bool :=
  Py.is_lower c || Py.is_upper c
  || match digit c with Some _ => true | None => false end
  || bool_decide (c = "_"%char).

(** [re.sub(r"\W\w.", "-", s)]. *)
Fixpoint sub_nonword_word_any (s : string) : string :=
  match s with
  | EmptyString => EmptyString
  | String a s1 =>
      match s1 with
      | String b (String c rest) =>
          if negb (is_word a) && is_word b
             && negb (bool_decide (c = "010"%char))
          then String "-" (sub_nonword_word_any rest)
          else String a (sub_nonword_word_any s1)
      | _ => String a (sub_nonword_word_any s1)
      end
  end.

(** [re.sub(r"([A-Z])\w+", "STABLE", s)]; [inside] says that the scan is
    within the word characters of a match. *)
Fixpoint sub_capital_word (inside : bool) (s : string) : string :=
  match s with
  | EmptyString => EmptyString
  | String a s1 =>
      if inside && is_word a then sub_capital_word true s1
      else
        match s1 with
        | String b _ =>
            if Py.is_upper a && is_word b
            then "STABLE" +:+ sub_capital_word true s1
            else String a (sub_capital_word false s1)
        | EmptyString => String a EmptyString
        end
  end.

(** The value [__fetch_host_release__] computes from [os.uname()[2]]. *)
Definition host_release (rel : string) : string :=
  let r0 := rsplit_dash_first rel in
  if Py.contains "-STABLE" rel then r0 +:+ "-RELEASE"
  else if Py.contains "-HBSD" rel
       then sub_capital_word false (sub_nonword_word_any r0)
  else if negb (Py.contains "-RELEASE" rel) then "Not a RELEASE"
  else r0.

Section WithWorld.
Context {W : Type}.

(** [__fetch_host_release__]; [uname_r] is [os.uname()[2]]. *)
Definition fetch_host_release (uname_r : string) : M W string :=
  o <- get_self ;;
  put_self (set_release o (Some (host_release uname_r))) ;;;
  ret (host_release uname_r).

(** [releases.index(x)], whose value the callers drop. *)
Definition list_index_check (releases : list string) (x : string)
  : M W unit :=
  if Py.mem x releases then ret tt
  else raise (ValueError ("'" +:+ x +:+ "' is not in list")).

Definition current_release : M W string :=
  o <- get_self ;;
  match release o with
  | Some r => ret r
  | None => raise AttributeError
  end.

Definition fetch_validate_release (uname_r : string)
    (releases : list string) : M W string :=
  r <- current_release ;;
  if Py.eqb (Py.lower r) "exit" then raise (SystemExit 0)
  else if (2 <? String.length r)%nat then
    try_except (list_index_check releases r)
      (fun e => match e with
                | ValueError err => Some (logit "EXCEPTION" err)
                | _ => None
                end) ;;;
    current_release
  else
    try_except
      (match py_int r with
       | None => raise (ValueError "invalid literal for int()")
       | Some i =>
           match getitem releases i with
           | None => raise IndexError
           | Some x => o <- get_self ;; put_self (set_release o (Some x))
           end
       end)
      (fun e =>
         match e with
         | IndexError =>
             Some (logit "EXCEPTION" ("[" +:+ r +:+ "] is not in the list!"))
         | ValueError _ =>
             Some (try_except
                     (host <- fetch_host_release uname_r ;;
                      if Py.contains "-STABLE" host then
                        o <- get_self ;; put_self (set_hardened o true)
                      else list_index_check releases host)
                     (fun e' =>
                        match e' with
                        | ValueError _ =>
                            Some (logit "EXCEPTION" "Please select an item!")
                        | _ => None
                        end))
         | _ => None
         end) ;;;
    current_release.

End WithWorld.

End Validate.

(** ** Plugin descriptors and [__fetch_plugin_props__] *)

(** A plugin descriptor, as [json.load] returns it.  JSON objects whose
    iteration order the code relies on are association lists in document
    order. *)
Record descriptor := mkDescriptor {
  d_name : string;
  d_release : string;
  d_artifact : string;
  d_pkgs : list string;
  d_packagesite : string;
  d_fingerprints : list (string * list (string * string));
  d_properties : option (list (string * string));
  d_kmods : list string
}.

Module PluginProps.

(** What the method reads from disk: whether the release directory
    exists and the lines of its [bin/freebsd-version], if present. *)
Record props_world := mkPropsWorld {
  release_isdir : bool;
  freebsd_version : option (list string)
}.

(** [line.rstrip()]. *)
Definition rstrip (s : string) : string :=
  String.rev (Validate.lstrip (String.rev s)).

(** [s.partition("=")[2]]. *)
Fixpoint after_first_eq (s : string) : string :=
  match s with
  | EmptyString => EmptyString
  | String c s' => if bool_decide (c = "="%char) then s' else after_first_eq s'
  end.

(** The double quote character. *)
Definition dquote : ascii := ascii_of_nat 34.

Fixpoint lstrip_quote (s : string) : string :=
  match s with
  | String c s' => if bool_decide (c = dquote) then lstrip_quote s' else s
  | EmptyString => EmptyString
  end.

(** [s.strip(q)] for the double quote [q]. *)
Definition strip_quote (s : string) : string :=
  String.rev (lstrip_quote (String.rev (lstrip_quote s))).

(** [s.endswith("-")]. *)
Definition endswith_dash (s : string) : bool :=
  match String.rev s with
  | String c _ => bool_decide (c = "-"%char)
  | EmptyString => false
  end.

(** [_prop.split("=")[0]]. *)
Definition prop_key (prop : string) : string :=
  match Py.split "=" prop with
  | k :: _ => k
  | [] => EmptyString
  end.

(** The [for line in r] loop over [freebsd-version]: the last line that
    starts with USERLAND_VERSION binds [release]. *)
Fixpoint userland_version (acc : option string) (lines : list string)
  : option string :=
  match lines with
  | [] => acc
  | line :: rest =>
      if Py.startswith line "USERLAND_VERSION"
      then userland_version
             (Some (strip_quote (after_first_eq (rstrip line)))) rest
      else userland_version acc rest
  end.

(** [k, v = p.split("=")] and [f"{k}={v}"]. *)
Definition reformat (p : string) : result string :=
  match Py.split "=" p with
  | [k; v] => Ok (k +:+ "=" +:+ v)
  | _ => Raise (ValueError "not enough or too many values to unpack")
  end.

Fixpoint reformat_all (props : list string) : result (list string) :=
  match props with
  | [] => Ok []
  | p :: rest =>
      match reformat p with
      | Raise e => Raise e
      | Ok q => match reformat_all rest with
                | Raise e => Raise e
                | Ok qs => Ok (q :: qs)
                end
      end
  end.

Section WithFetch.
(** [self.fetch_release()], which the method calls when the release is
    not on disk. *)
Variable fetch_release : M props_world unit.

(** The loop over [json_props.items()]. *)
Fixpoint merge_loop (json_props : list (string * string))
    (props : list string) : M props_world (list string) :=
  match json_props with
  | [] => ret props
  | (p, v) :: rest =>
      let _p := p +:+ "=" +:+ v in
      let props' :=
        if negb (Py.mem p (prop_key <$> props)) then props ++ [_p]
        else props in
      w <- get_world ;;
      (if negb (release_isdir w) then fetch_release else ret tt) ;;;
      merge_loop rest props'
  end.

Definition read_userland : M props_world (option string) :=
  w <- get_world ;;
  match freebsd_version w with
  | Some lines => ret (userland_version None lines)
  | None => raise (FileNotFoundError "bin/freebsd-version")
  end.

Definition fetch_plugin_props (conf : descriptor) (props : list string)
  : M props_world (list string * list (string * list (string * string))) :=
  o <- get_self ;;
  put_self (set_release o (Some (d_release conf))) ;;;
  let pkg_repos := d_fingerprints conf in
  let json_props := default [] (d_properties conf) in
  props <- merge_loop json_props props ;;
  release <-
    (if endswith_dash (Py.take 4 (d_release conf))
     then ret (Some (d_release conf))
     else
       try_except read_userland
         (fun e =>
            match e with
            | FileNotFoundError _ =>
                Some (logit "WARNING"
                        ("Release " +:+ d_release conf +:+
                         " missing, will attempt to fetch it.") ;;;
                      fetch_release ;;;
                      read_userland)
            | _ => None
            end)) ;;
  match release with
  | None => raise (UnboundLocalError "release")
  | Some release =>
      let create_props :=
        ["cloned_release=" +:+ d_release conf;
         "release=" +:+ release; "type=plugin"; "boot=on"] in
      match reformat_all props with
      | Raise e => raise e
      | Ok user => ret (user ++ create_props, pkg_repos)
      end
  end.

End WithFetch.

End PluginProps.

(** ** Plugin provisioning: [fetch_plugin] and its helpers *)

Module Plugin.

(** The jail configuration [IOCJson(jaildir).json_load()] returns, as far
    as the module reads it. *)
Record jail_conf := mkJailConf {
  ip4_addr : string;
  ip6_addr : string;
  dhcp : string;
  interfaces : string
}.

(** What the collaborators answer during a run: [create_outcome] is what
    [create_jail] raises (if anything), [created_conf] the configuration of
    the created jail, [kmod_loads] whether [kldload] succeeds,
    [install_err] the result of [create_install_packages],
    [has_post_install] whether the artifact carries [post_install.sh],
    [exec_err] the error of [exec_jail], [dhcp_ip] the address [ifconfig]
    reports inside the jail, [admin_portal] the template of [ui.json].
    [interrupt_at] is the external call, in the order they are made, at
    which the operator presses Ctrl-C. *)
Record answers := mkAnswers {
  create_outcome : option exn;
  created_conf : jail_conf;
  kmod_loads : string -> bool;
  install_err : bool;
  has_post_install : bool;
  exec_err : bool;
  exec_msg : string;
  dhcp_ip : string;
  admin_portal : option string;
  interrupt_at : option nat
}.

(** The world of a provisioning run.  [jails] are the isolated environments
    that exist, [fs] the files written below the jail, [dirs] the
    directories made, [clock] counts the external calls made so far. *)
Record plugin_world := mkPluginWorld {
  jails : gset string;
  fs : gmap string string;
  dirs : gset string;
  clock : nat;
  oracle : answers
}.

Definition with_jails (w : plugin_world) (j : gset string) : plugin_world :=
  mkPluginWorld j (fs w) (dirs w) (clock w) (oracle w).

Definition with_fs (w : plugin_world) (f : gmap string string)
  : plugin_world :=
  mkPluginWorld (jails w) f (dirs w) (clock w) (oracle w).

Definition with_dirs (w : plugin_world) (d : gset string) : plugin_world :=
  mkPluginWorld (jails w) (fs w) d (clock w) (oracle w).

Definition with_clock (w : plugin_world) (c : nat) : plugin_world :=
  mkPluginWorld (jails w) (fs w) (dirs w) c (oracle w).

Abbreviation PM := (M plugin_world).

(** A call that leaves the interpreter: it is where an interruption is
    delivered. *)
Definition external (e : event) : PM unit :=
  w <- get_world ;;
  put_world (with_clock w (S (clock w))) ;;;
  if bool_decide (interrupt_at (oracle w) = Some (clock w))
  then raise KeyboardInterrupt
  else emit e.

(** The last component of a path. *)
Definition basename (path : string) : string :=
  default EmptyString (last (Py.split "/" path)).

(** Modelled from the spec: [iocage.lib.ioc_destroy] is not part of the
    sources at hand.  Destroying removes the isolated environment the
    path names, that is the one called as the path's last component. *)
Definition destroy_jail (path : string) : PM unit :=
  external (DestroyJail path) ;;;
  w <- get_world ;;
  put_world (with_jails w (jails w ∖ {[ basename path ]})).

(** Modelled from the spec: [IOCCreate(...).create_jail()] creates the
    isolated environment called [uuid] with the given properties, or
    fails. *)
Definition create_jail (create_props : list string) (uuid : string)
  : PM unit :=
  external (CreateJail uuid) ;;;
  w <- get_world ;;
  match create_outcome (oracle w) with
  | Some e => raise e
  | None => put_world (with_jails w (jails w ∪ {[ uuid ]}))
  end.

(** [os.makedirs(path, 0o755)]. *)
Definition makedirs (path : string) : PM unit :=
  w <- get_world ;;
  if bool_decide (path ∈ dirs w) then raise (OSError path)
  else put_world (with_dirs w (dirs w ∪ {[ path ]})).

(** [with open(path, "w") as f: f.write(content)]: the file is truncated
    when it is opened. *)
Definition write_file (path content : string) : PM unit :=
  emit (WriteFile path) ;;;
  w <- get_world ;;
  put_world (with_fs w (<[path := content]> (fs w))).

Definition fetch_plugin_create (create_props : list string) (uuid : string)
  : PM (string * jail_conf * string) :=
  o <- get_self ;;
  create_jail create_props uuid ;;;
  let jaildir := iocroot o +:+ "/jails/" +:+ uuid in
  let repo_dir := jaildir +:+ "/root/usr/local/etc/pkg/repos" in
  let path := pool o +:+ "/iocage/jails/" +:+ uuid in
  w <- get_world ;;
  let _conf := created_conf (oracle w) in
  (if Py.eqb (ip4_addr _conf) "none" && Py.eqb (ip6_addr _conf) "none"
      && negb (Py.eqb (dhcp _conf) "on")
   then
     logit "ERROR"
       (Py.nl +:+ "An IP address is needed to fetch a plugin!" +:+ Py.nl) ;;;
     destroy_jail path ;;;
     logit "EXCEPTION" "Destroyed partial plugin."
   else ret tt) ;;;
  ret (jaildir, _conf, repo_dir).

Definition freebsd_conf : string := "FreeBSD: { enabled: no }" +:+ Py.nl.

Definition quoted (s : string) : string :=
  String PluginProps.dquote s +:+ String PluginProps.dquote EmptyString.

Definition repo_conf (reponame packagesite : string) : string :=
  reponame +:+ ": {" +:+ Py.nl +:+
  "            url: " +:+ quoted packagesite +:+ "," +:+ Py.nl +:+
  "            signature_type: " +:+ quoted "fingerprints" +:+ "," +:+ Py.nl +:+
  "            fingerprints: " +:+
  quoted ("/usr/local/etc/pkg/fingerprints/" +:+ reponame) +:+ "," +:+ Py.nl +:+
  "            enabled: true" +:+ Py.nl +:+
  "            }" +:+ Py.nl.

Definition finger_conf (function fingerprint : string) : string :=
  "function: " +:+ function +:+ Py.nl +:+
  "fingerprint: " +:+ fingerprint +:+ Py.nl.

Definition fingerprint_dir (jaildir repo_name : string) : string :=
  jaildir +:+ "/root/usr/local/etc/pkg/fingerprints/" +:+ repo_name
  +:+ "/trusted".

Definition fingerprint_file (jaildir repo_name : string) : string :=
  fingerprint_dir jaildir repo_name +:+ "/" +:+ repo_name.

Definition repo_file (repo_dir repo_name : string) : string :=
  repo_dir +:+ "/" +:+ repo_name +:+ ".conf".

(** How often a run opened [path] for writing. *)
Definition writes_to (path : string) (tr : list event) : nat :=
  length (List.filter
            (fun e => match e with
                      | WriteFile q => Py.eqb q path
                      | _ => false
                      end) tr).

(** [for r in repo: with open(f_file, "w") as f_conf: ...]. *)
Fixpoint write_fingerprints (f_file : string)
    (repo : list (string * string)) : PM unit :=
  match repo with
  | [] => ret tt
  | (function, fingerprint) :: rest =>
      write_file f_file (finger_conf function fingerprint) ;;;
      write_fingerprints f_file rest
  end.

Definition ignore_oserror (m : PM unit) (h : PM unit) : PM unit :=
  try_except m (fun e => match e with OSError _ => Some h | _ => None end).

(** [for repo in pkg_repos]; the result is the last [repo_name] bound. *)
Fixpoint write_repos (jaildir repo_dir packagesite : string)
    (pkg_repos : list (string * list (string * string)))
    (repo_name : option string) : PM (option string) :=
  match pkg_repos with
  | [] => ret repo_name
  | (name, repo) :: rest =>
      let f_dir := fingerprint_dir jaildir name in
      ignore_oserror (makedirs f_dir)
        (logit "ERROR" ("Repo: " +:+ name +:+ " already exists, skipping!")) ;;;
      write_file (repo_file repo_dir name) (repo_conf name packagesite) ;;;
      write_fingerprints (fingerprint_file jaildir name) repo ;;;
      write_repos jaildir repo_dir packagesite rest (Some name)
  end.

Fixpoint load_kmods (kmods : list string) : PM unit :=
  match kmods with
  | [] => ret tt
  | kmod :: rest =>
      external (Kldload kmod) ;;;
      w <- get_world ;;
      (if kmod_loads (oracle w) kmod then ret tt
       else logit "EXCEPTION" "Module not found!") ;;;
      load_kmods rest
  end.

Definition fetch_plugin_install_packages (uuid jaildir : string)
    (conf : descriptor) (_conf : jail_conf)
    (pkg_repos : list (string * list (string * string)))
    (create_props : list string) (repo_dir : string) : PM unit :=
  load_kmods (d_kmods conf) ;;;
  ignore_oserror (makedirs (jaildir +:+ "/root/usr/local/etc/pkg/repos"))
    (ret tt) ;;;
  ignore_oserror (makedirs repo_dir) (ret tt) ;;;
  write_file (jaildir +:+ "/root/usr/local/etc/pkg/repos/FreeBSD.conf")
    freebsd_conf ;;;
  repo_name <- write_repos jaildir repo_dir (d_packagesite conf)
                 pkg_repos None ;;
  match repo_name with
  | None => raise (UnboundLocalError "repo_name")
  | Some _ =>
      external (InstallPackages uuid) ;;;
      w <- get_world ;;
      if install_err (oracle w) then
        logit "ERROR"
          ("pkg error, refusing to fetch artifact and run post_install.sh!"
           +:+ Py.nl)
      else ret tt
  end.

End Plugin.

Module PluginRun.
Import Plugin.

(** [_conf[key].split("|")[1].rsplit("/")[0]], or ["none"] on
    [IndexError]. *)
Definition address_of (field : string) : string :=
  match Py.split "|" field with
  | _ :: x :: _ =>
      match Py.split "/" x with
      | a :: _ => a
      | [] => "none"
      end
  | _ => "none"
  end.

Definition fetch_plugin_post_install (conf : descriptor) (_conf : jail_conf)
    (jaildir uuid : string) : PM unit :=
  let ip4 := address_of (ip4_addr _conf) in
  let ip6 := address_of (ip6_addr _conf) in
  let '(ip, dhcp) :=
    if negb (Py.eqb ip4 "none") then (ip4, false)
    else if negb (Py.eqb ip6 "none") then (ip6, false)
    else (EmptyString, true) in
  if negb (Py.eqb (d_artifact conf) EmptyString) then
    logit "INFO" "Fetching artifact... " ;;;
    external (CloneArtifact (d_artifact conf)) ;;;
    w <- get_world ;;
    if has_post_install (oracle w) then
      logit "INFO" "Running post_install.sh" ;;;
      external (ExecJail uuid) ;;;
      (if exec_err (oracle w)
       then logit "EXCEPTION" "An error occured! Please read above"
       else ret tt) ;;;
      logit "INFO" (exec_msg (oracle w)) ;;;
      ip <- (if dhcp then
               external (ExecJail ("ioc-" +:+ uuid)) ;;;
               ret (dhcp_ip (oracle w))
             else ret ip) ;;
      match admin_portal (oracle w) with
      | Some template =>
          logit "INFO"
            ("Admin Portal:" +:+ Py.nl +:+ Py.replace "%%IP%%" ip template)
      | None => ret tt
      end
    else ret tt
  else ret tt.

(** The body of the [try] statement of [fetch_plugin]: creation, package
    installation and post-install. *)
Definition provision (conf : descriptor) (props : list string)
    (pkg : list (string * list (string * string))) : PM unit :=
  let jail_name := d_name conf in
  created <- fetch_plugin_create props jail_name ;;
  let '(jaildir, _conf, repo_dir) := created in
  fetch_plugin_install_packages jail_name jaildir conf _conf pkg props
    repo_dir ;;;
  fetch_plugin_post_install conf _conf jaildir jail_name.

(** [fetch_plugin] from the point where the descriptor is loaded and the
    properties are merged: the [try] statement and its
    [except KeyboardInterrupt]. *)
Definition fetch_plugin (conf : descriptor) (props : list string)
    (pkg : list (string * list (string * string))) : PM unit :=
  o <- get_self ;;
  let jail_name := d_name conf in
  let location := iocroot o +:+ "/jails/" +:+ jail_name in
  try_except (provision conf props pkg)
    (fun e =>
       match e with
       | KeyboardInterrupt =>
           Some (destroy_jail location ;;; raise (SystemExit 1))
       | _ => None
       end).

End PluginRun.

(** ** [os.path] on POSIX, as far as the module uses it *)

Module OsPath.

Definition sep : string := "/".

Definition isabs (p : string) : bool := Py.startswith p sep.

(** [p.endswith(sep)]. *)
Fixpoint endswith_sep (p : string) : bool :=
  match p with
  | EmptyString => false
  | String c EmptyString => bool_decide (c = "/"%char)
  | String _ p' => endswith_sep p'
  end.

(** [os.path.join(a, b)]. *)
Definition join (a b : string) : string :=
  if Py.startswith b sep then b
  else if Py.eqb a EmptyString || endswith_sep a then a +:+ b
  else a +:+ sep +:+ b.

(** POSIX allows one or two initial slashes and treats three or more as
    one. *)
Definition initial_slashes (path : string) : nat :=
  if Py.startswith path sep then
    if Py.startswith path "//" && negb (Py.startswith path "///") then 2
    else 1
  else 0.

(** The loop of [normpath] over the components; [new_comps] is kept with
    its last element first, so that [append] is a cons and [pop] a tail. *)
Fixpoint norm_comps (initial : nat) (new_comps comps : list string)
  : list string :=
  match comps with
  | [] => new_comps
  | comp :: rest =>
      if Py.eqb comp EmptyString || Py.eqb comp "." then
        norm_comps initial new_comps rest
      else if negb (Py.eqb comp "..")
              || (bool_decide (initial = 0%nat)
                  && bool_decide (new_comps = []))
              || match new_comps with
                 | top :: _ => Py.eqb top ".."
                 | [] => false
                 end
      then norm_comps initial (comp :: new_comps) rest
      else match new_comps with
           | _ :: popped => norm_comps initial popped rest
           | [] => norm_comps initial new_comps rest
           end
  end.

Fixpoint slashes (n : nat) : string :=
  match n with
  | O => EmptyString
  | S k => String "/" (slashes k)
  end.

Definition normpath (path : string) : string :=
  if Py.eqb path EmptyString then "."
  else
    let initial := initial_slashes path in
    let comps := norm_comps initial [] (Py.split "/" path) in
    let p := slashes initial +:+ Py.join sep (rev comps) in
    if Py.eqb p EmptyString then "." else p.

(** [os.path.abspath(path)] in the working directory [cwd]. *)
Definition abspath (cwd path : string) : string :=
  normpath (if isabs path then path else join cwd path).

(** The longest common prefix, character by character. *)
Fixpoint common_chars (s1 s2 : string) : string :=
  match s1, s2 with
  | String a s1', String b s2' =>
      if bool_decide (a = b) then String a (common_chars s1' s2')
      else EmptyString
  | _, _ => EmptyString
  end.

(** [os.path.commonprefix([a, b])]: the common characters of the least and
    the greatest of the strings. *)
Definition commonprefix (a b : string) : string :=
  let s1 := if String.ltb b a then b else a in
  let s2 := if String.ltb a b then b else a in
  common_chars s1 s2.

End OsPath.

(** ** Archive extraction: [fetch_extract] and its helpers *)

Module Extract.

(** A [TarInfo]. *)
Record tarinfo := mkTarInfo { name : string }.

(** The world of an extraction: the working directory, whether the release
    root exists as a directory, the archives in the download datasets (by
    path) and the files on disk (by absolute normal path). *)
Record extract_world := mkExtractWorld {
  cwd : string;
  dest_isdir : bool;
  archives : gmap string (list tarinfo);
  disk : gset string
}.

Abbreviation EM := (M extract_world).

Definition with_disk (w : extract_world) (d : gset string) : extract_world :=
  mkExtractWorld (cwd w) (dest_isdir w) (archives w) d.

Definition with_dest (w : extract_world) (b : bool) : extract_world :=
  mkExtractWorld (cwd w) b (archives w) (disk w).

(** The members a run wrote, in order. *)
Fixpoint members_extracted (tr : list event) : list string :=
  match tr with
  | [] => []
  | ExtractMember n :: rest => n :: members_extracted rest
  | _ :: rest => members_extracted rest
  end.

(** The warnings a run logged, in order. *)
Fixpoint warnings (tr : list event) : list string :=
  match tr with
  | [] => []
  | Log level msg :: rest =>
      if Py.eqb level "WARNING" then msg :: warnings rest else warnings rest
  | _ :: rest => warnings rest
  end.

(** The members [__fetch_check_members__] keeps, and those it warns
    about. *)
Definition kept (m : tarinfo) : bool :=
  negb (Py.eqb (name m) ".")
  && negb (Py.contains ".." (name m) || negb (Py.startswith (name m) "./")).

Definition warned (m : tarinfo) : bool :=
  negb (Py.eqb (name m) ".")
  && (Py.contains ".." (name m) || negb (Py.startswith (name m) "./")).

(** [os.remove(path)] inside [try ... except (IOError, OSError): pass]. *)
Definition remove_quietly (path : string) : EM unit :=
  w <- get_world ;;
  let p := OsPath.abspath (cwd w) path in
  if bool_decide (p ∈ disk w) then
    emit (Remove p) ;;;
    put_world (with_disk w (disk w ∖ {[ p ]}))
  else ret tt.

Fixpoint fetch_extract_remove (root : string) (tar : list tarinfo)
    (members : list tarinfo) : EM (list tarinfo) :=
  match tar with
  | [] => ret members
  | f :: rest =>
      remove_quietly (root +:+ "/" +:+ name f) ;;;
      fetch_extract_remove root rest (members ++ [f])
  end.

Fixpoint fetch_check_members (members _members : list tarinfo)
  : EM (list tarinfo) :=
  match members with
  | [] => ret _members
  | m :: rest =>
      if Py.eqb (name m) "." then fetch_check_members rest _members
      else if Py.contains ".." (name m)
              || negb (Py.startswith (name m) "./")
      then
        logit "WARNING" (name m +:+ " is not a relative file, skipping ") ;;;
        fetch_check_members rest _members
      else fetch_check_members rest (_members ++ [m])
  end.

Definition is_within_directory (cwd directory target : string) : bool :=
  let abs_directory := OsPath.abspath cwd directory in
  let abs_target := OsPath.abspath cwd target in
  let prefix := OsPath.commonprefix abs_directory abs_target in
  Py.eqb prefix abs_directory.

(** The loop of [safe_extract] over [tar.getmembers()]. *)
Fixpoint check_traversal (path : string) (tar : list tarinfo) : EM unit :=
  match tar with
  | [] => ret tt
  | member :: rest =>
      w <- get_world ;;
      let member_path := OsPath.join path (name member) in
      if negb (is_within_directory (cwd w) path member_path)
      then raise PathTraversal
      else check_traversal path rest
  end.

(** [tar.extractall(path, members)]: each member is written below [path]. *)
Fixpoint extractall (path : string) (members : list tarinfo) : EM unit :=
  match members with
  | [] => ret tt
  | m :: rest =>
      w <- get_world ;;
      emit (ExtractMember (name m)) ;;;
      put_world
        (with_disk w
           (disk w ∪ {[ OsPath.abspath (cwd w) (OsPath.join path (name m)) ]})) ;;;
      extractall path rest
  end.

Definition safe_extract (tar : list tarinfo) (path : string)
    (members : list tarinfo) : EM unit :=
  check_traversal path tar ;;;
  extractall path members.

Definition fetch_extract (f : string) : EM unit :=
  o <- get_self ;;
  let src := iocroot o +:+ "/download/" +:+ release_str o +:+ "/" +:+ f in
  let dest := iocroot o +:+ "/releases/" +:+ release_str o +:+ "/root" in
  let dataset := pool o +:+ "/iocage/releases/" +:+ release_str o +:+ "/root" in
  w <- get_world ;;
  (if negb (dest_isdir w) then
     emit (ZfsCreate dataset) ;;;
     emit (ZfsMount dataset) ;;;
     put_world (with_dest w true)
   else ret tt) ;;;
  match archives w !! src with
  | None => raise (FileNotFoundError src)
  | Some tar =>
      member <- fetch_extract_remove dest tar [] ;;
      member <- fetch_check_members member [] ;;
      safe_extract tar dest member
  end.

End Extract.

(** ** Fetching a release: download, verification and the three backends *)

Module Fetch.

(** The world of a fetch.  [src_isdir] and [src_files] describe the local
    tree [root_dir/RELEASE]; [download_isdir] and [dl] the download dataset
    of the release (file name to content); [remote] is what the server
    delivers for a file name at the n-th request ([None] is a status other
    than success) and [requests] counts the requests made; [extract_fails]
    is what extracting an archive raises, if anything.  [index] is the
    sorted release listing of the server, [release_on_server] whether the
    FTP server has a directory for the release, [eol_releases] the EOL
    listing, [user_input] what the operator types at the prompt and
    [uname_r] the host's [os.uname()[2]]. *)
Record fetch_world := mkFetchWorld {
  src_isdir : bool;
  src_files : gmap string string;
  download_isdir : bool;
  dl : gmap string string;
  remote : nat -> string -> option string;
  requests : nat;
  extract_fails : string -> option exn;
  index : option (list string);
  release_on_server : bool;
  eol_releases : option (list string);
  user_input : string;
  uname_r : string
}.

Abbreviation FM := (M fetch_world).

Definition with_download (w : fetch_world) (isdir : bool)
    (d : gmap string string) : fetch_world :=
  mkFetchWorld (src_isdir w) (src_files w) isdir d (remote w) (requests w)
    (extract_fails w) (index w) (release_on_server w) (eol_releases w)
    (user_input w) (uname_r w).

Definition with_requests (w : fetch_world) (n : nat) : fetch_world :=
  mkFetchWorld (src_isdir w) (src_files w) (download_isdir w) (dl w)
    (remote w) n (extract_fails w) (index w) (release_on_server w)
    (eol_releases w) (user_input w) (uname_r w).

(** One request for a file of the release. *)
Definition request (f : string) : FM (option string) :=
  w <- get_world ;;
  put_world (with_requests w (S (requests w))) ;;;
  ret (remote w (requests w) f).

(** [with open(f, "wb") as txz: ...] in the download dataset. *)
Definition store (f content : string) : FM unit :=
  w <- get_world ;;
  put_world (with_download w (download_isdir w) (<[f := content]> (dl w))).

(** [self.fetch_extract(f)], seen from the fetch: the extraction of the
    archive is attempted, and may raise (see [Extract.fetch_extract]). *)
Definition fetch_extract (f : string) : FM unit :=
  emit (ExtractArchive f) ;;;
  w <- get_world ;;
  match extract_fails w f with
  | Some e => raise e
  | None => ret tt
  end.

(** [self.fetch_update()]: the external patch tool runs on the release. *)
Definition fetch_update : FM unit :=
  o <- get_self ;;
  logit "INFO" (Py.nl +:+ "* Updating " +:+ release_str o +:+
                " to the latest patch level... ") ;;;
  emit (FreebsdUpdate (release_str o)).

(** [re.compile(pattern).match(s)] for a pattern of literal characters and
    dots. *)
Fixpoint re_match_literal (pattern s : string) : bool :=
  match pattern, s with
  | EmptyString, _ => true
  | String p pattern', String c s' =>
      (if bool_decide (p = "."%char) then negb (bool_decide (c = "010"%char))
       else bool_decide (p = c))
      && re_match_literal pattern' s'
  | String _ _, EmptyString => false
  end.

(** [re.compile(r"MANIFEST|base.txz|lib32.txz|doc.txz").match(f)]. *)
Definition ftp_name_matches (f : string) : bool :=
  re_match_literal "MANIFEST" f || re_match_literal "base.txz" f
  || re_match_literal "lib32.txz" f || re_match_literal "doc.txz" f.

Fixpoint download_http (_list : list string) : FM unit :=
  match _list with
  | [] => ret tt
  | f :: rest =>
      o <- get_self ;;
      if hardened o && Py.eqb f "lib32.txz" then download_http rest
      else
        let _file :=
          if hardened o
          then server o +:+ "/" +:+ default "None" (root_dir o) +:+ "/" +:+ f
          else server o +:+ "/" +:+ default "None" (root_dir o) +:+ "/"
               +:+ release_str o +:+ "/" +:+ f in
        r <- request f ;;
        match r with
        | None => raise (HTTPError _file)
        | Some content =>
            emit (Download f) ;;;
            store f content ;;;
            download_http rest
        end
  end.

Fixpoint download_ftp (_list todo : list string) : FM unit :=
  match todo with
  | [] => ret tt
  | f :: rest =>
      if ftp_name_matches f then
        r <- request f ;;
        match r with
        | None =>
            if negb (Py.eqb f "base.txz") && negb (Py.eqb f "MANIFEST") then
              o <- get_self ;;
              put_self
                (set_files o (filter (fun x => x <> f) _list)) ;;;
              download_ftp _list rest
            else
              logit "EXCEPTION" (f +:+ " is required!") ;;;
              raise (FTPError ("RETR " +:+ f))
        | Some content =>
            emit (Download f) ;;;
            store f content ;;;
            download_ftp _list rest
        end
      else download_ftp _list rest
  end.

Definition fetch_download (_list : list string) (ftp missing : bool)
  : FM unit :=
  o <- get_self ;;
  w <- get_world ;;
  fresh <-
    (if negb (download_isdir w) then
       let dataset := pool o +:+ "/iocage/download/" +:+ release_str o in
       emit (ZfsCreate dataset) ;;;
       emit (ZfsMount dataset) ;;;
       put_world (with_download w true (dl w)) ;;;
       ret true
     else ret false) ;;
  if missing || fresh then
    if http o then download_http _list
    else if ftp then download_ftp _list _list
    else ret tt
  else ret tt.

(** The lines of a text file, each with its newline. *)
Fixpoint readlines (s : string) : list string :=
  match s with
  | EmptyString => []
  | String c s' =>
      if bool_decide (c = "010"%char)
      then String c EmptyString :: readlines s'
      else match readlines s' with
           | [] => [String c EmptyString]
           | h :: t => String c h :: t
           end
  end.

(** [for line in _manifest: col = line.split("\t"); hashes[col[0]] = col[1]]. *)
Fixpoint parse_manifest (lines : list string) (hashes : gmap string string)
  : result (gmap string string) :=
  match lines with
  | [] => Ok hashes
  | line :: rest =>
      match Py.split "009" line with
      | col0 :: col1 :: _ => parse_manifest rest (<[col0 := col1]> hashes)
      | _ => Raise IndexError
      end
  end.

(** The archives a run extracted, in order. *)
Fixpoint extracted (tr : list event) : list string :=
  match tr with
  | [] => []
  | ExtractArchive f :: rest => f :: extracted rest
  | _ :: rest => extracted rest
  end.

(** The files a run downloaded, in order. *)
Fixpoint downloaded (tr : list event) : list string :=
  match tr with
  | [] => []
  | Download f :: rest => f :: downloaded rest
  | _ :: rest => downloaded rest
  end.

(** The files the loop of [__fetch_check__] does not pass over: all but the
    MANIFEST and, for a hardened release, [lib32.txz]. *)
Definition wanted (o : IOCFetch) (f : string) : bool :=
  negb (Py.eqb f "MANIFEST") && negb (hardened o && Py.eqb f "lib32.txz").

Section Verification.
(** [hashlib.sha256] of a file's content, as a hexadecimal digest. *)
Variable sha256 : string -> string.

Definition too_many : string := "Too many failed verifications!".

(** The loop [for f in self.files] of [__fetch_check__]. *)
Fixpoint check_loop (hashes : gmap string string) (_list : list string)
    (_missing : bool) (todo missing : list string) : FM (list string) :=
  match todo with
  | [] => ret missing
  | f :: rest =>
      o <- get_self ;;
      if Py.eqb f "MANIFEST" then check_loop hashes _list _missing rest missing
      else if hardened o && Py.eqb f "lib32.txz"
      then check_loop hashes _list _missing rest missing
      else
        missing <-
          (if Py.mem f _list then
             w <- get_world ;;
             match dl w !! f with
             | Some content =>
                 match hashes !! f with
                 | None => raise (KeyError f)
                 | Some h =>
                     if negb (Py.eqb h (sha256 content)) then
                       if negb _missing then
                         logit "WARNING"
                           (f +:+ " failed verification, will redownload!") ;;;
                         ret (missing ++ [f])
                       else logit "EXCEPTION" too_many ;;; ret missing
                     else ret missing
                 end
             | None =>
                 if negb _missing then
                   logit "WARNING"
                     (f +:+ " missing, will try to redownload!") ;;;
                   ret (missing ++ [f])
                 else logit "EXCEPTION" too_many ;;; ret missing
             end
           else ret missing) ;;
        (if bool_decide (missing = []) then
           logit "INFO" ("Extracting: " +:+ f +:+ "... ") ;;;
           fetch_extract f
         else ret tt) ;;;
        check_loop hashes _list _missing rest missing
  end.



(** The MANIFEST is fetched again only from the canonical servers. *)
Definition refetch_manifest (ftp : bool) : FM unit :=
  o <- get_self ;;
  if ftp && Py.eqb (server o) "ftp.freebsd.org" then
    store "MANIFEST" EmptyString ;;;
    r <- request "MANIFEST" ;;
    match r with
    | None => raise (FTPError "RETR MANIFEST")
    | Some content => emit FetchManifest ;;; store "MANIFEST" content
    end
  else if negb ftp && Py.eqb (server o) "https://download.freebsd.org" then
    r <- request "MANIFEST" ;;
    match r with
    | None =>
        raise (HTTPError (server o +:+ "/" +:+ default "None" (root_dir o)
                          +:+ "/" +:+ release_str o +:+ "/MANIFEST"))
    | Some content => emit FetchManifest ;;; store "MANIFEST" content
    end
  else ret tt.

(** [__fetch_check__]: [None] is the value of a call that finds no download
    directory.  The download dataset holds files only, so [os.walk] visits
    one directory. *)
Definition fetch_check (_list : list string) (ftp _missing : bool)
  : FM (option (list string)) :=
  w <- get_world ;;
  if download_isdir w then
    (if negb (bool_decide (is_Some (dl w !! "MANIFEST")))
     then refetch_manifest ftp else ret tt) ;;;
    w <- get_world ;;
    parsed <-
      match dl w !! "MANIFEST" with
      | Some content =>
          match parse_manifest (readlines content) ∅ with
          | Ok hashes => ret (hashes, [])
          | Raise e => raise e
          end
      | None => ret (∅, ["MANIFEST"])
      end ;;
    o <- get_self ;;
    missing <- check_loop (fst parsed) _list _missing (files o) (snd parsed) ;;
    ret (Some missing)
  else ret None.

(** What [fetch_http_release] and [fetch_ftp_release] do once the release is
    known: download, verify, download again what is missing and verify
    that. *)
Definition download_and_verify (ftp : bool) : FM unit :=
  o <- get_self ;;
  let _list := files o in
  fetch_download _list ftp false ;;;
  missing <- fetch_check _list ftp false ;;
  match missing with
  | Some (f :: fs) =>
      fetch_download (f :: fs) ftp true ;;;
      fetch_check (f :: fs) ftp true ;;;
      ret tt
  | _ => ret tt
  end.

(** The position [releases.index(r)] prints. *)
Fixpoint index_of (r : string) (releases : list string) : nat :=
  match releases with
  | [] => 0
  | x :: rest => if Py.eqb x r then 0 else S (index_of r rest)
  end.

(** [for r in releases: logit "[i] r"], with the EOL mark where the caller
    asks for it. *)
Fixpoint log_listing (eol : option (list string)) (releases todo : list string)
  : FM unit :=
  match todo with
  | [] => ret tt
  | r :: rest =>
      let entry := "[" +:+ pretty (index_of r releases) +:+ "] " +:+ r in
      logit "INFO"
        (match eol with
         | Some l => if Py.mem r l then entry +:+ " (EOL)" else entry
         | None => entry
         end) ;;;
      log_listing eol releases rest
  end.

(** The prompt: [self.release = input(...)] and
    [self.release = self.__fetch_validate_release__(releases)]. *)
Definition prompt_release (releases : list string) : FM unit :=
  w <- get_world ;;
  Validate.fetch_host_release (uname_r w) ;;;
  o <- get_self ;;
  put_self (set_release o (Some (user_input w))) ;;;
  r <- Validate.fetch_validate_release (uname_r w) releases ;;
  o <- get_self ;;
  put_self (set_release o (Some r)).

(** [fetch_http_release]; the result of the index request is the release
    listing, already parsed and sorted. *)
Definition fetch_http_release (eol : list string) (_list : bool) : FM unit :=
  o <- get_self ;;
  let canonical := Py.eqb (server o) "ftp.freebsd.org" in
  let rdir := if hardened o && canonical then Some "builds" else None in
  let server1 :=
    if hardened o && canonical then "http://jenkins.hardenedbsd.org"
    else server o in
  let server2 :=
    if Py.eqb server1 "ftp.freebsd.org" then "https://download.freebsd.org"
    else server1 in
  let root_dir1 :=
    match root_dir o with
    | None => "ftp/releases/" +:+ arch o
    | Some d => d
    end in
  let server3 :=
    if Py.truthy (auth o) && negb (Py.contains "https" server2)
    then "https://" +:+ server2
    else if negb (Py.contains "http" server2) then "http://" +:+ server2
    else server2 in
  put_self (set_server_root o server3 (Some root_dir1)) ;;;
  w <- get_world ;;
  stop <-
    (if hardened o then
       match rdir with
       | None => raise (UnboundLocalError "rdir")
       | Some rd =>
           match index w with
           | None => raise (HTTPError (server3 +:+ "/" +:+ rd))
           | Some releases =>
               if negb (Py.truthy (release o)) then
                 log_listing None releases releases ;;;
                 prompt_release releases ;;;
                 ret false
               else ret false
           end
       end
     else
       match index w with
       | None => raise (HTTPError (server3 +:+ "/" +:+ root_dir1))
       | Some releases =>
           if negb (Py.truthy (release o)) then
             log_listing (Some eol) releases releases ;;;
             if _list then ret true
             else prompt_release releases ;;; ret false
           else ret false
       end) ;;
  if stop : bool then ret tt
  else
    o <- get_self ;;
    (if hardened o then
       match rdir with
       | None => raise (UnboundLocalError "rdir")
       | Some rd =>
           put_self
             (set_server_root o (server o)
                (Some (rd +:+ "/HardenedBSD-" +:+ Py.upper (release_str o)
                       +:+ "-" +:+ arch o +:+ "-LATEST")))
       end
     else ret tt) ;;;
    o <- get_self ;;
    logit "INFO" ("Fetching: " +:+ release_str o +:+ Py.nl) ;;;
    download_and_verify false ;;;
    o <- get_self ;;
    if negb (hardened o) then fetch_update else ret tt.

(** [fetch_ftp_release]; the directory listing is the release listing,
    already sorted. *)
Definition fetch_ftp_release (eol : list string) (_list : bool) : FM unit :=
  o <- get_self ;;
  w <- get_world ;;
  ftp_list <- match index w with
              | None => raise (FTPError "NLST")
              | Some l => ret l
              end ;;
  stop <-
    (if negb (Py.truthy (release o)) then
       let releases := filter (fun rel => Py.contains "-RELEASE" rel) ftp_list in
       log_listing (Some eol) releases releases ;;;
       if _list then ret true
       else prompt_release releases ;;; ret false
     else ret false) ;;
  if stop : bool then ret tt
  else
    o <- get_self ;;
    (if release_on_server w then ret tt
     else logit "EXCEPTION" (release_str o +:+ " was not found!")) ;;;
    logit "INFO" ("Fetching: " +:+ release_str o +:+ Py.nl) ;;;
    download_and_verify true ;;;
    o <- get_self ;;
    if update o then fetch_update else ret tt.

(** [shutil.copy(f, dataset)] from the local tree into the download
    dataset. *)
Definition copy_in (f : string) : FM unit :=
  w <- get_world ;;
  match src_files w !! f with
  | None => raise (FileNotFoundError f)
  | Some content => emit (Copy f) ;;; store f content
  end.

(** The loop [for f in self.files] of the local-directory fetch. *)
Fixpoint copy_files (dataset : string) (todo : list string) : FM unit :=
  match todo with
  | [] => ret tt
  | f :: rest =>
      o <- get_self ;;
      w <- get_world ;;
      (if negb (bool_decide (is_Some (src_files w !! f))) then
         let zfs_name := pool o +:+ dataset in
         emit (ZfsUnmount zfs_name) ;;;
         emit (ZfsDelete zfs_name) ;;;
         put_world (with_download w false ∅) ;;;
         let place :=
           Py.nl +:+ "Please place it in " +:+ default "None" (root_dir o)
           +:+ "/" +:+ release_str o in
         logit "EXCEPTION"
           (if Py.eqb f "MANIFEST" then f +:+ " is a required file!" +:+ place
            else f +:+ ".txz is a required file!" +:+ place)
       else ret tt) ;;;
      logit "INFO" ("Copying: " +:+ f +:+ "... ") ;;;
      copy_in f ;;;
      (if negb (Py.eqb f "MANIFEST") then
         logit "INFO" ("Extracting: " +:+ f +:+ "... ") ;;;
         fetch_extract f
       else ret tt) ;;;
      copy_files dataset rest
  end.

(** The branch of [fetch_release] for a local directory
    [root-dir/RELEASE/*.txz]. *)
Definition fetch_local : FM unit :=
  o <- get_self ;;
  (if negb (Py.truthy (root_dir o))
   then logit "EXCEPTION" "Please supply --root-dir or -d." else ret tt) ;;;
  (match release o with
   | None => logit "EXCEPTION" "Please supply a RELEASE!"
   | Some _ => ret tt
   end) ;;;
  w <- get_world ;;
  (if src_isdir w then ret tt
   else logit "EXCEPTION"
          ("[Errno 2] No such file or directory: '"
           +:+ default "None" (root_dir o) +:+ "/" +:+ release_str o +:+ "'")) ;;;
  let dataset := iocroot o +:+ "/download/" +:+ release_str o in
  (if download_isdir w then ret tt
   else
     emit (ZfsCreate dataset) ;;;
     emit (ZfsMount dataset) ;;;
     put_world (with_download w true (dl w))) ;;;
  copy_files dataset (files o).

(** [__fetch_eol_check__]: the EOL listing, or the error of the request. *)
Definition fetch_eol_check : FM (list string) :=
  w <- get_world ;;
  match eol_releases w with
  | None => raise (HTTPError "https://www.freebsd.org/security/unsupported.html")
  | Some l => ret l
  end.

Definition fetch_release (_list : bool) : FM unit :=
  o <- get_self ;;
  match fetch_release_backend o with
  | HttpBackend =>
      eol <- (if eol o && verify o then fetch_eol_check else ret []) ;;
      fetch_http_release eol _list
  | FileBackend => fetch_local
  | FtpBackend =>
      eol <- (if eol o && verify o then fetch_eol_check else ret []) ;;
      fetch_ftp_release eol _list
  end.

End Verification.

End Fetch.

(** ** Sample data: a plugin descriptor, an object and small worlds *)

Module Sample.

Definition tab : string := String (ascii_of_nat 9) EmptyString.

Definition args (rel : option string) (use_http use_file hard : bool)
  : init_args :=
  mkArgs rel "ftp.freebsd.org" None None use_http use_file true hard true true
    default_files.

Definition fetcher (rel : option string) (use_http use_file hard : bool)
  : IOCFetch :=
  init "zroot" "/iocage" "amd64" (args rel use_http use_file hard).

Definition quassel : descriptor :=
  mkDescriptor "quasselcore" "11.1-RELEASE"
    "https://github.com/freenas/iocage-plugin-quassel.git"
    ["irc/quassel-core"] "http://pkg.cdn.trueos.org/iocage"
    [("iocage-plugins", [("sha256", "226efd3a"); ("sha256", "b0170035")])]
    (Some [("ip4_addr", "em0|192.168.0.9/24"); ("vnet", "on")]) [].

Definition release_on_disk : PluginProps.props_world :=
  PluginProps.mkPropsWorld true
    (Some ["#!/bin/sh" +:+ Py.nl;
           "USERLAND_VERSION=" +:+ Plugin.quoted "11.1-RELEASE-p4" +:+ Py.nl]).

Definition static_address : Plugin.jail_conf :=
  Plugin.mkJailConf "em0|10.0.0.2/24" "none" "off" "vnet0:bridge0".

Definition no_address : Plugin.jail_conf :=
  Plugin.mkJailConf "none" "none" "off" "vnet0:bridge0".

(** Collaborators that all succeed, for a jail with the configuration
    [conf], where the operator interrupts at [interrupt] (if at all) and
    [loads] says which kernel modules load. *)
Definition answers (conf : Plugin.jail_conf) (loads : string -> bool)
    (interrupt : option nat) : Plugin.answers :=
  Plugin.mkAnswers None conf loads false true false "done" "10.0.0.9" None
    interrupt.

Definition host (a : Plugin.answers) : st Plugin.plugin_world :=
  mkSt (fetcher None false false false) (Plugin.mkPluginWorld ∅ ∅ ∅ 0 a) [].

Definition jaildir : string := "/iocage/jails/quasselcore".

(** A plugin that needs a kernel module. *)
Definition with_kmod : descriptor :=
  mkDescriptor "quasselcore" "11.1-RELEASE"
    "https://github.com/freenas/iocage-plugin-quassel.git"
    ["irc/quassel-core"] "http://pkg.cdn.trueos.org/iocage"
    [("iocage-plugins", [("sha256", "226efd3a"); ("sha256", "b0170035")])]
    None ["fuse"].

(** A fetch from the local tree [/mnt/rel/11.1-RELEASE]. *)
Definition local_fetcher : IOCFetch :=
  init "zroot" "/iocage" "amd64"
    (mkArgs (Some "11.1-RELEASE") "ftp.freebsd.org" None (Some "/mnt/rel")
       false true true false true true default_files).

(** A host without download dataset whose local tree holds [tree]. *)
Definition local_tree (tree : gmap string string) : st Fetch.fetch_world :=
  mkSt local_fetcher
    (Fetch.mkFetchWorld true tree false ∅ (fun _ _ => None) 0 (fun _ => None)
       None false None EmptyString "11.1-RELEASE-p4") [].

(** A fetch of 11.1-RELEASE over HTTP from [srv]. *)
Definition http_fetcher (srv : string) : IOCFetch :=
  init "zroot" "/iocage" "amd64"
    (mkArgs (Some "11.1-RELEASE") srv None (Some "pub/releases") true false
       true false true true ["MANIFEST"; "base.txz"; "doc.txz"]).

(** A stand-in for SHA-256 on the sample contents: a file is its own
    digest. *)
Definition digest (content : string) : string := content.

Definition manifest : string :=
  "base.txz" +:+ tab +:+ "BASE" +:+ tab +:+ "1" +:+ Py.nl +:+
  "doc.txz" +:+ tab +:+ "DOC" +:+ tab +:+ "2" +:+ Py.nl.

(** A host whose download dataset of the release exists ([isdir]) and
    holds [d], in front of a server that answers with [srv_files]. *)
Definition fetching (srv : string) (isdir : bool) (d : gmap string string)
    (srv_files : nat -> string -> option string) : st Fetch.fetch_world :=
  mkSt (http_fetcher srv)
    (Fetch.mkFetchWorld false ∅ isdir d srv_files 0 (fun _ => None)
       (Some ["11.1-RELEASE"]) true (Some []) EmptyString "11.1-RELEASE-p4") [].

(** A server whose [doc.txz] is damaged at every request. *)
Definition damaged_doc (n : nat) (f : string) : option string :=
  if Py.eqb f "MANIFEST" then Some manifest
  else if Py.eqb f "base.txz" then Some "BASE"
  else Some "damaged".

(** The download dataset after a first download from that server. *)
Definition with_damaged_doc : st Fetch.fetch_world :=
  fetching "https://download.freebsd.org" true
    {[ "MANIFEST" := manifest; "base.txz" := "BASE"; "doc.txz" := "damaged" ]}
    damaged_doc.

(** A host about to unpack [base.txz] of 11.1-RELEASE, an archive with the
    members [names]; beside the release root there are a directory [root2]
    and a file [etc/passwd]. *)
Definition unpacking (names : list string) : st Extract.extract_world :=
  mkSt (fetcher (Some "11.1-RELEASE") false false false)
    (Extract.mkExtractWorld "/root" false
       {[ "/iocage/download/11.1-RELEASE/base.txz" := Extract.mkTarInfo <$> names ]}
       {[ "/iocage/releases/11.1-RELEASE/root2/x";
          "/iocage/releases/etc/passwd" ]}) [].

End Sample.


(** ** Choosing a plugin: [__fetch_validate_plugin__] and the release of a
    hardened plugin *)

Module PluginIndex.

(** [str.capitalize()] on ASCII text. *)
Definition capitalize (s : string) : string :=
  match s with
  | EmptyString => EmptyString
  | String c rest => String (Py.upper_char c) (Py.lower rest)
  end.

(** [s.rsplit("(", 1)[1]]: what follows the last opening parenthesis;
    [None] is [IndexError]. *)
Fixpoint after_last_paren (s : string) : option string :=
  match s with
  | EmptyString => None
  | String c s' =>
      match after_last_paren s' with
      | Some t => Some t
      | None => if bool_decide (c = "("%char) then Some s' else None
      end
  end.

(** [[i for i, p in enumerate(plugins) if plugin.capitalize() in p or
    plugin in p]], counting from [i]. *)
Fixpoint matching (plugin : string) (i : nat) (plugins : list string)
  : list nat :=
  match plugins with
  | [] => []
  | p :: rest =>
      if Py.contains (capitalize plugin) p || Py.contains plugin p
      then i :: matching plugin (S i) rest
      else matching plugin (S i) rest
  end.

Section WithWorld.
Context {W : Type}.

Definition not_in_list (_plugin : string) : M W unit :=
  logit "EXCEPTION" ("Plugin: " +:+ _plugin +:+ " not in list!").

(** [__fetch_validate_plugin__].  After a message at level EXCEPTION that
    does not end the run, [plugin] is still the input in the first branch
    and is the list of indices in the second, which has no [rsplit]. *)
Definition fetch_validate_plugin (plugin : string) (plugins : list string)
  : M W string :=
  let _plugin := plugin in
  if Py.eqb (Py.lower plugin) "exit" then raise (SystemExit 0)
  else
    chosen <-
      (if (String.length plugin <=? 2)%nat then
         try_except
           (match Validate.py_int plugin with
            | None => raise (ValueError "invalid literal for int()")
            | Some i =>
                match Validate.getitem plugins i with
                | None => raise IndexError
                | Some x => ret x
                end
            end)
           (fun e =>
              match e with
              | IndexError => Some (not_in_list _plugin ;;; ret plugin)
              | ValueError _ => Some (raise (SystemExit 0))
              | _ => None
              end)
       else
         try_except
           (try_except
              (match matching plugin 0 plugins with
               | [] => raise IndexError
               | i :: _ =>
                   match Validate.getitem plugins (Z.of_nat i) with
                   | None => raise IndexError
                   | Some x => ret x
                   end
               end)
              (fun e =>
                 match e with
                 | IndexError =>
                     Some (not_in_list _plugin ;;; raise AttributeError)
                 | _ => None
                 end))
           (fun e =>
              match e with
              | ValueError err => Some (logit "EXCEPTION" err ;;;
                                        raise AttributeError)
              | _ => None
              end)) ;;
    match after_last_paren chosen with
    | None => raise IndexError
    | Some t => ret (Py.replace ")" "" t)
    end.

End WithWorld.

(** The entry [__fetch_sort_plugin__] makes for the plugin [pkg] of the
    index. *)
Definition entry (name description pkg : string) : string :=
  name +:+ " - " +:+ description +:+ " (" +:+ pkg +:+ ")".

(** What [fetch_plugin] makes of [conf['release']] for a hardened fetch:
    [replace("-RELEASE", "-STABLE")], then [re.sub(r"\W\w.", "-", ...)]. *)
Definition hardened_release (release : string) : string :=
  Validate.sub_nonword_word_any (Py.replace "-RELEASE" "-STABLE" release).

End PluginIndex.


(** ** The menu index, stated apart from the code *)

(** What it means to read an input of at most two characters as a menu
    index and to take the entry of the list it stands for, written out from
    the decimal notation and not from [int()] and Python's indexing, with
    which it is compared. *)
Module MenuIndex.

(** The value of a decimal digit. *)
Definition decimal (c : ascii) : option Z :=
  if bool_decide (c = "0"%char) then Some 0
  else if bool_decide (c = "1"%char) then Some 1
  else if bool_decide (c = "2"%char) then Some 2
  else if bool_decide (c = "3"%char) then Some 3
  else if bool_decide (c = "4"%char) then Some 4
  else if bool_decide (c = "5"%char) then Some 5
  else if bool_decide (c = "6"%char) then Some 6
  else if bool_decide (c = "7"%char) then Some 7
  else if bool_decide (c = "8"%char) then Some 8
  else if bool_decide (c = "9"%char) then Some 9
  else None.

(** Tab, line feed, vertical tab, form feed, carriage return, space, next
    line and no-break space. *)
Definition blank (c : ascii) : bool :=
  bool_decide (nat_of_ascii c ∈ [9; 10; 11; 12; 13; 32; 133; 160]%nat).

(** One digit; two digits; a digit with a sign in front; a digit with a
    blank before or after it. *)
Definition short_index (r : string) : option Z :=
  match r with
  | String a EmptyString => decimal a
  | String a (String b EmptyString) =>
      match decimal a, decimal b with
      | Some x, Some y => Some (10 * x + y)
      | Some x, None => if blank b then Some x else None
      | None, Some y =>
          if bool_decide (a = "+"%char) then Some y
          else if bool_decide (a = "-"%char) then Some (- y)
          else if blank a then Some y
          else None
      | None, None => None
      end
  | _ => None
  end.

(** The entry an index stands for: counted from the front, the first
    being 0, or, below zero, from the back, the last being -1. *)
Definition entry_at {A} (l : list A) (i : Z) : option A :=
  if 0 <=? i then l !! Z.to_nat i
  else reverse l !! (Z.to_nat (- i) - 1)%nat.

(** Every character of the model. *)
Definition all_chars : list ascii := ascii_of_nat <$> seq 0 256.

End MenuIndex.

(** * Verified properties *)

(** ** Strings *)

Lemma sapp_cons (c : ascii) (a b : string) :
  String c a +:+ b = String c (a +:+ b).
Proof. reflexivity. Qed.

Lemma sapp_nil_l (s : string) : EmptyString +:+ s = s.
Proof. reflexivity. Qed.

Lemma sapp_nil_r (s : string) : s +:+ EmptyString = s.
Proof. induction s as [|c s IH]; [reflexivity|]. by rewrite sapp_cons, IH. Qed.

Lemma sapp_assoc (a b c : string) : (a +:+ b) +:+ c = a +:+ (b +:+ c).
Proof.
  induction a as [|x a IH]; [reflexivity|].
  by rewrite !sapp_cons, IH.
Qed.

Lemma eqb_true (a b : string) : Py.eqb a b = true <-> a = b.
Proof. unfold Py.eqb. apply bool_decide_eq_true. Qed.

Lemma eqb_false (a b : string) : Py.eqb a b = false <-> a <> b.
Proof. unfold Py.eqb. apply bool_decide_eq_false. Qed.

Lemma eqb_refl (a : string) : Py.eqb a a = true.
Proof. by apply eqb_true. Qed.

Lemma upper_char_idem (c : ascii) :
  Py.upper_char (Py.upper_char c) = Py.upper_char c.
Proof. destruct c as [[] [] [] [] [] [] [] []]; reflexivity. Qed.

Lemma upper_idem (s : string) : Py.upper (Py.upper s) = Py.upper s.
Proof.
  induction s as [|c s IH]; simpl; [reflexivity|].
  by rewrite upper_char_idem, IH.
Qed.

Lemma upper_app (a b : string) :
  Py.upper (a +:+ b) = Py.upper a +:+ Py.upper b.
Proof.
  induction a as [|c a IH]; [reflexivity|].
  rewrite sapp_cons. simpl. by rewrite IH.
Qed.

Lemma take_upper (n : nat) (s : string) :
  Py.take n (Py.upper s) = Py.upper (Py.take n s).
Proof.
  revert s. induction n as [|n IH]; intros [|c s]; simpl; try reflexivity.
  by rewrite IH.
Qed.

(** ** The constructor and the choice of the backend *)

(** C6: with the hardened flag the HTTP backend is chosen whatever the
    caller passed for [http] and [_file], and a supplied release becomes
    its first two characters followed by [-STABLE], in upper case. *)
Theorem hardened_forces_http_and_stable
    (cfg_pool cfg_iocroot uname_arch : string) (a : init_args) :
  a_hardened a = true ->
  let o := init cfg_pool cfg_iocroot uname_arch a in
  http o = true /\
  fetch_release_backend o = HttpBackend /\
  (forall r, a_release a = Some r -> r <> EmptyString ->
     release o = Some (Py.upper (Py.take 2 r) +:+ "-STABLE")) /\
  (Py.truthy (a_release a) = false -> release o = a_release a).
Proof.
  intros Hh o. subst o. unfold fetch_release_backend, init. rewrite Hh.
  cbn [http release _file].
  repeat split.
  - intros r Hr Hne. rewrite Hr. destruct r as [|c r]; [done|].
    unfold Py.truthy. unfold fmap, option_fmap, option_map. f_equal.
    rewrite upper_app, take_upper, upper_idem. reflexivity.
  - intros Hf. by rewrite Hf.
Qed.

Lemma hardened_forces_http_and_stable_witness :
  let o := init "zroot" "/iocage" "amd64"
             (mkArgs (Some "11.1-release") "ftp.freebsd.org" None None
                false true true true true true default_files) in
  http o = true /\
  fetch_release_backend o = HttpBackend /\
  release o = Some "11-STABLE".
Proof.
  pose proof (hardened_forces_http_and_stable "zroot" "/iocage" "amd64"
    (mkArgs (Some "11.1-release") "ftp.freebsd.org" None None
       false true true true true true default_files) eq_refl) as H.
  cbv zeta in H. destruct H as (H1 & H2 & H3 & _).
  split; [exact H1|]. split; [exact H2|].
  exact (H3 "11.1-release" eq_refl ltac:(discriminate)).
Defined.

(** ** The monad *)

Lemma logit_exception {W} (msg : string) (s : st W) :
  logit "EXCEPTION" msg s = (Raise (Fatal msg), s).
Proof. reflexivity. Qed.

Lemma logit_info {W} (msg : string) (s : st W) :
  logit "INFO" msg s
  = (Ok tt, mkSt (self s) (world s) (trace s ++ [Log "INFO" msg])).
Proof. reflexivity. Qed.

Lemma logit_warning {W} (msg : string) (s : st W) :
  logit "WARNING" msg s
  = (Ok tt, mkSt (self s) (world s) (trace s ++ [Log "WARNING" msg])).
Proof. reflexivity. Qed.

Lemma logit_error {W} (msg : string) (s : st W) :
  logit "ERROR" msg s
  = (Ok tt, mkSt (self s) (world s) (trace s ++ [Log "ERROR" msg])).
Proof. reflexivity. Qed.

Lemma st_eta {W} (s : st W) : mkSt (self s) (world s) (trace s) = s.
Proof. by destruct s. Qed.

(** Runs the monad's plumbing as far as the data allows. *)
Ltac mrun :=
  repeat (progress (unfold bind, ret, raise, get_self, put_self, get_world,
                    put_world, emit, try_except; cbv beta iota)).

(** ** Release selection *)

Lemma all_chars_complete (c : ascii) : c ∈ MenuIndex.all_chars.
Proof.
  unfold MenuIndex.all_chars. apply list_elem_of_fmap.
  exists (nat_of_ascii c). split; [by rewrite ascii_nat_embedding|].
  apply elem_of_seq. pose proof (nat_ascii_bounded c). lia.
Qed.

Lemma for_all_chars (P : ascii -> bool) :
  forallb P MenuIndex.all_chars = true -> forall c, P c = true.
Proof.
  intros H c. rewrite forallb_forall in H. apply H.
  apply list_elem_of_In. apply all_chars_complete.
Qed.

(** On an input of at most two characters [int()] reads what the decimal
    notation says. *)
Lemma py_int_short (r : string) :
  (String.length r <= 2)%nat -> Validate.py_int r = MenuIndex.short_index r.
Proof.
  destruct r as [|a [|b [|c r]]]; intros Hlen.
  - reflexivity.
  - clear Hlen. apply (bool_decide_unpack _). apply Is_true_true. revert a.
    apply (for_all_chars
             (fun a => bool_decide (Validate.py_int (String a "")
                                    = MenuIndex.short_index (String a "")))).
    vm_compute. reflexivity.
  - clear Hlen. apply (bool_decide_unpack _).
    apply Is_true_true.
    revert b. apply (for_all_chars
      (fun b => bool_decide (Validate.py_int (String a (String b ""))
                             = MenuIndex.short_index (String a (String b ""))))).
    revert a. apply (for_all_chars
      (fun a => forallb
         (fun b => bool_decide (Validate.py_int (String a (String b ""))
                                = MenuIndex.short_index (String a (String b ""))))
         MenuIndex.all_chars)).
    vm_compute. reflexivity.
  - simpl in Hlen. lia.
Qed.

Lemma getitem_entry_at {A} (l : list A) (i : Z) :
  Validate.getitem l i = MenuIndex.entry_at l i.
Proof.
  unfold Validate.getitem, MenuIndex.entry_at.
  destruct (i <? 0) eqn:Hneg.
  - apply Z.ltb_lt in Hneg.
    assert ((0 <=? i) = false) as -> by lia.
    destruct ((0 <=? i + Z.of_nat (length l))
              && (i + Z.of_nat (length l) <? Z.of_nat (length l))) eqn:Hr.
    + apply andb_true_iff in Hr as [H1 H2].
      apply Z.leb_le in H1. apply Z.ltb_lt in H2.
      rewrite reverse_lookup by lia. f_equal. lia.
    + symmetry. apply lookup_ge_None. rewrite length_reverse.
      apply andb_false_iff in Hr as [Hr|Hr]; lia.
  - apply Z.ltb_ge in Hneg.
    assert ((0 <=? i) = true) as -> by lia. cbn [andb].
    destruct (i <? Z.of_nat (length l)) eqn:Hr; [done|].
    symmetry. apply lookup_ge_None. lia.
Qed.

(** C8, as the code has it: apart from the word exit, in whatever mix of
    upper and lower case, the length of the input alone decides how it is
    read.  A longer input is looked up by name, whatever number it may
    spell.  An input of at most two characters is read as a decimal index
    and never compared with the names of the list: one or two digits, a
    digit with a sign in front or with a blank beside it select the entry
    counted from the front, or from the back for a negative index, and an
    index outside the list is fatal; where the input is no such number the
    host's release stands in. *)
Theorem validate_release_by_length {W} (u : string)
    (releases : list string) (r : string) (s : st W) :
  release (self s) = Some r ->
  Py.lower r <> "exit" ->
  ((2 < String.length r)%nat ->
   Validate.fetch_validate_release u releases s =
     (if bool_decide (r ∈ releases) then Ok r
      else Raise (Fatal ("'" +:+ r +:+ "' is not in list")), s)) /\
  ((String.length r <= 2)%nat ->
   match MenuIndex.short_index r with
   | Some i =>
       match MenuIndex.entry_at releases i with
       | Some x =>
           Validate.fetch_validate_release u releases s =
             (Ok x, mkSt (set_release (self s) (Some x)) (world s) (trace s))
       | None =>
           Validate.fetch_validate_release u releases s =
             (Raise (Fatal ("[" +:+ r +:+ "] is not in the list!")), s)
       end
   | None =>
       let host := Validate.host_release u in
       fst (Validate.fetch_validate_release u releases s) =
         if Py.contains "-STABLE" host || bool_decide (host ∈ releases)
         then Ok host
         else Raise (Fatal "Please select an item!")
   end).
Proof.
  intros Hrel Hexit.
  assert (Hne : Py.eqb (Py.lower r) "exit" = false) by by apply eqb_false.
  split; intros Hlen.
  - unfold Validate.fetch_validate_release, Validate.current_release,
      Validate.list_index_check.
    mrun. rewrite Hrel. mrun. rewrite Hne.
    assert ((2 <? String.length r)%nat = true) as -> by by apply Nat.ltb_lt.
    unfold Py.mem. destruct (bool_decide (r ∈ releases)); mrun.
    + by rewrite Hrel.
    + by rewrite logit_exception.
  - unfold Validate.fetch_validate_release, Validate.current_release.
    mrun. rewrite Hrel. mrun. rewrite Hne.
    assert ((2 <? String.length r)%nat = false) as ->
      by (apply Nat.ltb_ge; lia).
    rewrite (py_int_short r Hlen).
    destruct (MenuIndex.short_index r) as [i|].
    + rewrite getitem_entry_at.
      destruct (MenuIndex.entry_at releases i) as [x|]; mrun.
      * reflexivity.
      * by rewrite logit_exception.
    + cbv zeta. unfold Validate.fetch_host_release. mrun.
      destruct (Py.contains "-STABLE" (Validate.host_release u)); mrun.
      * reflexivity.
      * unfold Validate.list_index_check, Py.mem.
        destruct (bool_decide (Validate.host_release u ∈ releases)); mrun.
        -- reflexivity.
        -- by rewrite logit_exception.
Qed.

Lemma validate_release_by_length_witness :
  let releases := ["9"; "11.1-RELEASE"; "100"] in
  let asked r :=
    mkSt (set_release (Sample.fetcher None false false false) (Some r))
      tt [] in
  Validate.fetch_validate_release "11.1-RELEASE-p4" releases (asked "9")
  = (Raise (Fatal "[9] is not in the list!"), asked "9") /\
  Validate.fetch_validate_release "11.1-RELEASE-p4" releases (asked "-1")
  = (Ok "100", asked "100") /\
  Validate.fetch_validate_release "11.1-RELEASE-p4" releases (asked "1 ")
  = (Ok "11.1-RELEASE", asked "11.1-RELEASE") /\
  fst (Validate.fetch_validate_release "11.1-RELEASE-p4" releases (asked "9x"))
  = Ok "11.1-RELEASE" /\
  Validate.fetch_validate_release "11.1-RELEASE-p4" releases (asked "100")
  = (Ok "100", asked "100").
Proof.
  intros releases asked.
  split; [|split; [|split; [|split]]].
  - refine (proj2 (validate_release_by_length (W:=unit) "11.1-RELEASE-p4"
                     releases "9" (asked "9") eq_refl _) _).
    + discriminate.
    + simpl. lia.
  - refine (proj2 (validate_release_by_length (W:=unit) "11.1-RELEASE-p4"
                     releases "-1" (asked "-1") eq_refl _) _).
    + discriminate.
    + simpl. lia.
  - refine (proj2 (validate_release_by_length (W:=unit) "11.1-RELEASE-p4"
                     releases "1 " (asked "1 ") eq_refl _) _).
    + discriminate.
    + simpl. lia.
  - refine (proj2 (validate_release_by_length (W:=unit) "11.1-RELEASE-p4"
                     releases "9x" (asked "9x") eq_refl _) _).
    + discriminate.
    + simpl. lia.
  - refine (proj1 (validate_release_by_length (W:=unit) "11.1-RELEASE-p4"
                     releases "100" (asked "100") eq_refl _) _).
    + discriminate.
    + simpl. lia.
Defined.

(** C8, as stated, fails: only the literal [exit] is set apart there, but
    the code sets apart the word in any case.  [EXIT], which is what the
    prompt asks for and what the constructor makes of [exit], is longer
    than two characters and a name of this list, and it is not looked up:
    the run ends. *)
Lemma upper_case_exit_is_not_looked_up :
  let releases := ["11.1-RELEASE"; "EXIT"] in
  let s := mkSt (Sample.fetcher (Some "exit") false false false) tt [] in
  release (self s) = Some "EXIT" /\
  "EXIT" <> "exit" /\
  (2 < String.length "EXIT")%nat /\
  "EXIT" ∈ releases /\
  Validate.fetch_validate_release "11.1-RELEASE-p4" releases s
  = (Raise (SystemExit 0), s).
Proof.
  split; [reflexivity|]. split; [discriminate|]. split; [simpl; lia|].
  split; [|reflexivity].
  apply (bool_decide_unpack _). vm_compute. exact I.
Qed.

(** ** [split] and [join] *)

Lemma split_nonempty (sep : ascii) (s : string) : Py.split sep s <> [].
Proof.
  destruct s as [|c s]; simpl; [done|].
  case_bool_decide; [done|]. by destruct (Py.split sep s).
Qed.

Lemma split_no_sep (sep : ascii) (s : string) :
  Py.has_char sep s = false -> Py.split sep s = [s].
Proof.
  induction s as [|c s IH]; simpl; [done|].
  intros H. apply orb_false_iff in H as [H1 H2].
  rewrite H1, (IH H2). reflexivity.
Qed.

Lemma split_app_sep (sep : ascii) (a b : string) :
  Py.split sep (a +:+ String sep b) = Py.split sep a ++ Py.split sep b.
Proof.
  induction a as [|c a IH].
  - rewrite sapp_nil_l. simpl. by rewrite bool_decide_eq_true_2.
  - rewrite sapp_cons. simpl. rewrite IH.
    case_bool_decide; [reflexivity|].
    pose proof (split_nonempty sep a). by destruct (Py.split sep a).
Qed.

Lemma join_split (sep : ascii) (s : string) :
  Py.join (String sep EmptyString) (Py.split sep s) = s.
Proof.
  induction s as [|c s IH]; simpl; [reflexivity|].
  pose proof (split_nonempty sep s) as Hne.
  case_bool_decide as Hc.
  - subst c. destruct (Py.split sep s) as [|h t] eqn:E; [done|].
    change (Py.join (String sep "") ("" :: h :: t))
      with ("" +:+ String sep "" +:+ Py.join (String sep "") (h :: t)).
    rewrite IH. reflexivity.
  - destruct (Py.split sep s) as [|h t] eqn:E; [done|].
    destruct t as [|h' t].
    + simpl in *. by rewrite IH.
    + change (Py.join (String sep "") (String c h :: h' :: t))
        with (String c h +:+ String sep "" +:+ Py.join (String sep "") (h' :: t)).
      change (Py.join (String sep "") (h :: h' :: t))
        with (h +:+ String sep "" +:+ Py.join (String sep "") (h' :: t)) in IH.
      rewrite sapp_cons. by rewrite IH.
Qed.

Lemma filter_ext_in {A} (P1 P2 : A -> Prop)
    `{!forall x, Decision (P1 x), !forall x, Decision (P2 x)} (l : list A) :
  Forall (fun x => P1 x <-> P2 x) l -> filter P1 l = filter P2 l.
Proof.
  induction 1 as [|x l Hx _ IH]; [reflexivity|].
  rewrite !filter_cons, IH.
  destruct (decide (P1 x)), (decide (P2 x)); tauto.
Qed.

(** ** Merging the properties of a plugin *)

Lemma prop_key_fmt (k v : string) :
  Py.has_char "=" k = false ->
  PluginProps.prop_key (k +:+ "=" +:+ v) = k.
Proof.
  intros Hk. unfold PluginProps.prop_key.
  change (k +:+ "=" +:+ v) with (k +:+ String "=" v).
  rewrite split_app_sep, (split_no_sep _ _ Hk). reflexivity.
Qed.

Lemma reformat_ok (p q : string) :
  PluginProps.reformat p = Ok q -> q = p.
Proof.
  unfold PluginProps.reformat. intros H.
  pose proof (join_split "=" p) as Hj.
  destruct (Py.split "=" p) as [|k [|v [|? ?]]]; try discriminate.
  injection H as <-. simpl in Hj. exact Hj.
Qed.

Lemma reformat_all_ok (props qs : list string) :
  PluginProps.reformat_all props = Ok qs -> qs = props.
Proof.
  revert qs. induction props as [|p props IH]; simpl; intros qs H.
  - by injection H as <-.
  - destruct (PluginProps.reformat p) as [q|] eqn:Hq; [|discriminate].
    destruct (PluginProps.reformat_all props) as [qs'|]; [|discriminate].
    injection H as <-. by rewrite (reformat_ok _ _ Hq), (IH qs' eq_refl).
Qed.

Lemma merge_loop_ok (fetch_release : M PluginProps.props_world unit)
    (json : list (string * string)) :
  NoDup json.*1 ->
  Forall (fun kv => Py.has_char "=" kv.1 = false) json ->
  forall (props l : list string) s s',
  PluginProps.merge_loop fetch_release json props s = (Ok l, s') ->
  l = props ++
      ((fun kv => kv.1 +:+ "=" +:+ kv.2) <$>
       filter (fun kv => kv.1 ∉ PluginProps.prop_key <$> props) json).
Proof.
  induction json as [|[k v] json IH]; intros Hnd Hkeys props l s s' H.
  - simpl in H. injection H as <- _. by rewrite app_nil_r.
  - apply NoDup_cons in Hnd as [Hk Hnd].
    apply Forall_cons in Hkeys as [Hke Hkeys]. simpl in Hke.
    simpl in H. unfold bind at 1 in H. unfold get_world at 1 in H.
    cbv beta iota in H. unfold bind at 1 in H.
    destruct ((if negb (PluginProps.release_isdir (world s))
               then fetch_release else ret ()) s) as [[[]|e] s1];
      [|discriminate].
    apply (IH Hnd Hkeys) in H. subst l.
    rewrite filter_cons. unfold Py.mem.
    case_bool_decide as Hin; simpl negb; cbv iota.
    + rewrite decide_False by (simpl; tauto). reflexivity.
    + rewrite decide_True by (simpl; tauto).
      rewrite fmap_cons, <- app_assoc. simpl. f_equal. f_equal. f_equal.
      apply filter_ext_in. apply Forall_forall. intros [k' v'] Hin'.
      simpl. rewrite fmap_app, elem_of_app. simpl.
      rewrite (prop_key_fmt _ _ Hke). rewrite list_elem_of_singleton.
      split; [tauto|]. intros Hn [?| ->]; [done|].
      apply Hk. apply list_elem_of_fmap. by exists (k, v').
Qed.

(** C7: when the method returns, the list it returns is the caller's
    properties, then the descriptor's properties whose key no caller
    property has, then the four fixed properties.  A descriptor property
    whose key the caller supplied is nowhere in the list, so the caller's
    value stands. *)
Theorem plugin_props_caller_wins
    (fetch_release : M PluginProps.props_world unit)
    (conf : descriptor) (props : list string)
    (s s' : st PluginProps.props_world)
    (create_props : list string)
    (repos : list (string * list (string * string))) :
  let json := default [] (d_properties conf) in
  NoDup json.*1 ->
  Forall (fun kv => Py.has_char "=" kv.1 = false) json ->
  PluginProps.fetch_plugin_props fetch_release conf props s
    = (Ok (create_props, repos), s') ->
  exists userland,
    create_props =
      props ++
      ((fun kv => kv.1 +:+ "=" +:+ kv.2) <$>
       filter (fun kv => kv.1 ∉ PluginProps.prop_key <$> props) json) ++
      ["cloned_release=" +:+ d_release conf; "release=" +:+ userland;
       "type=plugin"; "boot=on"].
Proof.
  intros json Hnd Hkeys H.
  unfold PluginProps.fetch_plugin_props in H.
  unfold bind at 1, get_self at 1 in H. cbv beta iota in H.
  unfold bind at 1, put_self at 1 in H. cbv beta iota in H.
  unfold bind at 1 in H.
  fold json in H.
  destruct (PluginProps.merge_loop fetch_release json props _)
    as [[l|e] s1] eqn:Hloop; [|discriminate].
  apply (merge_loop_ok _ _ Hnd Hkeys) in Hloop.
  unfold bind at 1 in H.
  match type of H with
  | (let (_, _) := ?m s1 in _) = _ => destruct (m s1) as [[[rel|]|e] s2]
  end; try discriminate.
  - destruct (PluginProps.reformat_all l) as [user|e] eqn:Hre;
      [|discriminate].
    injection H as <- _ _.
    apply reformat_all_ok in Hre. subst user l.
    exists rel. by rewrite <- app_assoc.
Qed.

Lemma plugin_props_caller_wins_witness :
  exists userland,
    ["ip4_addr=em0|10.0.0.2/24"; "boot=off"; "vnet=on";
     "cloned_release=11.1-RELEASE"; "release=11.1-RELEASE-p4";
     "type=plugin"; "boot=on"] =
    ["ip4_addr=em0|10.0.0.2/24"; "boot=off"] ++
    ((fun kv => kv.1 +:+ "=" +:+ kv.2) <$>
     filter (fun kv => kv.1 ∉ PluginProps.prop_key <$>
                         ["ip4_addr=em0|10.0.0.2/24"; "boot=off"])
       (default [] (d_properties Sample.quassel))) ++
    ["cloned_release=" +:+ d_release Sample.quassel; "release=" +:+ userland;
     "type=plugin"; "boot=on"].
Proof.
  eapply (plugin_props_caller_wins (ret tt) Sample.quassel
            ["ip4_addr=em0|10.0.0.2/24"; "boot=off"]
            (mkSt (Sample.fetcher None false false false)
               Sample.release_on_disk [])).
  - apply (bool_decide_unpack _). vm_compute. exact I.
  - repeat constructor.
  - vm_compute. reflexivity.
Defined.

(** ** The files of the trusted repositories *)

Lemma writes_to_app (p : string) (t1 t2 : list event) :
  Plugin.writes_to p (t1 ++ t2)
  = (Plugin.writes_to p t1 + Plugin.writes_to p t2)%nat.
Proof.
  unfold Plugin.writes_to. by rewrite List.filter_app, length_app.
Qed.

Lemma write_file_run (q c : string) (s : st Plugin.plugin_world) :
  Plugin.write_file q c s
  = (Ok tt, mkSt (self s) (Plugin.with_fs (world s) (<[q := c]> (Plugin.fs (world s))))
              (trace s ++ [WriteFile q])).
Proof. reflexivity. Qed.

Lemma makedirs_quiet (d : string) (h : Plugin.PM unit)
    (s : st Plugin.plugin_world) :
  Plugin.ignore_oserror (Plugin.makedirs d) h s = h s \/
  exists ds,
    Plugin.ignore_oserror (Plugin.makedirs d) h s
    = (Ok tt, mkSt (self s) (Plugin.with_dirs (world s) ds) (trace s)).
Proof.
  unfold Plugin.ignore_oserror, Plugin.makedirs. mrun.
  case_bool_decide; mrun; [left|right]; [reflexivity|eauto].
Qed.

Lemma write_fingerprints_run (q : string) (pairs : list (string * string)) :
  forall s : st Plugin.plugin_world,
  exists s',
    Plugin.write_fingerprints q pairs s = (Ok tt, s') /\
    self s' = self s /\
    Plugin.writes_to q (trace s')
      = (Plugin.writes_to q (trace s) + length pairs)%nat /\
    (forall a b, last pairs = Some (a, b) ->
       Plugin.fs (world s') !! q = Some (Plugin.finger_conf a b)) /\
    (forall p, p <> q ->
       Plugin.fs (world s') !! p = Plugin.fs (world s) !! p /\
       Plugin.writes_to p (trace s') = Plugin.writes_to p (trace s)).
Proof.
  induction pairs as [|[a b] pairs IH]; intros s.
  - exists s. simpl. repeat split; try done; try lia.
  - simpl. unfold bind at 1. rewrite write_file_run.
    destruct (IH (mkSt (self s)
                    (Plugin.with_fs (world s)
                       (<[q := Plugin.finger_conf a b]> (Plugin.fs (world s))))
                    (trace s ++ [WriteFile q])))
      as (s' & Hrun & Hself & Hcount & Hlast & Hother).
    exists s'. rewrite Hrun. simpl in *. repeat split; try done.
    + rewrite Hcount, writes_to_app. unfold Plugin.writes_to at 2. simpl.
      rewrite eqb_refl. simpl. lia.
    + intros a' b' Hl. destruct pairs as [|x pairs].
      * simpl in Hl. injection Hl as <- <-.
        simpl in Hrun. injection Hrun as <-. simpl.
        apply lookup_insert_eq.
      * apply Hlast. exact Hl.
    + destruct (Hother p H) as [-> _]. by apply lookup_insert_ne.
    + destruct (Hother p H) as [_ ->]. rewrite writes_to_app.
      unfold Plugin.writes_to at 2. simpl.
      assert (Py.eqb q p = false) as -> by (apply eqb_false; congruence).
      simpl. lia.
Qed.

Lemma length_sapp (a b : string) :
  String.length (a +:+ b) = (String.length a + String.length b)%nat.
Proof.
  induction a as [|c a IH]; [reflexivity|].
  rewrite sapp_cons. simpl. by rewrite IH.
Qed.

Lemma sapp_eq_length (a b x y : string) :
  a +:+ x = b +:+ y -> String.length a = String.length b -> a = b.
Proof.
  revert b. induction a as [|c a IH]; intros [|d b] H Hl; try discriminate.
  - reflexivity.
  - rewrite !sapp_cons in H. injection H as -> H. injection Hl as Hl.
    by rewrite (IH b H Hl).
Qed.

Lemma sapp_inj_l (a x y : string) : a +:+ x = a +:+ y -> x = y.
Proof.
  induction a as [|c a IH]; [done|].
  rewrite !sapp_cons. intros H. injection H as H. auto.
Qed.

Lemma fingerprint_file_inj (jaildir n1 n2 : string) :
  Plugin.fingerprint_file jaildir n1 = Plugin.fingerprint_file jaildir n2 ->
  n1 = n2.
Proof.
  unfold Plugin.fingerprint_file, Plugin.fingerprint_dir.
  rewrite !sapp_assoc. intros H.
  apply sapp_inj_l, sapp_inj_l in H.
  apply (sapp_eq_length _ _ _ _ H).
  apply (f_equal String.length) in H. rewrite !length_sapp in H.
  simpl in H. lia.
Qed.

Lemma repo_file_not_fingerprint_file (jaildir n1 n2 : string) :
  Plugin.repo_file (jaildir +:+ "/root/usr/local/etc/pkg/repos") n1
  <> Plugin.fingerprint_file jaildir n2.
Proof.
  unfold Plugin.repo_file, Plugin.fingerprint_file, Plugin.fingerprint_dir.
  rewrite !sapp_assoc. intros H. apply sapp_inj_l in H.
  rewrite !sapp_cons in H. discriminate.
Qed.

Lemma freebsd_conf_not_fingerprint_file (jaildir n : string) :
  jaildir +:+ "/root/usr/local/etc/pkg/repos/FreeBSD.conf"
  <> Plugin.fingerprint_file jaildir n.
Proof.
  unfold Plugin.fingerprint_file, Plugin.fingerprint_dir.
  rewrite !sapp_assoc. intros H. apply sapp_inj_l in H.
  rewrite !sapp_cons in H. discriminate.
Qed.

Lemma makedirs_frame (d : string) (h : Plugin.PM unit)
    (s : st Plugin.plugin_world) :
  (h = ret tt \/ exists msg, h = logit "ERROR" msg) ->
  exists s1,
    Plugin.ignore_oserror (Plugin.makedirs d) h s = (Ok tt, s1) /\
    self s1 = self s /\
    Plugin.fs (world s1) = Plugin.fs (world s) /\
    Plugin.oracle (world s1) = Plugin.oracle (world s) /\
    Plugin.jails (world s1) = Plugin.jails (world s) /\
    Plugin.clock (world s1) = Plugin.clock (world s) /\
    forall p, Plugin.writes_to p (trace s1) = Plugin.writes_to p (trace s).
Proof.
  intros Hh. destruct (makedirs_quiet d h s) as [E|[ds E]]; rewrite E.
  - destruct Hh as [->|[msg ->]].
    + exists s. by repeat split.
    + rewrite logit_error. eexists. split; [reflexivity|]. simpl.
      repeat split; try done.
      intros p. rewrite writes_to_app. unfold Plugin.writes_to at 2. simpl. lia.
  - eexists. split; [reflexivity|]. by repeat split.
Qed.

Lemma write_repos_run (jaildir packagesite : string)
    (repos : list (string * list (string * string))) :
  let repo_dir := jaildir +:+ "/root/usr/local/etc/pkg/repos" in
  NoDup repos.*1 ->
  forall (rn r : option string) (s s' : st Plugin.plugin_world),
  Plugin.write_repos jaildir repo_dir packagesite repos rn s = (Ok r, s') ->
  self s' = self s /\
  Plugin.oracle (world s') = Plugin.oracle (world s) /\
  Plugin.jails (world s') = Plugin.jails (world s) /\
  Plugin.clock (world s') = Plugin.clock (world s) /\
  (forall n pairs, (n, pairs) ∈ repos ->
     Plugin.writes_to (Plugin.fingerprint_file jaildir n) (trace s')
     = (Plugin.writes_to (Plugin.fingerprint_file jaildir n) (trace s)
        + length pairs)%nat /\
     forall a b, last pairs = Some (a, b) ->
       Plugin.fs (world s') !! Plugin.fingerprint_file jaildir n
       = Some (Plugin.finger_conf a b)) /\
  (forall p,
     (forall n pairs, (n, pairs) ∈ repos ->
        p <> Plugin.repo_file repo_dir n /\
        p <> Plugin.fingerprint_file jaildir n) ->
     Plugin.fs (world s') !! p = Plugin.fs (world s) !! p /\
     Plugin.writes_to p (trace s') = Plugin.writes_to p (trace s)).
Proof.
  intros repo_dir. induction repos as [|[n0 pairs0] repos IH];
    intros Hnd rn r s s' H.
  - simpl in H. injection H as _ <-.
    do 4 (split; [done|]). split.
    + intros n pairs Hin. by apply elem_of_nil in Hin.
    + by intros p _.
  - apply NoDup_cons in Hnd as [Hn0 Hnd]. simpl in H.
    unfold bind at 1 in H.
    destruct (makedirs_frame (Plugin.fingerprint_dir jaildir n0)
                (logit "ERROR" ("Repo: " +:+ n0 +:+ " already exists, skipping!"))
                s) as (s1 & E1 & Hself1 & Hfs1 & Ho1 & Hj1 & Hc1 & Hw1);
      [right; eauto|].
    rewrite E1 in H. unfold bind at 1 in H. rewrite write_file_run in H.
    unfold bind at 1 in H.
    match type of H with
    | (let (_, _) := Plugin.write_fingerprints ?q ?ps ?s2 in _) = _ =>
        destruct (write_fingerprints_run q ps s2)
          as (s3 & E3 & Hself3 & Hcnt3 & Hlast3 & Hoth3);
        rewrite E3 in H
    end.
    assert (Hw3 : Plugin.oracle (world s3) = Plugin.oracle (world s) /\
                  Plugin.jails (world s3) = Plugin.jails (world s) /\
                  Plugin.clock (world s3) = Plugin.clock (world s)).
    { clear -E3 Ho1 Hj1 Hc1. revert E3.
      generalize (Plugin.fingerprint_file jaildir n0).
      intros q. revert s3.
      match goal with |- forall s3, Plugin.write_fingerprints q pairs0 ?s2 = _ -> _ =>
        assert (Plugin.oracle (world s2) = Plugin.oracle (world s) /\
                Plugin.jails (world s2) = Plugin.jails (world s) /\
                Plugin.clock (world s2) = Plugin.clock (world s)) as Hs2
          by (simpl; auto);
        generalize dependent s2
      end.
      induction pairs0 as [|[a b] ps IHp]; intros s2 Hs2 s3 E.
      - simpl in E. by injection E as <-.
      - simpl in E. unfold bind at 1 in E. rewrite write_file_run in E.
        apply IHp in E; [exact E|]. simpl. exact Hs2. }
    destruct Hw3 as (Ho3 & Hj3 & Hc3).
    apply (IH Hnd) in H as (Hself & Ho & Hj & Hc & Hin & Hout).
    simpl in Hself3, Hcnt3, Hoth3.
    split; [congruence|]. split; [congruence|]. split; [congruence|].
    split; [congruence|].
    assert (Hrf : forall p tr, p <> Plugin.repo_file repo_dir n0 ->
              Plugin.writes_to p (tr ++ [WriteFile (Plugin.repo_file repo_dir n0)])
              = Plugin.writes_to p tr).
    { intros p tr Hp. rewrite writes_to_app. unfold Plugin.writes_to at 2. simpl.
      assert (Py.eqb (Plugin.repo_file repo_dir n0) p = false) as ->
        by (apply eqb_false; congruence).
      simpl. lia. }
    split.
    + intros n pairs Hel. apply elem_of_cons in Hel as [Heq|Hel].
      * injection Heq as -> ->.
        destruct (Hout (Plugin.fingerprint_file jaildir n0)) as [Hf Hw].
        { intros n' pairs' Hin'. split.
          - intros E. symmetry in E.
            by apply repo_file_not_fingerprint_file in E.
          - intros E. apply fingerprint_file_inj in E. subst n'.
            apply Hn0. apply list_elem_of_fmap. by exists (n0, pairs'). }
        split.
        -- rewrite Hw, Hcnt3, Hrf, Hw1; [reflexivity|].
           intros E. symmetry in E.
           by apply repo_file_not_fingerprint_file in E.
        -- intros a b Hl. rewrite Hf. by apply Hlast3.
      * destruct (Hin n pairs Hel) as [Hcnt Hl]. split; [|exact Hl].
        rewrite Hcnt. f_equal.
        assert (Hne : Plugin.fingerprint_file jaildir n
                      <> Plugin.fingerprint_file jaildir n0).
        { intros E. apply fingerprint_file_inj in E. subst n.
          apply Hn0. apply list_elem_of_fmap. by exists (n0, pairs). }
        destruct (Hoth3 _ Hne) as [_ ->]. rewrite Hrf.
        -- apply Hw1.
        -- intros E. symmetry in E.
           by apply repo_file_not_fingerprint_file in E.
    + intros p Hp.
      destruct (Hp n0 pairs0 ltac:(by left)) as [Hp1 Hp2].
      destruct (Hout p) as [Hf Hw].
      { intros n pairs Hel. apply (Hp n pairs). by right. }
      destruct (Hoth3 p Hp2) as [Hf3 Hw3]. split.
      * rewrite Hf, Hf3. simpl. rewrite lookup_insert_ne by congruence.
        by rewrite Hfs1.
      * rewrite Hw, Hw3, (Hrf p _ Hp1). apply Hw1.
Qed.

Lemma external_ok (e : event) (s s' : st Plugin.plugin_world) :
  Plugin.external e s = (Ok tt, s') ->
  self s' = self s /\
  Plugin.fs (world s') = Plugin.fs (world s) /\
  Plugin.jails (world s') = Plugin.jails (world s) /\
  Plugin.oracle (world s') = Plugin.oracle (world s) /\
  trace s' = trace s ++ [e].
Proof.
  unfold Plugin.external. mrun. case_bool_decide; mrun; [discriminate|].
  intros E. injection E as <-. by repeat split.
Qed.

Lemma external_writes (e : event) (s s' : st Plugin.plugin_world) (p : string) :
  (forall q, e <> WriteFile q) ->
  Plugin.external e s = (Ok tt, s') ->
  Plugin.writes_to p (trace s') = Plugin.writes_to p (trace s).
Proof.
  intros He H. apply external_ok in H as (_ & _ & _ & _ & ->).
  rewrite writes_to_app. unfold Plugin.writes_to at 2.
  destruct e; simpl; try lia. by destruct (He path).
Qed.

Lemma load_kmods_ok (kmods : list string) :
  forall s s' : st Plugin.plugin_world,
  Plugin.load_kmods kmods s = (Ok tt, s') ->
  self s' = self s /\
  Plugin.fs (world s') = Plugin.fs (world s) /\
  forall p, Plugin.writes_to p (trace s') = Plugin.writes_to p (trace s).
Proof.
  induction kmods as [|k kmods IH]; intros s s' H.
  - simpl in H. by injection H as <-.
  - simpl in H. unfold bind at 1 in H.
    destruct (Plugin.external (Kldload k) s) as [[[]|e] s1] eqn:E1;
      [|discriminate].
    apply external_ok in E1 as Hx. destruct Hx as (Hs1 & Hf1 & _ & _ & Ht1).
    unfold bind at 1, get_world at 1 in H. cbv beta iota in H.
    unfold bind at 1 in H.
    destruct (Plugin.kmod_loads (Plugin.oracle (world s1)) k).
    + unfold ret at 1 in H. apply IH in H as (-> & -> & Hw).
      split; [done|]. split; [done|]. intros p. rewrite Hw, Ht1.
      rewrite writes_to_app. unfold Plugin.writes_to at 2. simpl. lia.
    + rewrite logit_exception in H. discriminate.
Qed.

(** C9: for a repository with more than one (function, fingerprint) pair the
    one fingerprint file is opened for writing once per pair, each time
    truncated, and when the packages are installed it holds the two lines
    of the last pair of the list, the function and the fingerprint, and
    nothing else: nothing of the pairs before it. *)
Theorem fingerprint_file_keeps_last_pair
    (uuid jaildir : string) (conf : descriptor) (_conf : Plugin.jail_conf)
    (pkg_repos : list (string * list (string * string)))
    (create_props : list string) (s s' : st Plugin.plugin_world) :
  NoDup pkg_repos.*1 ->
  Plugin.fetch_plugin_install_packages uuid jaildir conf _conf pkg_repos
    create_props (jaildir +:+ "/root/usr/local/etc/pkg/repos") s
    = (Ok tt, s') ->
  forall name pairs,
    (name, pairs) ∈ pkg_repos ->
    (1 < length pairs)%nat ->
    let f_file := Plugin.fingerprint_file jaildir name in
    Plugin.writes_to f_file (trace s')
    = (Plugin.writes_to f_file (trace s) + length pairs)%nat /\
    exists function fingerprint,
      last pairs = Some (function, fingerprint) /\
      Plugin.fs (world s') !! f_file
      = Some ("function: " +:+ function +:+ String "010" "" +:+
              "fingerprint: " +:+ fingerprint +:+ String "010" "").
Proof.
  intros Hnd H name pairs Hin Hlen f_file. subst f_file.
  unfold Plugin.fetch_plugin_install_packages in H.
  unfold bind at 1 in H.
  destruct (Plugin.load_kmods (d_kmods conf) s) as [[[]|e] s1] eqn:E1;
    [|discriminate].
  apply load_kmods_ok in E1 as (Hs1 & Hf1 & Hw1).
  unfold bind at 1 in H.
  destruct (makedirs_frame (jaildir +:+ "/root/usr/local/etc/pkg/repos")
              (ret tt) s1 ltac:(by left))
    as (s2 & E2 & _ & Hf2 & _ & _ & _ & Hw2).
  rewrite E2 in H. unfold bind at 1 in H.
  destruct (makedirs_frame (jaildir +:+ "/root/usr/local/etc/pkg/repos")
              (ret tt) s2 ltac:(by left))
    as (s3 & E3 & _ & Hf3 & _ & _ & _ & Hw3).
  rewrite E3 in H. unfold bind at 1 in H. rewrite write_file_run in H.
  unfold bind at 1 in H.
  match type of H with
  | (let (_, _) := Plugin.write_repos _ _ _ _ _ ?s4 in _) = _ =>
      destruct (Plugin.write_repos jaildir
                  (jaildir +:+ "/root/usr/local/etc/pkg/repos")
                  (d_packagesite conf) pkg_repos None s4)
        as [[rn|e] s5] eqn:E5; [|discriminate]
  end.
  apply (write_repos_run _ _ _ Hnd) in E5
    as (_ & _ & _ & _ & Hrepos & _).
  destruct (Hrepos name pairs Hin) as [Hcnt Hlast].
  simpl in Hcnt.
  assert (Hfin : Plugin.fs (world s') = Plugin.fs (world s5) /\
                 Plugin.writes_to (Plugin.fingerprint_file jaildir name) (trace s')
                 = Plugin.writes_to (Plugin.fingerprint_file jaildir name) (trace s5)).
  { destruct rn as [rn|]; [|discriminate].
    unfold bind at 1 in H.
    destruct (Plugin.external (InstallPackages uuid) s5)
      as [[[]|e] s6] eqn:E6; [|discriminate].
    assert (Hw6 := external_writes (InstallPackages uuid) s5 s6 (Plugin.fingerprint_file jaildir name) ltac:(intros; discriminate) E6).
    apply external_ok in E6 as (_ & Hf6 & _ & _ & _).
    unfold bind at 1, get_world at 1 in H. cbv beta iota in H.
    destruct (Plugin.install_err (Plugin.oracle (world s6))).
    - rewrite logit_error in H. injection H as <-. simpl. split; [done|].
      rewrite writes_to_app, Hw6. unfold Plugin.writes_to at 2. simpl. lia.
    - unfold ret in H. injection H as <-. by split. }
  destruct Hfin as [Hfs Hws]. split.
  - rewrite Hws, Hcnt. f_equal. rewrite writes_to_app.
    unfold Plugin.writes_to at 2. simpl.
    assert (Py.eqb (jaildir +:+ "/root/usr/local/etc/pkg/repos/FreeBSD.conf")
              (Plugin.fingerprint_file jaildir name) = false) as ->
      by (apply eqb_false, freebsd_conf_not_fingerprint_file).
    simpl. rewrite Hw3, Hw2, Hw1. lia.
  - destruct (last pairs) as [[a b]|] eqn:El.
    + exists a, b. split; [done|]. rewrite Hfs. exact (Hlast a b eq_refl).
    + apply last_None in El. subst pairs. simpl in Hlen. lia.
Qed.

Lemma fingerprint_file_keeps_last_pair_witness :
  let s0 := Sample.host (Sample.answers Sample.static_address (fun _ => true) None) in
  let s' :=
    snd (Plugin.fetch_plugin_install_packages "quasselcore" Sample.jaildir
           Sample.quassel Sample.static_address
           (d_fingerprints Sample.quassel) []
           (Sample.jaildir +:+ "/root/usr/local/etc/pkg/repos") s0) in
  let f_file := Plugin.fingerprint_file Sample.jaildir "iocage-plugins" in
  Plugin.writes_to f_file (trace s')
  = (Plugin.writes_to f_file (trace s0) + 2)%nat /\
  exists function fingerprint,
    last [("sha256", "226efd3a"); ("sha256", "b0170035")]
    = Some (function, fingerprint) /\
    Plugin.fs (world s') !! f_file
    = Some ("function: " +:+ function +:+ String "010" "" +:+
            "fingerprint: " +:+ fingerprint +:+ String "010" "").
Proof.
  intros s0 s' f_file.
  refine (fingerprint_file_keeps_last_pair "quasselcore" Sample.jaildir
            Sample.quassel Sample.static_address
            (d_fingerprints Sample.quassel) [] s0 s' _ _ "iocage-plugins"
            [("sha256", "226efd3a"); ("sha256", "b0170035")] _ _).
  - apply (bool_decide_unpack _). vm_compute. exact I.
  - vm_compute. reflexivity.
  - simpl. by left.
  - simpl. lia.
Defined.

(** ** Plugin provisioning and the destruction of the partial jail *)

Lemma basename_sep (a u : string) :
  Py.has_char "/" u = false -> Plugin.basename (a +:+ String "/" u) = u.
Proof.
  intros Hu. unfold Plugin.basename.
  rewrite split_app_sep, (split_no_sep _ _ Hu), last_app. reflexivity.
Qed.

Lemma basename_jails (a u : string) :
  Py.has_char "/" u = false ->
  Plugin.basename (a +:+ "/jails/" +:+ u) = u.
Proof.
  intros Hu.
  change (a +:+ "/jails/" +:+ u) with (a +:+ ("/jails" +:+ String "/" u)).
  rewrite <- sapp_assoc. by apply basename_sep.
Qed.

Lemma basename_iocage_jails (a u : string) :
  Py.has_char "/" u = false ->
  Plugin.basename (a +:+ "/iocage/jails/" +:+ u) = u.
Proof.
  intros Hu.
  change (a +:+ "/iocage/jails/" +:+ u)
    with (a +:+ ("/iocage/jails" +:+ String "/" u)).
  rewrite <- sapp_assoc. by apply basename_sep.
Qed.

Lemma destroy_jail_run (path : string) (s : st Plugin.plugin_world) :
  Plugin.interrupt_at (Plugin.oracle (world s))
  <> Some (Plugin.clock (world s)) ->
  Plugin.destroy_jail path s
  = (Ok tt,
     mkSt (self s)
       (Plugin.mkPluginWorld
          (Plugin.jails (world s) ∖ {[ Plugin.basename path ]})
          (Plugin.fs (world s)) (Plugin.dirs (world s))
          (S (Plugin.clock (world s))) (Plugin.oracle (world s)))
       (trace s ++ [DestroyJail path])).
Proof.
  intros Hi. unfold Plugin.destroy_jail, Plugin.external. mrun. simpl.
  rewrite bool_decide_eq_false_2 by exact Hi. mrun. reflexivity.
Qed.

(** X25 ([fetch_plugin], [__fetch_plugin_create__]): the two paths on which
    the partial jail is destroyed.  A created jail without IPv4 address,
    IPv6 address and DHCP is destroyed and the run ends with a fatal error;
    an interruption that reaches the [try] statement of [fetch_plugin], be
    it raised in creation, package installation or post-install, destroys
    the jail and exits with status 1. *)
Theorem plugin_destroyed_without_address_or_on_interrupt
    (conf : descriptor) (props : list string)
    (pkg : list (string * list (string * string)))
    (s : st Plugin.plugin_world) :
  Py.has_char "/" (d_name conf) = false ->
  (Plugin.interrupt_at (Plugin.oracle (world s)) = None ->
   Plugin.create_outcome (Plugin.oracle (world s)) = None ->
   Plugin.ip4_addr (Plugin.created_conf (Plugin.oracle (world s))) = "none" ->
   Plugin.ip6_addr (Plugin.created_conf (Plugin.oracle (world s))) = "none" ->
   Plugin.dhcp (Plugin.created_conf (Plugin.oracle (world s))) <> "on" ->
   exists s',
     PluginRun.fetch_plugin conf props pkg s
     = (Raise (Fatal "Destroyed partial plugin."), s') /\
     (d_name conf ∉ Plugin.jails (world s')) /\
     last (trace s')
     = Some (DestroyJail (pool (self s) +:+ "/iocage/jails/" +:+ d_name conf)))
  /\
  (forall s1,
     PluginRun.provision conf props pkg s = (Raise KeyboardInterrupt, s1) ->
     Plugin.interrupt_at (Plugin.oracle (world s1))
     <> Some (Plugin.clock (world s1)) ->
     exists s',
       PluginRun.fetch_plugin conf props pkg s = (Raise (SystemExit 1), s') /\
       (d_name conf ∉ Plugin.jails (world s')) /\
       trace s'
       = trace s1 ++ [DestroyJail (iocroot (self s) +:+ "/jails/" +:+ d_name conf)]).
Proof.
  intros Hname. split.
  - intros Hint Hcreate H4 H6 Hdhcp.
    destruct s as [o [j f d c a] tr]. simpl in *.
    unfold PluginRun.fetch_plugin, PluginRun.provision,
      Plugin.fetch_plugin_create, Plugin.create_jail, Plugin.external.
    mrun. simpl. rewrite Hint. rewrite bool_decide_eq_false_2 by discriminate.
    mrun. simpl. rewrite Hcreate. mrun. simpl. rewrite H4, H6.
    assert (Py.eqb (Plugin.dhcp (Plugin.created_conf a)) "on" = false) as ->
      by by apply eqb_false.
    rewrite !eqb_refl. cbn [andb negb]. cbv beta iota.
    cbn [self world trace].
    rewrite destroy_jail_run by (simpl; rewrite Hint; discriminate).
    mrun. rewrite logit_exception. mrun.
    eexists. split; [reflexivity|]. simpl. split.
    + rewrite basename_iocage_jails by exact Hname.
      intros Hin. apply elem_of_difference in Hin as [_ Hn].
      apply Hn. by apply elem_of_singleton.
    + by rewrite last_snoc.
  - intros s1 Hprov Hclock.
    unfold PluginRun.fetch_plugin. mrun. rewrite Hprov. mrun.
    rewrite destroy_jail_run by exact Hclock. mrun.
    eexists. split; [reflexivity|]. simpl. split; [|reflexivity].
    rewrite basename_jails by exact Hname.
    intros Hin. apply elem_of_difference in Hin as [_ Hn].
    apply Hn. by apply elem_of_singleton.
Qed.

Lemma plugin_destroyed_without_address_or_on_interrupt_witness :
  let props := ["ip4_addr=em0|10.0.0.2/24"] in
  let pkg := d_fingerprints Sample.quassel in
  let lost := Sample.host (Sample.answers Sample.no_address (fun _ => true) None) in
  let hit := Sample.host (Sample.answers Sample.static_address (fun _ => true)
                            (Some 1%nat)) in
  (exists s',
     PluginRun.fetch_plugin Sample.quassel props pkg lost
     = (Raise (Fatal "Destroyed partial plugin."), s') /\
     ("quasselcore" ∉ Plugin.jails (world s')) /\
     last (trace s') = Some (DestroyJail "zroot/iocage/jails/quasselcore")) /\
  (exists s',
     PluginRun.fetch_plugin Sample.quassel props pkg hit
     = (Raise (SystemExit 1), s') /\
     ("quasselcore" ∉ Plugin.jails (world s')) /\
     trace s'
     = trace (snd (PluginRun.provision Sample.quassel props pkg hit))
       ++ [DestroyJail "/iocage/jails/quasselcore"]).
Proof.
  intros props pkg lost hit. split.
  - refine (proj1 (plugin_destroyed_without_address_or_on_interrupt
                     Sample.quassel props pkg lost eq_refl)
              eq_refl eq_refl eq_refl eq_refl _).
    discriminate.
  - refine (proj2 (plugin_destroyed_without_address_or_on_interrupt
                     Sample.quassel props pkg hit eq_refl)
              (snd (PluginRun.provision Sample.quassel props pkg hit)) _ _).
    + vm_compute. reflexivity.
    + vm_compute. discriminate.
Defined.

(** C3: the code at a plugin whose kernel module cannot be loaded, and at
    one whose [post_install.sh] fails.  Either is a fatal failure after the
    jail has been created, and the run ends with the jail still there and
    without any attempt to destroy it, where the missing address and the
    interruption destroy it. *)
Theorem plugin_left_behind_after_fatal_failure :
  let props := ["ip4_addr=em0|10.0.0.2/24"] in
  let no_module :=
    PluginRun.fetch_plugin Sample.with_kmod props
      (d_fingerprints Sample.with_kmod)
      (Sample.host (Sample.answers Sample.static_address (fun _ => false) None)) in
  let failed_script :=
    PluginRun.fetch_plugin Sample.quassel props
      (d_fingerprints Sample.quassel)
      (Sample.host
         (Plugin.mkAnswers None Sample.static_address (fun _ => true) false
            true true "done" "10.0.0.9" None None)) in
  (fst no_module = Raise (Fatal "Module not found!") /\
   trace (snd no_module) = [CreateJail "quasselcore"; Kldload "fuse"] /\
   "quasselcore" ∈ Plugin.jails (world (snd no_module))) /\
  (fst failed_script = Raise (Fatal "An error occured! Please read above") /\
   Forall (fun e => forall path, e <> DestroyJail path)
     (trace (snd failed_script)) /\
   "quasselcore" ∈ Plugin.jails (world (snd failed_script))).
Proof.
  split.
  - split; [vm_compute; reflexivity|]. split; [vm_compute; reflexivity|].
    apply (bool_decide_unpack _). vm_compute. exact I.
  - split; [vm_compute; reflexivity|]. split.
    + vm_compute. repeat constructor; intros path; discriminate.
    + apply (bool_decide_unpack _). vm_compute. exact I.
Qed.

(** An interruption is answered in each of the three phases. *)
Lemma interrupted_in_each_phase :
  let run k :=
    PluginRun.fetch_plugin Sample.quassel ["ip4_addr=em0|10.0.0.2/24"]
      (d_fingerprints Sample.quassel)
      (Sample.host (Sample.answers Sample.static_address (fun _ => true)
                      (Some k))) in
  Forall (fun k =>
            fst (run k) = Raise (SystemExit 1) /\
            last (trace (snd (run k)))
            = Some (DestroyJail "/iocage/jails/quasselcore") /\
            elements (Plugin.jails (world (snd (run k)))) = [])
    [0; 1; 2; 3]%nat.
Proof. repeat constructor; vm_compute; reflexivity. Qed.

(** ** Fetching from a local directory *)

Lemma copy_files_missing (dataset : string) (f : string) (post : list string)
    (pre : list string) :
  forall s : st Fetch.fetch_world,
  Forall (fun g => is_Some (Fetch.src_files (world s) !! g) /\
                   Fetch.extract_fails (world s) g = None) pre ->
  Fetch.src_files (world s) !! f = None ->
  exists s' evs,
    Fetch.copy_files dataset (pre ++ f :: post) s
    = (Raise (Fatal
                ((if Py.eqb f "MANIFEST" then f +:+ " is a required file!"
                  else f +:+ ".txz is a required file!")
                 +:+ Py.nl +:+ "Please place it in "
                 +:+ default "None" (root_dir (self s)) +:+ "/"
                 +:+ release_str (self s))), s') /\
    Fetch.download_isdir (world s') = false /\
    Fetch.dl (world s') = ∅ /\
    trace s'
    = trace s ++ evs ++ [ZfsUnmount (pool (self s) +:+ dataset);
                         ZfsDelete (pool (self s) +:+ dataset)].
Proof.
  induction pre as [|g pre IH]; intros s Hpre Hf.
  - exists (mkSt (self s) (Fetch.with_download (world s) false ∅)
              (trace s ++ [ZfsUnmount (pool (self s) +:+ dataset)]
                       ++ [ZfsDelete (pool (self s) +:+ dataset)])), [].
    simpl. mrun. rewrite Hf. rewrite bool_decide_eq_false_2
      by (intros [? ?]; discriminate).
    simpl. mrun. simpl.
    destruct (Py.eqb f "MANIFEST");
      rewrite ?sapp_assoc, <- ?app_assoc; by repeat split.
  - apply Forall_cons in Hpre as [[Hg Hx] Hpre].
    destruct Hg as [content Hg].
    simpl. mrun. rewrite Hg.
    rewrite bool_decide_eq_true_2 by eauto. simpl. mrun.
    rewrite ?logit_info. mrun. unfold Fetch.copy_in. mrun. simpl.
    rewrite Hg. mrun. unfold Fetch.store. mrun. simpl.
    set (w1 := Fetch.with_download (world s) _ _).
    destruct (Py.eqb g "MANIFEST"); simpl; mrun.
    + match goal with
      | |- context [Fetch.copy_files dataset _ ?s1] =>
          destruct (IH s1) as (s' & evs & E & H1 & H2 & H3);
            [exact Hpre|exact Hf|]
      end.
      rewrite E. simpl in H3.
      exists s', ([Log "INFO" ("Copying: " +:+ g +:+ "... "); Copy g] ++ evs).
      split; [reflexivity|]. split; [done|]. split; [done|].
      rewrite H3, <- !app_assoc. reflexivity.
    + rewrite ?logit_info. mrun. unfold Fetch.fetch_extract. mrun. simpl.
      rewrite Hx. mrun.
      match goal with
      | |- context [Fetch.copy_files dataset _ ?s1] =>
          destruct (IH s1) as (s' & evs & E & H1 & H2 & H3);
            [exact Hpre|exact Hf|]
      end.
      rewrite E. simpl in H3.
      exists s', ([Log "INFO" ("Copying: " +:+ g +:+ "... "); Copy g;
                   Log "INFO" ("Extracting: " +:+ g +:+ "... ");
                   ExtractArchive g] ++ evs).
      split; [reflexivity|]. split; [done|]. split; [done|].
      rewrite H3, <- !app_assoc. reflexivity.
Qed.

(** C4, as the code has it: a local-directory fetch that misses a required
    file fails with a message that names [root-dir/RELEASE].  The download
    dataset is created (where it was absent) before the files are looked
    at; when the first missing file is met the dataset is unmounted and
    deleted, and only then is the error raised, so that no download dataset
    of the release is left. *)
Theorem local_fetch_missing_file
    (s : st Fetch.fetch_world) (rd r f : string) (pre post : list string) :
  root_dir (self s) = Some rd -> rd <> EmptyString ->
  release (self s) = Some r ->
  Fetch.src_isdir (world s) = true ->
  files (self s) = pre ++ f :: post ->
  Forall (fun g => is_Some (Fetch.src_files (world s) !! g) /\
                   Fetch.extract_fails (world s) g = None) pre ->
  Fetch.src_files (world s) !! f = None ->
  let created := iocroot (self s) +:+ "/download/" +:+ r in
  let deleted := pool (self s) +:+ iocroot (self s) +:+ "/download/" +:+ r in
  exists s' before,
    Fetch.fetch_local s
    = (Raise (Fatal
                ((if Py.eqb f "MANIFEST" then f +:+ " is a required file!"
                  else f +:+ ".txz is a required file!")
                 +:+ Py.nl +:+ "Please place it in " +:+ rd +:+ "/" +:+ r)),
       s') /\
    Fetch.download_isdir (world s') = false /\
    Fetch.dl (world s') = ∅ /\
    trace s' = before ++ [ZfsUnmount deleted; ZfsDelete deleted] /\
    (Fetch.download_isdir (world s) = false ->
     exists copied,
       before = trace s ++ [ZfsCreate created; ZfsMount created] ++ copied).
Proof.
  intros Hrd Hne Hrel Hsrc Hfiles Hpre Hf created deleted.
  subst created deleted.
  assert (Hrs : release_str (self s) = r) by (unfold release_str; by rewrite Hrel).
  unfold Fetch.fetch_local. mrun. rewrite Hrd.
  destruct rd as [|c rd]; [done|]. cbn [Py.truthy negb]. mrun.
  rewrite Hrel. mrun. rewrite Hsrc. mrun. rewrite Hfiles, Hrs.
  destruct (Fetch.download_isdir (world s)) eqn:Hdl; mrun;
    cbn [self world trace].
  - destruct (copy_files_missing (iocroot (self s) +:+ "/download/" +:+ r)
                f post pre s Hpre Hf) as (s' & evs & E & H1 & H2 & H3).
    rewrite E, Hrd, Hrs. cbn [default from_option id].
    exists s', (trace s ++ evs). split; [reflexivity|].
    split; [done|]. split; [done|]. split; [|done].
    rewrite H3, <- app_assoc. reflexivity.
  - match goal with
    | |- context [Fetch.copy_files _ _ ?s1] =>
        destruct (copy_files_missing (iocroot (self s) +:+ "/download/" +:+ r)
                    f post pre s1) as (s' & evs & E & H1 & H2 & H3)
    end.
    { exact Hpre. }
    { exact Hf. }
    rewrite E. cbn [self trace] in *. rewrite Hrd, Hrs.
    cbn [default from_option id].
    exists s', (trace s ++ [ZfsCreate (iocroot (self s) +:+ "/download/" +:+ r);
                            ZfsMount (iocroot (self s) +:+ "/download/" +:+ r)]
                         ++ evs).
    split; [reflexivity|].
    split; [done|]. split; [done|]. split.
    + rewrite H3, <- !app_assoc. reflexivity.
    + intros _. by exists evs.
Qed.

Lemma local_fetch_missing_file_witness :
  let s := Sample.local_tree {[ "MANIFEST" := "base.txz" +:+ Sample.tab +:+ "0a" ]} in
  exists s' before,
    Fetch.fetch_local s
    = (Raise (Fatal ("base.txz.txz is a required file!" +:+ Py.nl +:+
                     "Please place it in /mnt/rel/11.1-RELEASE")), s') /\
    Fetch.download_isdir (world s') = false /\
    Fetch.dl (world s') = ∅ /\
    trace s'
    = before ++ [ZfsUnmount "zroot/iocage/download/11.1-RELEASE";
                 ZfsDelete "zroot/iocage/download/11.1-RELEASE"] /\
    (Fetch.download_isdir (world s) = false ->
     exists copied,
       before = trace s ++ [ZfsCreate "/iocage/download/11.1-RELEASE";
                            ZfsMount "/iocage/download/11.1-RELEASE"] ++ copied).
Proof.
  intros s.
  refine (local_fetch_missing_file s "/mnt/rel" "11.1-RELEASE" "base.txz"
            ["MANIFEST"] ["lib32.txz"; "doc.txz"] eq_refl _ eq_refl eq_refl
            eq_refl _ _).
  - discriminate.
  - repeat constructor. by eexists.
  - reflexivity.
Defined.

(** C4, as stated, fails: with MANIFEST absent from the local tree the
    download dataset is created and mounted first, and deleted again before
    the error is raised. *)
Lemma local_fetch_creates_dataset_before_failing :
  let run :=
    Fetch.fetch_local
      (Sample.local_tree {[ "base.txz" := "archive" ]}) in
  fst run
  = Raise (Fatal ("MANIFEST is a required file!" +:+ Py.nl +:+
                  "Please place it in /mnt/rel/11.1-RELEASE")) /\
  trace (snd run)
  = [ZfsCreate "/iocage/download/11.1-RELEASE";
     ZfsMount "/iocage/download/11.1-RELEASE";
     ZfsUnmount "zroot/iocage/download/11.1-RELEASE";
     ZfsDelete "zroot/iocage/download/11.1-RELEASE"].
Proof. split; vm_compute; reflexivity. Qed.

(** ** Verification against the MANIFEST *)

Section VerificationFacts.
Variable sha256 : string -> string.

(** A file the loop of [__fetch_check__] hashes: it is not the MANIFEST, not
    [lib32.txz] of a hardened release, and it is in [_list]. *)
Lemma check_loop_without_manifest (_list : list string) (todo : list string) :
  forall (missing : list string) (s : st Fetch.fetch_world) (f : string),
  missing <> [] ->
  f ∈ todo ->
  f <> "MANIFEST" ->
  hardened (self s) && Py.eqb f "lib32.txz" = false ->
  f ∈ _list ->
  is_Some (Fetch.dl (world s) !! f) ->
  exists g s',
    Fetch.check_loop sha256 ∅ _list false todo missing s
    = (Raise (KeyError g), s') /\
    g ∈ todo /\ is_Some (Fetch.dl (world s) !! g).
Proof.
  induction todo as [|g todo IH]; intros missing s f Hm Hin Hman Hlib Hl Hdl.
  - by apply elem_of_nil in Hin.
  - simpl. mrun.
    destruct (Py.eqb g "MANIFEST") eqn:Eg.
    { apply elem_of_cons in Hin as [->|Hin].
      - apply eqb_true in Eg. done.
      - destruct (IH missing s f) as (k & s' & E & Hk & Hd); try done.
        exists k, s'. split; [exact E|]. split; [by right|done]. }
    destruct (hardened (self s) && Py.eqb g "lib32.txz") eqn:Eh.
    { apply elem_of_cons in Hin as [->|Hin].
      - congruence.
      - destruct (IH missing s f) as (k & s' & E & Hk & Hd); try done.
        exists k, s'. split; [exact E|]. split; [by right|done]. }
    destruct (Py.mem g _list) eqn:Em; mrun.
    + destruct (Fetch.dl (world s) !! g) as [content|] eqn:Ed.
      * rewrite lookup_empty. mrun. exists g, s.
        split; [reflexivity|]. split; [by left|]. rewrite Ed. by eexists.
      * cbn [negb]. rewrite logit_warning. mrun.
        rewrite bool_decide_eq_false_2 by (by destruct missing).
        mrun.
        apply elem_of_cons in Hin as [->|Hin].
        { rewrite Ed in Hdl. by destruct Hdl. }
        match goal with
        | |- context [Fetch.check_loop _ _ _ _ _ ?m ?s1] =>
            destruct (IH m s1 f) as (k & s' & E & Hk & Hd); try done
        end.
        { by destruct missing. }
        exists k, s'. split; [exact E|]. split; [by right|exact Hd].
    + rewrite bool_decide_eq_false_2 by done. mrun.
      apply elem_of_cons in Hin as [->|Hin].
      { unfold Py.mem in Em. apply bool_decide_eq_false in Em. done. }
      destruct (IH missing s f) as (k & s' & E & Hk & Hd); try done.
      exists k, s'. split; [exact E|]. split; [by right|done].
Qed.

(** The same on the pass for missing files, where an absent file is fatal:
    the lookup is reached when the files before it that the loop hashes
    are on disk too. *)
Lemma check_loop_without_manifest_again (_list : list string)
    (pre : list string) (f : string) (post : list string) :
  forall (missing : list string) (s : st Fetch.fetch_world),
  missing <> [] ->
  Forall (fun g => Fetch.wanted (self s) g = true -> g ∈ _list ->
                   is_Some (Fetch.dl (world s) !! g)) pre ->
  f <> "MANIFEST" ->
  hardened (self s) && Py.eqb f "lib32.txz" = false ->
  f ∈ _list ->
  is_Some (Fetch.dl (world s) !! f) ->
  exists g s',
    Fetch.check_loop sha256 ∅ _list true (pre ++ f :: post) missing s
    = (Raise (KeyError g), s') /\
    g ∈ pre ++ f :: post /\ is_Some (Fetch.dl (world s) !! g).
Proof.
  induction pre as [|g pre IH]; intros missing s Hm Hpre Hman Hlib Hl Hdl.
  - simpl. mrun. rewrite (proj2 (eqb_false _ _) Hman), Hlib.
    unfold Py.mem. rewrite bool_decide_eq_true_2 by done. mrun.
    destruct Hdl as [content Hc]. rewrite Hc, lookup_empty. mrun.
    exists f, s. split; [reflexivity|]. split; [by left|]. by eexists.
  - apply Forall_cons in Hpre as [Hg Hpre].
    simpl. mrun.
    destruct (Py.eqb g "MANIFEST") eqn:Eg.
    { destruct (IH missing s) as (k & s' & E & Hk & Hd); try done.
      exists k, s'. split; [exact E|]. split; [by right|done]. }
    destruct (hardened (self s) && Py.eqb g "lib32.txz") eqn:Eh.
    { destruct (IH missing s) as (k & s' & E & Hk & Hd); try done.
      exists k, s'. split; [exact E|]. split; [by right|done]. }
    unfold Py.mem. case_bool_decide as Hin; mrun.
    + destruct Hg as [content Hc]; [by unfold Fetch.wanted; rewrite Eg, Eh|done|].
      rewrite Hc, lookup_empty. mrun. exists g, s.
      split; [reflexivity|]. split; [by left|]. by eexists.
    + rewrite bool_decide_eq_false_2 by done. mrun.
      destruct (IH missing s) as (k & s' & E & Hk & Hd); try done.
      exists k, s'. split; [exact E|]. split; [by right|done].
Qed.

(** C10, as the code has it: with the MANIFEST absent from the download
    dataset and the server not one of the two from which it is fetched
    again, a verification pass that reaches a file of the fetch set on disk
    looks its hash up in the empty map: the pass ends with an unhandled
    [KeyError] and returns no missing set.  The first pass always reaches
    it; the pass for missing files reaches it when the files before it
    that the loop hashes are on disk as well. *)
Theorem check_without_manifest_raises_keyerror
    (_list : list string) (ftp _missing : bool) (s : st Fetch.fetch_world)
    (f : string) :
  Fetch.download_isdir (world s) = true ->
  Fetch.dl (world s) !! "MANIFEST" = None ->
  ftp && Py.eqb (server (self s)) "ftp.freebsd.org" = false ->
  negb ftp && Py.eqb (server (self s)) "https://download.freebsd.org" = false ->
  f ∈ files (self s) ->
  f <> "MANIFEST" ->
  hardened (self s) && Py.eqb f "lib32.txz" = false ->
  f ∈ _list ->
  is_Some (Fetch.dl (world s) !! f) ->
  (_missing = true ->
   exists pre post,
     files (self s) = pre ++ f :: post /\
     Forall (fun g => Fetch.wanted (self s) g = true -> g ∈ _list ->
                      is_Some (Fetch.dl (world s) !! g)) pre) ->
  exists g s',
    Fetch.fetch_check sha256 _list ftp _missing s = (Raise (KeyError g), s') /\
    g ∈ files (self s) /\ is_Some (Fetch.dl (world s) !! g).
Proof.
  intros Hdir Hman Hftp Hhttp Hin Hne Hlib Hl Hdl Hsecond.
  unfold Fetch.fetch_check. mrun. rewrite Hdir, Hman.
  rewrite bool_decide_eq_false_2 by (intros [? ?]; discriminate).
  cbn [negb]. unfold Fetch.refetch_manifest. mrun. rewrite Hftp, Hhttp. mrun.
  rewrite Hman. mrun. cbn [fst snd].
  destruct _missing.
  - destruct (Hsecond eq_refl) as (pre & post & Hfiles & Hpre).
    rewrite Hfiles.
    destruct (check_loop_without_manifest_again _list pre f post ["MANIFEST"]
                s) as (g & s' & E & Hg & Hd); try done.
    rewrite E. by exists g, s'.
  - destruct (check_loop_without_manifest _list (files (self s)) ["MANIFEST"]
                s f) as (g & s' & E & Hg & Hd); try done.
    rewrite E. by exists g, s'.
Qed.

End VerificationFacts.

Lemma check_without_manifest_raises_keyerror_witness :
  let first := Sample.fetching "http://mirror.example.org" true
                 {[ "doc.txz" := "DOC" ]} Sample.damaged_doc in
  let again := Sample.fetching "http://mirror.example.org" true
                 {[ "base.txz" := "BASE"; "doc.txz" := "DOC" ]}
                 Sample.damaged_doc in
  (exists g s',
     Fetch.fetch_check Sample.digest ["MANIFEST"; "base.txz"; "doc.txz"]
       false false first = (Raise (KeyError g), s') /\
     g ∈ files (self first) /\ is_Some (Fetch.dl (world first) !! g)) /\
  (exists g s',
     Fetch.fetch_check Sample.digest ["MANIFEST"; "base.txz"; "doc.txz"]
       false true again = (Raise (KeyError g), s') /\
     g ∈ files (self again) /\ is_Some (Fetch.dl (world again) !! g)).
Proof.
  intros first again. split.
  - apply (check_without_manifest_raises_keyerror Sample.digest
             ["MANIFEST"; "base.txz"; "doc.txz"] false false first "doc.txz").
    + reflexivity.
    + vm_compute. reflexivity.
    + vm_compute. reflexivity.
    + vm_compute. reflexivity.
    + apply (bool_decide_unpack _). vm_compute. exact I.
    + discriminate.
    + vm_compute. reflexivity.
    + apply (bool_decide_unpack _). vm_compute. exact I.
    + vm_compute. by eexists.
    + discriminate.
  - apply (check_without_manifest_raises_keyerror Sample.digest
             ["MANIFEST"; "base.txz"; "doc.txz"] false true again "doc.txz").
    + reflexivity.
    + vm_compute. reflexivity.
    + vm_compute. reflexivity.
    + vm_compute. reflexivity.
    + apply (bool_decide_unpack _). vm_compute. exact I.
    + discriminate.
    + vm_compute. reflexivity.
    + apply (bool_decide_unpack _). vm_compute. exact I.
    + vm_compute. by eexists.
    + intros _. exists ["MANIFEST"; "base.txz"], []. split; [reflexivity|].
      repeat constructor.
      * intros Hw. vm_compute in Hw. discriminate.
      * intros _ _. vm_compute. by eexists.
Defined.

(** C10, as stated, fails on the pass for missing files: with the MANIFEST
    absent and not fetched again, [doc.txz] on disk and [base.txz], which
    comes before it, absent, the pass ends with the fatal error of the
    absent file and the hash of [doc.txz] is never looked up. *)
Lemma absent_file_is_fatal_before_the_lookup :
  let s := Sample.fetching "http://mirror.example.org" true
             {[ "doc.txz" := "DOC" ]} Sample.damaged_doc in
  Fetch.dl (world s) !! "MANIFEST" = None /\
  Fetch.dl (world s) !! "doc.txz" = Some "DOC" /\
  files (self s) = ["MANIFEST"; "base.txz"; "doc.txz"] /\
  fst (Fetch.fetch_check Sample.digest ["MANIFEST"; "base.txz"; "doc.txz"]
         false true s)
  = Raise (Fatal "Too many failed verifications!").
Proof. repeat split; vm_compute; reflexivity. Qed.

(** ** Extraction during a verification pass *)

Lemma extracted_app (t1 t2 : list event) :
  Fetch.extracted (t1 ++ t2) = Fetch.extracted t1 ++ Fetch.extracted t2.
Proof.
  induction t1 as [|e t1 IH]; [reflexivity|].
  destruct e; simpl; by rewrite ?IH.
Qed.

Lemma downloaded_app (t1 t2 : list event) :
  Fetch.downloaded (t1 ++ t2) = Fetch.downloaded t1 ++ Fetch.downloaded t2.
Proof.
  induction t1 as [|e t1 IH]; [reflexivity|].
  destruct e; simpl; by rewrite ?IH.
Qed.


Section ExtractionFacts.
Variable sha256 : string -> string.



End ExtractionFacts.

Section PassFacts.
Variable sha256 : string -> string.

Lemma store_run (f content : string) (s : st Fetch.fetch_world) :
  Fetch.store f content s
  = (Ok tt, mkSt (self s)
              (Fetch.with_download (world s) (Fetch.download_isdir (world s))
                 (<[f := content]> (Fetch.dl (world s))))
              (trace s)).
Proof. reflexivity. Qed.



End PassFacts.



(** ** Downloads and the bound on retries *)

Ltac mrun_in H :=
  repeat (progress (unfold bind, ret, raise, get_self, put_self, get_world,
                    put_world, emit, try_except in H; cbv beta iota in H)).

Section RetryFacts.
Variable sha256 : string -> string.

Lemma request_run (f : string) (s : st Fetch.fetch_world) :
  Fetch.request f s
  = (Ok (Fetch.remote (world s) (Fetch.requests (world s)) f),
     mkSt (self s) (Fetch.with_requests (world s) (S (Fetch.requests (world s))))
       (trace s)).
Proof. reflexivity. Qed.

(** What one round of HTTP downloads leaves in the trace: the files of the
    list, in order, up to the one whose request fails. *)
Lemma download_http_run (l : list string) :
  forall (s s' : st Fetch.fetch_world) (r : result unit),
  Fetch.download_http l s = (r, s') ->
  self s' = self s /\
  Fetch.extract_fails (world s') = Fetch.extract_fails (world s) /\
  Fetch.download_isdir (world s') = Fetch.download_isdir (world s) /\
  exists d,
    Fetch.downloaded (trace s') = Fetch.downloaded (trace s) ++ d /\
    d `sublist_of` l /\
    (r = Ok tt ->
     d = filter (fun g => negb (hardened (self s) && Py.eqb g "lib32.txz")) l).
Proof.
  induction l as [|g l IH]; intros s s' r H.
  - simpl in H. injection H as <- <-. do 3 (split; [done|]).
    exists []. rewrite app_nil_r. by repeat split.
  - simpl in H. unfold bind at 1, get_self at 1 in H. cbv beta iota in H.
    destruct (hardened (self s) && Py.eqb g "lib32.txz") eqn:Eh.
    + apply IH in H as (Hs & Hx & Hi & d & Hd & Hsub & Hok).
      do 3 (split; [done|]). exists d. split; [done|].
      split; [by apply sublist_cons|].
      intros Hr. rewrite (Hok Hr). by rewrite filter_cons, Eh.
    + unfold bind at 1 in H. rewrite request_run in H.
      destruct (Fetch.remote (world s) (Fetch.requests (world s)) g)
        as [content|].
      * unfold bind at 1, emit at 1 in H. cbv beta iota in H.
        unfold bind at 1 in H. rewrite store_run in H.
        apply IH in H as (Hs & Hx & Hi & d & Hd & Hsub & Hok).
        cbn [self world trace] in *.
        do 3 (split; [done|]). exists (g :: d). split.
        { rewrite Hd, downloaded_app. simpl. by rewrite <- app_assoc. }
        split; [by apply sublist_skip|].
        intros Hr. rewrite (Hok Hr). by rewrite filter_cons, Eh.
      * unfold raise in H. injection H as <- <-. cbn [self world trace].
        do 3 (split; [done|]). exists []. rewrite app_nil_r.
        split; [done|]. split; [apply sublist_nil_l|]. intros; discriminate.
Qed.

(** [fetch_download] over HTTP. *)
Lemma fetch_download_http_run (l : list string) (ftp missing : bool)
    (s s' : st Fetch.fetch_world) (r : result unit) :
  http (self s) = true ->
  Fetch.fetch_download l ftp missing s = (r, s') ->
  self s' = self s /\
  Fetch.extract_fails (world s') = Fetch.extract_fails (world s) /\
  Fetch.download_isdir (world s') = true /\
  exists d,
    Fetch.downloaded (trace s') = Fetch.downloaded (trace s) ++ d /\
    d `sublist_of` l /\
    (r = Ok tt -> missing = true ->
     d = filter (fun g => negb (hardened (self s) && Py.eqb g "lib32.txz")) l).
Proof.
  intros Hhttp H. unfold Fetch.fetch_download in H.
  unfold bind at 1, get_self at 1 in H. cbv beta iota in H.
  unfold bind at 1, get_world at 1 in H. cbv beta iota in H.
  unfold bind at 1 in H. rewrite Hhttp in H.
  destruct (Fetch.download_isdir (world s)) eqn:Hdir; cbn [negb] in H.
  - unfold ret at 1 in H. rewrite orb_false_r in H. destruct missing.
    + apply download_http_run in H as (Hs & Hx & Hi & d & Hd & Hsub & Hok).
      split; [done|]. split; [done|]. split; [congruence|].
      exists d. by repeat split; auto.
    + injection H as <- <-. do 2 (split; [done|]). split; [done|].
      exists []. rewrite app_nil_r. split; [done|].
      split; [apply sublist_nil_l|]. intros; discriminate.
  - mrun_in H. cbn [self world trace] in H. rewrite orb_true_r in H.
    apply download_http_run in H as (Hs & Hx & Hi & d & Hd & Hsub & Hok).
    cbn [self world trace] in *. split; [done|]. split; [done|].
    split; [by rewrite Hi|]. exists d. split.
    { rewrite Hd, !downloaded_app. simpl. by rewrite !app_nil_r. }
    split; [done|]. auto.
Qed.

Lemma fetch_extract_any (f : string) (s s' : st Fetch.fetch_world)
    (r : result unit) :
  Fetch.fetch_extract f s = (r, s') ->
  self s' = self s /\ world s' = world s /\
  Fetch.downloaded (trace s') = Fetch.downloaded (trace s).
Proof.
  unfold Fetch.fetch_extract. mrun. cbn [world].
  destruct (Fetch.extract_fails (world s) f); mrun; intros [= <- <-];
    cbn [self world trace]; rewrite downloaded_app; simpl;
    by rewrite app_nil_r.
Qed.

(** A verification loop downloads nothing and leaves the object and the
    world as they are, however it ends. *)
Lemma check_loop_any (hashes : gmap string string) (_list : list string)
    (_missing : bool) (todo : list string) :
  forall (missing : list string) (s s' : st Fetch.fetch_world)
         (r : result (list string)),
  Fetch.check_loop sha256 hashes _list _missing todo missing s = (r, s') ->
  self s' = self s /\ world s' = world s /\
  Fetch.downloaded (trace s') = Fetch.downloaded (trace s).
Proof.
  induction todo as [|g todo IH]; intros missing s s' r H.
  - simpl in H. by injection H as <- <-.
  - simpl in H. unfold bind at 1, get_self at 1 in H. cbv beta iota in H.
    destruct (Py.eqb g "MANIFEST"); [by apply IH in H|].
    destruct (hardened (self s) && Py.eqb g "lib32.txz"); [by apply IH in H|].
    unfold bind at 1 in H.
    match type of H with
    | (let (_, _) := ?m s in _) = _ =>
        assert (Hstep : forall r1 s1, m s = (r1, s1) ->
                  self s1 = self s /\ world s1 = world s /\
                  Fetch.downloaded (trace s1) = Fetch.downloaded (trace s));
        [|destruct (m s) as [r1 s1]; destruct (Hstep r1 s1 eq_refl)
            as (Hs1 & Hw1 & Hd1); clear Hstep]
    end.
    { intros r1 s1.
      destruct (Py.mem g _list); mrun; [|by intros [= <- <-]].
      destruct (Fetch.dl (world s) !! g) as [content|].
      - destruct (hashes !! g) as [h|]; mrun; [|by intros [= <- <-]].
        destruct (negb (Py.eqb h (sha256 content))); [|by intros [= <- <-]].
        destruct _missing; cbn [negb].
        + rewrite logit_exception. mrun. by intros [= <- <-].
        + rewrite logit_warning. mrun. intros [= <- <-]. cbn [self world trace].
          rewrite downloaded_app. simpl. by rewrite app_nil_r.
      - destruct _missing; cbn [negb].
        + rewrite logit_exception. mrun. by intros [= <- <-].
        + rewrite logit_warning. mrun. intros [= <- <-]. cbn [self world trace].
          rewrite downloaded_app. simpl. by rewrite app_nil_r. }
    destruct r1 as [m1|e]; [|injection H as <- <-; by repeat split].
    unfold bind at 1 in H. case_bool_decide.
    + unfold bind at 1 in H. rewrite logit_info in H.
      match type of H with
      | (let (_, _) := Fetch.fetch_extract g ?s2 in _) = _ =>
          destruct (Fetch.fetch_extract g s2) as [r3 s3] eqn:E3
      end.
      apply fetch_extract_any in E3 as (Hs3 & Hw3 & Hd3).
      cbn [self world trace] in *.
      rewrite downloaded_app in Hd3. simpl in Hd3. rewrite app_nil_r in Hd3.
      destruct r3 as [[]|e].
      * apply IH in H as (-> & -> & ->). split; [congruence|].
        split; congruence.
      * injection H as <- <-. split; [congruence|]. split; congruence.
    + unfold ret at 1 in H. apply IH in H as (-> & -> & ->).
      by repeat split.
Qed.

Lemma refetch_manifest_any (ftp : bool) (s s1 : st Fetch.fetch_world)
    (r : result unit) :
  Fetch.refetch_manifest ftp s = (r, s1) ->
  self s1 = self s /\
  Fetch.extract_fails (world s1) = Fetch.extract_fails (world s) /\
  Fetch.download_isdir (world s1) = Fetch.download_isdir (world s) /\
  Fetch.downloaded (trace s1) = Fetch.downloaded (trace s).
Proof.
  unfold Fetch.refetch_manifest, Fetch.request. mrun.
  destruct (ftp && Py.eqb (server (self s)) "ftp.freebsd.org").
  - rewrite store_run. mrun. cbn [self world trace]. simpl Fetch.remote.
    simpl Fetch.requests.
    destruct (Fetch.remote _ _ "MANIFEST"); mrun.
    + rewrite store_run. intros [= <- <-]. cbn [self trace world].
      rewrite downloaded_app. simpl. by rewrite !app_nil_r.
    + by intros [= <- <-].
  - destruct (negb ftp && Py.eqb (server (self s)) "https://download.freebsd.org").
    + cbn [self world trace]. simpl Fetch.remote. simpl Fetch.requests.
      destruct (Fetch.remote _ _ "MANIFEST"); mrun.
      * rewrite store_run. intros [= <- <-]. cbn [self trace world].
        rewrite downloaded_app. simpl. by rewrite !app_nil_r.
      * by intros [= <- <-].
    + by intros [= <- <-].
Qed.

(** A verification pass downloads no file of the fetch set, however it
    ends. *)
Lemma fetch_check_any (_list : list string) (ftp _missing : bool)
    (s s' : st Fetch.fetch_world) (r : result (option (list string))) :
  Fetch.fetch_check sha256 _list ftp _missing s = (r, s') ->
  self s' = self s /\
  Fetch.extract_fails (world s') = Fetch.extract_fails (world s) /\
  Fetch.download_isdir (world s') = Fetch.download_isdir (world s) /\
  Fetch.downloaded (trace s') = Fetch.downloaded (trace s).
Proof.
  intros H. unfold Fetch.fetch_check in H.
  unfold bind at 1, get_world at 1 in H. cbv beta iota in H.
  destruct (Fetch.download_isdir (world s)) eqn:Hdir;
    [|by injection H as <- <-].
  unfold bind at 1 in H.
  match type of H with
  | (let (_, _) := ?m s in _) = _ =>
      assert (Hs1 : forall r1 s1, m s = (r1, s1) ->
                self s1 = self s /\
                Fetch.extract_fails (world s1) = Fetch.extract_fails (world s) /\
                Fetch.download_isdir (world s1) = Fetch.download_isdir (world s) /\
                Fetch.downloaded (trace s1) = Fetch.downloaded (trace s));
      [|destruct (m s) as [r1 s1];
        destruct (Hs1 r1 s1 eq_refl) as (Hself & Hx & Hi & Hd); clear Hs1]
  end.
  { intros r1 s1. destruct (negb _).
    - apply refetch_manifest_any.
    - by intros [= <- <-]. }
  destruct r1 as [[]|e]; [|injection H as <- <-; by rewrite Hi].
  unfold bind at 1, get_world at 1 in H. cbv beta iota in H.
  unfold bind at 1 in H.
  match type of H with
  | (let (_, _) := ?m s1 in _) = _ =>
      assert (Hp : (exists e, m s1 = (Raise e, s1)) \/
                   exists p, m s1 = (Ok p, s1));
      [|destruct Hp as [[e Hp]|[p Hp]]; rewrite Hp in H]
  end.
  { destruct (Fetch.dl (world s1) !! "MANIFEST") as [content|].
    - destruct (Fetch.parse_manifest _ _); [right|left]; by eexists.
    - right. by eexists. }
  { injection H as <- <-. by rewrite Hi. }
  unfold bind at 1, get_self at 1 in H. cbv beta iota in H.
  unfold bind at 1 in H.
  destruct (Fetch.check_loop sha256 p.1 _list _missing (files (self s1)) p.2 s1)
    as [r2 s2] eqn:E.
  apply check_loop_any in E as (Hs2 & Hw2 & Hd2).
  destruct r2; injection H as <- <-; rewrite Hw2, Hs2, Hd2, Hi; by repeat split.
Qed.

End RetryFacts.

Section RetryBound.
Variable sha256 : string -> string.





End RetryBound.

Lemma filter_eq_absent (f : string) (l : list string) :
  f ∉ l -> filter (eq f) l = [].
Proof.
  induction l as [|x l IH]; intros Hn; [done|].
  rewrite filter_cons. rewrite decide_False.
  - apply IH. intros H. apply Hn. by right.
  - intros ->. apply Hn. by left.
Qed.

Lemma filter_eq_once (f : string) (l : list string) :
  NoDup l -> f ∈ l -> length (filter (eq f) l) = 1%nat.
Proof.
  induction 1 as [|x l Hx Hnd IH]; intros Hin.
  - by apply elem_of_nil in Hin.
  - rewrite filter_cons. destruct (decide (f = x)) as [->|Hne].
    + simpl. by rewrite filter_eq_absent.
    + apply elem_of_cons in Hin as [?|Hin]; [done|]. by apply IH.
Qed.

Section RetryTheorem.
Variable sha256 : string -> string.


End RetryTheorem.


(** The sample run end to end: [doc.txz] is downloaded twice, and the run
    ends with the fatal error. *)
Lemma damaged_file_is_downloaded_twice :
  let run :=
    Fetch.download_and_verify Sample.digest false
      (Sample.fetching "https://download.freebsd.org" false ∅
         Sample.damaged_doc) in
  fst run = Raise (Fatal "Too many failed verifications!") /\
  Fetch.downloaded (trace (snd run))
  = ["MANIFEST"; "base.txz"; "doc.txz"; "doc.txz"].
Proof. split; vm_compute; reflexivity. Qed.

(** ** Paths *)

Lemma startswith_refl (s : string) : Py.startswith s s = true.
Proof.
  induction s as [|c s IH]; simpl; [done|].
  by rewrite bool_decide_eq_true_2, IH.
Qed.

Lemma startswith_nil (s : string) : Py.startswith s EmptyString = true.
Proof. by destruct s. Qed.

Lemma startswith_app (a b : string) : Py.startswith (a +:+ b) a = true.
Proof.
  induction a as [|c a IH]; [apply startswith_nil|].
  rewrite sapp_cons. simpl. by rewrite bool_decide_eq_true_2, IH.
Qed.

Lemma startswith_app_l (a b p : string) :
  Py.startswith a p = true -> Py.startswith (a +:+ b) p = true.
Proof.
  revert a. induction p as [|c p IH]; intros [|x a] H;
    rewrite ?startswith_nil; try done.
  rewrite sapp_cons. simpl in *. apply andb_true_iff in H as [-> H].
  by rewrite IH.
Qed.

Lemma startswith_short (a b p : string) :
  (String.length p <= String.length a)%nat ->
  Py.startswith (a +:+ b) p = Py.startswith a p.
Proof.
  revert a. induction p as [|c p IH]; intros [|x a] H; simpl in H;
    rewrite ?startswith_nil; try done.
  - lia.
  - rewrite sapp_cons. simpl. rewrite IH by lia. done.
Qed.

Lemma common_chars_comm (a b : string) :
  OsPath.common_chars a b = OsPath.common_chars b a.
Proof.
  revert b. induction a as [|x a IH]; intros [|y b]; simpl; try done.
  case_bool_decide as H1; case_bool_decide as H2; try congruence;
    subst; by rewrite IH.
Qed.

Lemma common_chars_refl (a : string) : OsPath.common_chars a a = a.
Proof.
  induction a as [|x a IH]; simpl; [done|].
  by rewrite bool_decide_eq_true_2, IH.
Qed.

Lemma common_chars_prefix (a b : string) :
  OsPath.common_chars a b = a <-> Py.startswith b a = true.
Proof.
  revert b. induction a as [|x a IH]; intros [|y b]; simpl; try done.
  case_bool_decide as H1.
  - subst y. rewrite ?bool_decide_eq_true_2 by done. simpl.
    rewrite <- IH. split; [by intros [= ->]|by intros ->].
  - rewrite ?bool_decide_eq_false_2 by congruence. simpl. split; discriminate.
Qed.

(** [commonprefix] of two strings does not depend on which is the lesser:
    it is their common characters. *)
Lemma commonprefix_common_chars (a b : string) :
  OsPath.commonprefix a b = OsPath.common_chars a b.
Proof.
  unfold OsPath.commonprefix, String.ltb.
  rewrite (String.compare_antisym a b).
  destruct (String.compare b a) eqn:E; simpl.
  - apply String.compare_eq_iff in E. by subst.
  - apply common_chars_comm.
  - done.
Qed.

(** The test of [safe_extract] is a test on characters: the normal form of
    the target begins with the normal form of the directory. *)
Lemma is_within_directory_prefix (cwd directory target : string) :
  Extract.is_within_directory cwd directory target
  = Py.startswith (OsPath.abspath cwd target) (OsPath.abspath cwd directory).
Proof.
  unfold Extract.is_within_directory. rewrite commonprefix_common_chars.
  apply eq_true_iff_eq. rewrite eqb_true, <- common_chars_prefix.
  by rewrite common_chars_comm.
Qed.

Lemma split_first_prefix (sep : ascii) (s h : string) (t : list string) :
  Py.split sep s = h :: t -> Py.startswith s h = true.
Proof.
  revert h t. induction s as [|c s IH]; simpl; intros h t H.
  - by injection H as <- <-.
  - case_bool_decide.
    + by injection H as <- <-.
    + destruct (Py.split sep s) as [|h' t'] eqn:E.
      * injection H as <- <-. simpl. rewrite bool_decide_eq_true_2 by done.
        apply startswith_nil.
      * injection H as <- <-. simpl.
        rewrite bool_decide_eq_true_2 by done. simpl. by eapply IH.
Qed.

(** A name without two dots in a row has no component [..]. *)
Lemma split_no_dotdot (n : string) :
  Py.contains ".." n = false -> ".." ∉ Py.split "/" n.
Proof.
  induction n as [|c n IH]; intros Hc Hin.
  - simpl in Hin. apply list_elem_of_singleton in Hin. discriminate.
  - simpl in Hc. apply orb_false_iff in Hc as [Hs Hc].
    specialize (IH Hc). simpl in Hin. case_bool_decide as Hsep.
    + apply elem_of_cons in Hin as [?|Hin]; [discriminate|done].
    + destruct (Py.split "/" n) as [|h t] eqn:E.
      * apply list_elem_of_singleton in Hin. discriminate.
      * apply elem_of_cons in Hin as [Heq|Hin].
        -- injection Heq as <- <-.
           apply split_first_prefix in E.
           destruct n as [|c' n]; [discriminate|].
           simpl in E. apply andb_true_iff in E as [E _].
           apply bool_decide_eq_true in E. subst c'.
           simpl in Hs. rewrite ?bool_decide_eq_true_2 in Hs by done.
           simpl in Hs. rewrite startswith_nil in Hs. discriminate.
        -- apply IH. by right.
Qed.

Lemma norm_comps_app (i : nat) (A B S : list string) :
  OsPath.norm_comps i S (A ++ B)
  = OsPath.norm_comps i (OsPath.norm_comps i S A) B.
Proof.
  revert S. induction A as [|a A IH]; intros S; [done|].
  simpl. destruct (Py.eqb a "" || Py.eqb a "."); [apply IH|].
  destruct (negb (Py.eqb a "..") || _ || _); [apply IH|].
  destruct S; apply IH.
Qed.

Lemma norm_comps_plain (i : nat) (B S : list string) :
  ".." ∉ B ->
  OsPath.norm_comps i S B
  = rev (List.filter (fun c => negb (Py.eqb c "" || Py.eqb c ".")) B) ++ S.
Proof.
  revert S. induction B as [|b B IH]; intros S Hn; [done|].
  assert (Hb : Py.eqb b ".." = false).
  { apply eqb_false. intros ->. apply Hn. by left. }
  assert (HB : ".." ∉ B) by (intros H; apply Hn; by right).
  simpl. destruct (Py.eqb b "" || Py.eqb b "."); simpl.
  - by apply IH.
  - rewrite Hb. simpl. rewrite (IH _ HB). by rewrite <- app_assoc.
Qed.

Lemma join_app (sep : string) (A B : list string) :
  A <> [] -> B <> [] ->
  Py.join sep (A ++ B) = Py.join sep A +:+ sep +:+ Py.join sep B.
Proof.
  intros HA HB. induction A as [|a A IH]; [done|].
  destruct A as [|a' A].
  - simpl. by destruct B.
  - change (Py.join sep ((a :: a' :: A) ++ B))
      with (a +:+ sep +:+ Py.join sep ((a' :: A) ++ B)).
    rewrite IH by done.
    change (Py.join sep (a :: a' :: A))
      with (a +:+ sep +:+ Py.join sep (a' :: A)).
    by rewrite !sapp_assoc.
Qed.

Lemma initial_slashes_app (D x : string) :
  (3 <= String.length D)%nat ->
  OsPath.initial_slashes (D +:+ x) = OsPath.initial_slashes D.
Proof.
  intros H. unfold OsPath.initial_slashes, OsPath.sep.
  rewrite !startswith_short by (simpl; lia). done.
Qed.

(** A relative name without [..] stays below an absolute directory: the
    normal form of the joined path begins with the normal form of the
    directory. *)
Lemma normpath_below (D n : string) :
  OsPath.isabs D = true ->
  (3 <= String.length D)%nat ->
  Py.contains ".." n = false ->
  Py.startswith (OsPath.normpath (D +:+ String "/" n)) (OsPath.normpath D)
  = true.
Proof.
  intros Habs Hlen Hn.
  assert (HD : Py.eqb D "" = false) by (apply eqb_false; by destruct D).
  assert (HT : Py.eqb (D +:+ String "/" n) "" = false)
    by (apply eqb_false; by destruct D).
  unfold OsPath.normpath. rewrite HD, HT.
  rewrite initial_slashes_app by done.
  rewrite split_app_sep, norm_comps_app.
  rewrite (norm_comps_plain _ (Py.split "/" n)) by by apply split_no_dotdot.
  set (i := OsPath.initial_slashes D).
  set (S := OsPath.norm_comps i [] (Py.split "/" D)).
  set (F := List.filter _ (Py.split "/" n)).
  rewrite rev_app_distr, rev_involutive.
  assert (Hi : exists k, i = Datatypes.S k).
  { subst i. unfold OsPath.initial_slashes. unfold OsPath.isabs in Habs.
    rewrite Habs. destruct (_ && _); eauto. }
  destruct Hi as [k ->]. cbn [OsPath.slashes].
  rewrite !sapp_cons.
  assert (Hc : forall c x, Py.eqb (String c x) "" = false)
    by (intros; by apply eqb_false).
  rewrite !Hc. cbn [Py.startswith].
  rewrite bool_decide_eq_true_2 by done. cbn [andb].
  destruct F as [|f F].
  - rewrite app_nil_r. apply startswith_refl.
  - destruct (rev S) as [|x X] eqn:EX.
    + cbn [app Py.join]. rewrite sapp_nil_r. apply startswith_app.
    + rewrite join_app by done. rewrite <- sapp_assoc. apply startswith_app.
Qed.

(** ** Extraction of an archive *)

Lemma members_extracted_app (t1 t2 : list event) :
  Extract.members_extracted (t1 ++ t2)
  = Extract.members_extracted t1 ++ Extract.members_extracted t2.
Proof.
  induction t1 as [|e t1 IH]; [reflexivity|].
  destruct e; simpl; by rewrite ?IH.
Qed.

Lemma warnings_app (t1 t2 : list event) :
  Extract.warnings (t1 ++ t2) = Extract.warnings t1 ++ Extract.warnings t2.
Proof.
  induction t1 as [|e t1 IH]; [reflexivity|].
  destruct e; simpl; rewrite ?IH; try done.
  by destruct (Py.eqb level "WARNING").
Qed.

Lemma fetch_extract_remove_run (root : string) (tar : list Extract.tarinfo) :
  forall (members : list Extract.tarinfo) (s : st Extract.extract_world),
  exists s',
    Extract.fetch_extract_remove root tar members s = (Ok (members ++ tar), s') /\
    self s' = self s /\
    Extract.cwd (world s') = Extract.cwd (world s) /\
    Extract.members_extracted (trace s') = Extract.members_extracted (trace s) /\
    Extract.warnings (trace s') = Extract.warnings (trace s).
Proof.
  induction tar as [|m tar IH]; intros members s.
  - exists s. simpl. by rewrite app_nil_r.
  - simpl. unfold bind at 1, Extract.remove_quietly. mrun.
    case_bool_decide; mrun.
    + match goal with
      | |- context [Extract.fetch_extract_remove root tar ?ms ?s1] =>
          destruct (IH ms s1) as (s' & E & H1 & H2 & H3 & H4)
      end.
      exists s'. rewrite E, <- app_assoc. cbn [self world trace] in *.
      simpl in H2. rewrite members_extracted_app in H3.
      rewrite warnings_app in H4. simpl in H3, H4.
      rewrite app_nil_r in H3, H4. by repeat split.
    + destruct (IH (members ++ [m]) s) as (s' & E & H1 & H2 & H3 & H4).
      exists s'. rewrite E, <- app_assoc. by repeat split.
Qed.

Lemma fetch_check_members_run (tar : list Extract.tarinfo) :
  forall (_members : list Extract.tarinfo) (s : st Extract.extract_world),
  Extract.fetch_check_members tar _members s
  = (Ok (_members ++ List.filter Extract.kept tar),
     mkSt (self s) (world s)
       (trace s ++
        ((fun m => Log "WARNING"
                     (Extract.name m +:+ " is not a relative file, skipping "))
         <$> List.filter Extract.warned tar))).
Proof.
  induction tar as [|m tar IH]; intros _members s.
  - simpl. by rewrite !app_nil_r, st_eta.
  - simpl. unfold Extract.kept, Extract.warned.
    destruct (Py.eqb (Extract.name m) "."); simpl; [apply IH|].
    destruct (Py.contains ".." (Extract.name m)
              || negb (Py.startswith (Extract.name m) "./")); simpl.
    + unfold bind at 1. rewrite logit_warning. rewrite IH.
      cbn [self world trace]. by rewrite <- app_assoc.
    + rewrite IH. by rewrite <- app_assoc.
Qed.

Lemma check_traversal_ok (path : string) (tar : list Extract.tarinfo)
    (s : st Extract.extract_world) :
  (forall m, m ∈ tar ->
     Extract.is_within_directory (Extract.cwd (world s)) path
       (OsPath.join path (Extract.name m)) = true) ->
  Extract.check_traversal path tar s = (Ok tt, s).
Proof.
  induction tar as [|m tar IH]; intros H; [done|].
  simpl. mrun. rewrite H by by left. cbn [negb]. apply IH.
  intros m' Hm'. apply H. by right.
Qed.

Lemma check_traversal_raises (path : string) (tar : list Extract.tarinfo)
    (s : st Extract.extract_world) (m : Extract.tarinfo) :
  m ∈ tar ->
  Extract.is_within_directory (Extract.cwd (world s)) path
    (OsPath.join path (Extract.name m)) = false ->
  Extract.check_traversal path tar s = (Raise PathTraversal, s).
Proof.
  induction tar as [|m' tar IH]; intros Hin H.
  - by apply elem_of_nil in Hin.
  - simpl. mrun.
    destruct (Extract.is_within_directory _ path
                (OsPath.join path (Extract.name m'))) eqn:E; cbn [negb];
      [|done].
    apply IH; [|done]. apply elem_of_cons in Hin as [->|Hin]; [|done].
    congruence.
Qed.

Lemma extractall_run (path : string) (members : list Extract.tarinfo) :
  forall s : st Extract.extract_world,
  exists s',
    Extract.extractall path members s = (Ok tt, s') /\
    Extract.members_extracted (trace s')
    = Extract.members_extracted (trace s) ++ (Extract.name <$> members) /\
    Extract.warnings (trace s') = Extract.warnings (trace s).
Proof.
  induction members as [|m members IH]; intros s.
  - exists s. simpl. by rewrite app_nil_r.
  - simpl. mrun.
    match goal with
    | |- context [Extract.extractall path members ?s1] =>
        destruct (IH s1) as (s' & E & H1 & H2)
    end.
    exists s'. rewrite E. cbn [trace] in *.
    rewrite members_extracted_app in H1. rewrite warnings_app in H2.
    simpl in H1, H2. rewrite app_nil_r in H2. rewrite <- app_assoc in H1.
    by repeat split.
Qed.

Lemma endswith_sep_app (a b : string) :
  b <> EmptyString -> OsPath.endswith_sep (a +:+ b) = OsPath.endswith_sep b.
Proof.
  intros Hb. induction a as [|c a IH]; [done|].
  rewrite sapp_cons. simpl. rewrite IH.
  destruct (a +:+ b) eqn:E; [|done].
  destruct a; [|discriminate]. rewrite sapp_nil_l in E. done.
Qed.

(** Below the root of a release: a member whose name is relative and has no
    two dots in a row passes the test of [safe_extract]. *)
Lemma within_release_root (cwd root rel n : string) :
  OsPath.isabs root = true ->
  Py.startswith n "/" = false ->
  Py.contains ".." n = false ->
  let dest := root +:+ "/releases/" +:+ rel +:+ "/root" in
  Extract.is_within_directory cwd dest (OsPath.join dest n) = true.
Proof.
  intros Habs Hrel Hdots dest.
  assert (Hd : OsPath.isabs dest = true).
  { unfold OsPath.isabs in *. subst dest. by apply startswith_app_l. }
  assert (Hlen : (3 <= String.length dest)%nat).
  { subst dest. rewrite !length_sapp. simpl. lia. }
  assert (Hne : Py.eqb dest "" = false).
  { apply eqb_false. intros E. rewrite E in Hlen. simpl in Hlen. lia. }
  assert (He : OsPath.endswith_sep dest = false).
  { subst dest. rewrite <- !sapp_assoc. by rewrite endswith_sep_app. }
  assert (Hj : OsPath.join dest n = dest +:+ String "/" n).
  { unfold OsPath.join, OsPath.sep. by rewrite Hrel, Hne, He. }
  rewrite is_within_directory_prefix, Hj. unfold OsPath.abspath.
  rewrite Hd.
  assert (OsPath.isabs (dest +:+ String "/" n) = true) as ->
    by (unfold OsPath.isabs in *; by apply startswith_app_l).
  by apply normpath_below.
Qed.

(** X24 ([__fetch_check_members__], [fetch_extract]): what the member
    filter and the check of the targets do.  [__fetch_check_members__] keeps
    the members whose name is not [.], has no two dots in a row and begins
    with [./]; it drops [.] without a word and every other member with a
    warning.  [safe_extract] looks at all members of the archive, kept or
    not: if the normal form of one target does not begin with the normal
    form of the destination, extraction ends with an error and no member is
    written.  An archive whose names are all relative and free of two dots
    in a row is extracted: its kept members are written, in order. *)
Theorem extraction_checks_members_and_targets
    (s : st Extract.extract_world) (f : string) (tar : list Extract.tarinfo) :
  let o := self s in
  let src := iocroot o +:+ "/download/" +:+ release_str o +:+ "/" +:+ f in
  let dest := iocroot o +:+ "/releases/" +:+ release_str o +:+ "/root" in
  Extract.archives (world s) !! src = Some tar ->
  (exists s',
     Extract.fetch_check_members tar [] s = (Ok (List.filter Extract.kept tar), s') /\
     Extract.warnings (trace s')
     = Extract.warnings (trace s)
       ++ ((fun m => Extract.name m +:+ " is not a relative file, skipping ")
           <$> List.filter Extract.warned tar)) /\
  ((exists m, m ∈ tar /\
      Py.startswith
        (OsPath.abspath (Extract.cwd (world s)) (OsPath.join dest (Extract.name m)))
        (OsPath.abspath (Extract.cwd (world s)) dest) = false) ->
   exists s',
     Extract.fetch_extract f s = (Raise PathTraversal, s') /\
     Extract.members_extracted (trace s') = Extract.members_extracted (trace s)) /\
  (OsPath.isabs (iocroot o) = true ->
   (forall m, m ∈ tar ->
      Py.startswith (Extract.name m) "/" = false /\
      Py.contains ".." (Extract.name m) = false) ->
   exists s',
     Extract.fetch_extract f s = (Ok tt, s') /\
     Extract.members_extracted (trace s')
     = Extract.members_extracted (trace s)
       ++ (Extract.name <$> List.filter Extract.kept tar)).
Proof.
  intros o src dest Harch.
  assert (Hrun : forall s0 : st Extract.extract_world,
    self s0 = o -> Extract.cwd (world s0) = Extract.cwd (world s) ->
    exists s2,
      (member <- Extract.fetch_extract_remove dest tar [] ;;
       member <- Extract.fetch_check_members member [] ;;
       Extract.safe_extract tar dest member) s0
      = (Extract.check_traversal dest tar ;;;
         Extract.extractall dest (List.filter Extract.kept tar)) s2 /\
      self s2 = o /\ Extract.cwd (world s2) = Extract.cwd (world s) /\
      Extract.members_extracted (trace s2) = Extract.members_extracted (trace s0)).
  { intros s0 Hs0 Hc0.
    destruct (fetch_extract_remove_run dest tar [] s0)
      as (s1 & E1 & Hs1 & Hc1 & Hm1 & _).
    unfold bind at 1. rewrite E1. unfold bind at 1.
    rewrite fetch_check_members_run. cbn [app].
    eexists. split; [reflexivity|]. cbn [self world trace].
    split; [congruence|]. split; [congruence|].
    rewrite members_extracted_app, Hm1.
    assert (forall l : list Extract.tarinfo,
              Extract.members_extracted
                ((fun m => Log "WARNING"
                    (Extract.name m +:+ " is not a relative file, skipping "))
                 <$> l) = []) as ->
      by (induction l; simpl; auto).
    by rewrite app_nil_r. }
  assert (Hpre : exists s0 : st Extract.extract_world,
    Extract.fetch_extract f s
    = (member <- Extract.fetch_extract_remove dest tar [] ;;
       member <- Extract.fetch_check_members member [] ;;
       Extract.safe_extract tar dest member) s0 /\
    self s0 = o /\ Extract.cwd (world s0) = Extract.cwd (world s) /\
    Extract.members_extracted (trace s0) = Extract.members_extracted (trace s)).
  { unfold Extract.fetch_extract.
    unfold bind at 1, get_self at 1. cbv beta iota.
    unfold bind at 1, get_world at 1. cbv beta iota.
    fold o. fold src. fold dest. rewrite Harch. unfold bind at 1.
    destruct (Extract.dest_isdir (world s)); cbn [negb].
    - unfold ret at 1. exists s. by repeat split.
    - mrun. cbn [self world trace]. eexists. split; [reflexivity|].
      cbn [self world trace]. split; [done|]. split; [done|].
      rewrite !members_extracted_app. simpl. by rewrite !app_nil_r. }
  destruct Hpre as (s0 & Epre & Hs0 & Hc0 & Hm0).
  destruct (Hrun s0 Hs0 Hc0) as (s2 & Erun & Hs2 & Hc2 & Hm2).
  split; [|split].
  - rewrite fetch_check_members_run. eexists. split; [reflexivity|].
    cbn [trace]. rewrite warnings_app. f_equal.
    induction (List.filter Extract.warned tar) as [|m l IH]; [done|].
    rewrite !fmap_cons. cbn [Extract.warnings]. rewrite eqb_refl.
    by rewrite IH.
  - intros (m & Hin & Hout). exists s2. rewrite Epre, Erun.
    unfold bind at 1.
    rewrite (check_traversal_raises dest tar s2 m Hin).
    + split; [done|]. congruence.
    + rewrite is_within_directory_prefix, Hc2. exact Hout.
  - intros Habs Hnames. rewrite Epre, Erun. unfold bind at 1.
    rewrite check_traversal_ok.
    + destruct (extractall_run dest (List.filter Extract.kept tar) s2)
        as (s3 & E3 & Hm3 & _).
      exists s3. split; [exact E3|]. rewrite Hm3. congruence.
    + intros m Hin. destruct (Hnames m Hin) as [H1 H2].
      by apply within_release_root.
Qed.

Lemma extraction_checks_members_and_targets_witness :
  let good := Sample.unpacking ["."; "./bin"; "./bin/sh"] in
  let bad := Sample.unpacking ["./bin"; "../../etc/passwd"] in
  (exists s',
     Extract.fetch_check_members (Extract.mkTarInfo <$> ["./bin"; "../../etc/passwd"])
       [] bad
     = (Ok [Extract.mkTarInfo "./bin"], s') /\
     Extract.warnings (trace s')
     = ["../../etc/passwd is not a relative file, skipping "]) /\
  (exists s',
     Extract.fetch_extract "base.txz" bad = (Raise PathTraversal, s') /\
     Extract.members_extracted (trace s') = []) /\
  (exists s',
     Extract.fetch_extract "base.txz" good = (Ok tt, s') /\
     Extract.members_extracted (trace s') = ["./bin"; "./bin/sh"]).
Proof.
  intros good bad.
  assert (Hbad : Extract.archives (world bad)
                 !! "/iocage/download/11.1-RELEASE/base.txz"
                 = Some (Extract.mkTarInfo <$> ["./bin"; "../../etc/passwd"]))
    by (vm_compute; reflexivity).
  assert (Hgood : Extract.archives (world good)
                  !! "/iocage/download/11.1-RELEASE/base.txz"
                  = Some (Extract.mkTarInfo <$> ["."; "./bin"; "./bin/sh"]))
    by (vm_compute; reflexivity).
  destruct (extraction_checks_members_and_targets bad "base.txz" _ Hbad)
    as (Hd & Hb & _).
  destruct (extraction_checks_members_and_targets good "base.txz" _ Hgood)
    as (_ & _ & Hc).
  split; [exact Hd|]. split.
  - apply Hb. exists (Extract.mkTarInfo "../../etc/passwd"). split.
    + simpl. apply elem_of_cons. right. apply elem_of_cons. by left.
    + vm_compute. reflexivity.
  - apply Hc; [reflexivity|].
    intros m Hm. simpl in Hm.
    repeat (apply elem_of_cons in Hm as [->|Hm]; [by split|]).
    by apply elem_of_nil in Hm.
Defined.

(** The test on characters at work, on an archive with the members [.],
    [./bin] and [../root2/x].  The member [.] is dropped without a warning.
    The target of [../root2/x] is in the directory [root2] beside the
    release root, not inside the root; the test lets it pass, so extraction
    does not fail, and the file of that name is removed before anything is
    checked. *)
Lemma extraction_lets_sibling_directory_pass :
  let run :=
    Extract.fetch_extract "base.txz"
      (Sample.unpacking ["."; "./bin"; "../root2/x"]) in
  let dest := "/iocage/releases/11.1-RELEASE/root" in
  OsPath.abspath "/root" (OsPath.join dest "../root2/x")
  = "/iocage/releases/11.1-RELEASE/root2/x" /\
  fst run = Ok tt /\
  Extract.warnings (trace (snd run))
  = ["../root2/x is not a relative file, skipping "] /\
  Remove "/iocage/releases/11.1-RELEASE/root2/x" ∈ trace (snd run).
Proof.
  split; [vm_compute; reflexivity|]. split; [vm_compute; reflexivity|].
  split; [vm_compute; reflexivity|].
  vm_compute. apply list_elem_of_In. simpl. tauto.
Qed.

(** C1: the code at an archive with the members [./bin] and
    [../../etc/passwd], where [/iocage/releases/etc/passwd] exists.  The
    extraction is rejected as a path traversal and no member is written,
    but not before any write: [__fetch_extract_remove__] has by then
    removed the file outside the destination that the second member
    names. *)
Theorem traversal_is_rejected_after_the_file_is_removed :
  let before := Sample.unpacking ["./bin"; "../../etc/passwd"] in
  let run := Extract.fetch_extract "base.txz" before in
  "/iocage/releases/etc/passwd" ∈ Extract.disk (world before) /\
  fst run = Raise PathTraversal /\
  Extract.members_extracted (trace (snd run)) = [] /\
  Remove "/iocage/releases/etc/passwd" ∈ trace (snd run) /\
  "/iocage/releases/etc/passwd" ∉ Extract.disk (world (snd run)).
Proof.
  split; [apply (bool_decide_unpack _); vm_compute; exact I|].
  split; [vm_compute; reflexivity|]. split; [vm_compute; reflexivity|].
  split.
  - vm_compute. apply list_elem_of_In. simpl. tauto.
  - apply (bool_decide_unpack _). vm_compute. exact I.
Qed.

(** * Further properties of the module *)

(** X1 ([is_within_directory]): the test is a comparison of characters.  It
    holds exactly when the normal form of the target begins with the
    normal form of the directory, whichever of the two strings
    [commonprefix] takes for the lesser. *)
Theorem is_within_directory_is_prefix_test (cwd directory target : string) :
  Extract.is_within_directory cwd directory target = true <->
  exists rest,
    OsPath.abspath cwd target = OsPath.abspath cwd directory +:+ rest.
Proof.
  rewrite is_within_directory_prefix.
  generalize (OsPath.abspath cwd target) (OsPath.abspath cwd directory).
  intros t d. split.
  - revert t. induction d as [|c d IH]; intros t H.
    + by exists t.
    + destruct t as [|x t]; [done|]. simpl in H.
      apply andb_true_iff in H as [Hc H]. apply bool_decide_eq_true in Hc.
      subst x. destruct (IH t H) as [rest ->]. by exists rest.
  - intros [rest ->]. apply startswith_app.
Qed.

(** X2 ([safe_extract]): below the root of a release, every member whose
    name does not begin with a slash and has no two dots in a row passes
    the traversal test, so the loop over the members raises nothing. *)
Theorem relative_members_pass_traversal_check
    (s : st Extract.extract_world) (root rel : string)
    (tar : list Extract.tarinfo) :
  OsPath.isabs root = true ->
  Forall (fun m => Py.startswith (Extract.name m) "/" = false /\
                   Py.contains ".." (Extract.name m) = false) tar ->
  Extract.check_traversal (root +:+ "/releases/" +:+ rel +:+ "/root") tar s
  = (Ok tt, s).
Proof.
  intros Habs Hall. apply check_traversal_ok. intros m Hm.
  rewrite Forall_forall in Hall. destruct (Hall m Hm) as [H1 H2].
  by apply within_release_root.
Qed.

Lemma relative_members_pass_traversal_check_witness :
  Extract.check_traversal ("/iocage" +:+ "/releases/" +:+ "11.1-RELEASE" +:+ "/root")
    (Extract.mkTarInfo <$> ["."; "./bin"; "usr/share/doc"])
    (Sample.unpacking ["."; "./bin"; "usr/share/doc"])
  = (Ok tt, Sample.unpacking ["."; "./bin"; "usr/share/doc"]).
Proof.
  apply (relative_members_pass_traversal_check
           (Sample.unpacking ["."; "./bin"; "usr/share/doc"])
           "/iocage" "11.1-RELEASE").
  - reflexivity.
  - simpl. repeat constructor.
Defined.

(** X3 ([__fetch_extract_remove__]): whatever is on disk, the method returns
    every member of the archive, in order; it writes no member and logs no
    warning. *)
Theorem extract_remove_returns_all_members
    (root : string) (tar : list Extract.tarinfo)
    (s : st Extract.extract_world) :
  let run := Extract.fetch_extract_remove root tar [] s in
  fst run = Ok tar /\
  self (snd run) = self s /\
  Extract.members_extracted (trace (snd run))
  = Extract.members_extracted (trace s) /\
  Extract.warnings (trace (snd run)) = Extract.warnings (trace s).
Proof.
  destruct (fetch_extract_remove_run root tar [] s)
    as (s' & E & H1 & _ & H3 & H4).
  cbv zeta. rewrite E. by repeat split.
Qed.


(** X5 ([fetch_download]): when the download dataset of the release exists
    and the call is not the one for missing files, nothing is requested and
    nothing changes, whatever the backend. *)
Theorem download_skipped_when_dataset_exists
    (_list : list string) (ftp : bool) (s : st Fetch.fetch_world) :
  Fetch.download_isdir (world s) = true ->
  Fetch.fetch_download _list ftp false s = (Ok tt, s).
Proof.
  intros Hdir. unfold Fetch.fetch_download. mrun. by rewrite Hdir.
Qed.

Lemma download_skipped_when_dataset_exists_witness :
  Fetch.fetch_download ["MANIFEST"; "base.txz"; "doc.txz"] false false
    Sample.with_damaged_doc
  = (Ok tt, Sample.with_damaged_doc).
Proof.
  apply (download_skipped_when_dataset_exists
           ["MANIFEST"; "base.txz"; "doc.txz"] false Sample.with_damaged_doc).
  reflexivity.
Defined.

(** ** The constructor and release selection, further *)

(** X6 ([__init__]): whatever the arguments, a release stored by the
    constructor is in upper case, and [self.http] is the caller's flag or
    the hardened flag. *)
Theorem init_release_is_upper_case
    (cfg_pool cfg_iocroot uname_arch : string) (a : init_args) :
  let o := init cfg_pool cfg_iocroot uname_arch a in
  (forall r, release o = Some r -> Py.upper r = r) /\
  http o = a_http a || a_hardened a.
Proof.
  cbv zeta. unfold init. cbn [http release]. split.
  - intros r. destruct (a_release a) as [[|c r0]|];
      destruct (a_hardened a); unfold Py.truthy; cbn [fmap option_fmap option_map];
      intros H; try discriminate; injection H as <-.
    + reflexivity.
    + reflexivity.
    + exact (upper_idem (Py.take 2 (Py.upper (String c r0)) +:+ "-stable")).
    + exact (upper_idem (String c r0)).
  - destruct (a_hardened a); [by rewrite orb_true_r | by rewrite orb_false_r].
Qed.

Lemma getitem_elem {A} (l : list A) (i : Z) (x : A) :
  Validate.getitem l i = Some x -> x ∈ l.
Proof.
  unfold Validate.getitem.
  destruct (_ && _); [|discriminate].
  apply list_elem_of_lookup_2.
Qed.

(** X7 ([__fetch_validate_release__]): the word exit, in any mix of upper
    and lower case, ends the run with exit status 0 and changes nothing. *)
Theorem validate_exit_any_case {W} (u : string) (releases : list string)
    (r : string) (s : st W) :
  release (self s) = Some r ->
  Py.lower r = "exit" ->
  Validate.fetch_validate_release u releases s = (Raise (SystemExit 0), s).
Proof.
  intros Hrel Hex.
  unfold Validate.fetch_validate_release, Validate.current_release.
  mrun. rewrite Hrel. mrun. by rewrite Hex.
Qed.

Lemma validate_exit_any_case_witness :
  Validate.fetch_validate_release "11.1-RELEASE-p4" ["11.1-RELEASE"]
    (mkSt (init "zroot" "/iocage" "amd64"
             (mkArgs (Some "Exit") "ftp.freebsd.org" None None
                false false true false true true default_files)) tt [])
  = (Raise (SystemExit 0),
     mkSt (init "zroot" "/iocage" "amd64"
             (mkArgs (Some "Exit") "ftp.freebsd.org" None None
                false false true false true true default_files)) tt []).
Proof.
  apply (validate_exit_any_case (W:=unit) "11.1-RELEASE-p4"
           ["11.1-RELEASE"] "EXIT").
  - reflexivity.
  - reflexivity.
Defined.

(** X8 ([__fetch_validate_release__]): when the method returns, the value
    is what [self.release] then holds, and it is a name of the list, or it
    is the host's release with -STABLE in it, in which case the object has
    become hardened.  The world and the trace are as before. *)
Theorem validated_release_is_listed_or_host_stable {W} (u : string)
    (releases : list string) (x : string) (s s' : st W) :
  Validate.fetch_validate_release u releases s = (Ok x, s') ->
  release (self s') = Some x /\
  world s' = world s /\ trace s' = trace s /\
  (x ∈ releases \/
   (x = Validate.host_release u /\ Py.contains "-STABLE" x = true /\
    hardened (self s') = true)).
Proof.
  unfold Validate.fetch_validate_release, Validate.current_release.
  mrun. destruct (release (self s)) as [r|] eqn:Hrel; mrun; [|discriminate].
  destruct (Py.eqb (Py.lower r) "exit"); [discriminate|].
  destruct (2 <? String.length r)%nat.
  - unfold Validate.list_index_check. unfold Py.mem.
    case_bool_decide as Hin; mrun.
    + rewrite Hrel. intros H. injection H as <- <-. auto.
    + rewrite logit_exception. discriminate.
  - destruct (Validate.py_int r) as [i|].
    + destruct (Validate.getitem releases i) as [y|] eqn:Hy; mrun.
      * cbn [self release set_release]. intros H. injection H as <- <-.
        cbn [self world trace release set_release].
        apply getitem_elem in Hy. auto.
      * rewrite logit_exception. discriminate.
    + unfold Validate.fetch_host_release. mrun.
      destruct (Py.contains "-STABLE" (Validate.host_release u)) eqn:Hst;
        mrun.
      * cbn [self release set_release set_hardened].
        intros H. injection H as <- <-.
        cbn [self world trace release hardened set_release set_hardened].
        auto 10.
      * unfold Validate.list_index_check, Py.mem.
        case_bool_decide as Hin; mrun.
        -- cbn [self release set_release]. intros H. injection H as <- <-.
           cbn [self world trace release set_release]. auto.
        -- rewrite logit_exception. discriminate.
Qed.

Lemma validated_release_is_listed_or_host_stable_witness :
  let s := mkSt (init "zroot" "/iocage" "amd64"
             (mkArgs (Some "-1") "ftp.freebsd.org" None None
                false false true false true true default_files)) tt [] in
  exists s',
    release (self s') = Some "11.1-RELEASE" /\
    world s' = world s /\ trace s' = trace s /\
    ("11.1-RELEASE" ∈ ["10.4-RELEASE"; "11.1-RELEASE"] \/
     ("11.1-RELEASE" = Validate.host_release "11.1-RELEASE-p4" /\
      Py.contains "-STABLE" "11.1-RELEASE" = true /\
      hardened (self s') = true)).
Proof.
  cbv zeta. eexists.
  apply (validated_release_is_listed_or_host_stable (W:=unit)
           "11.1-RELEASE-p4" ["10.4-RELEASE"; "11.1-RELEASE"]).
  vm_compute. reflexivity.
Defined.

Lemma before_last_dash_none (p : string) :
  Py.has_char "-" p = false -> Validate.before_last_dash p = None.
Proof.
  induction p as [|c p IH]; simpl; [done|].
  intros H. apply orb_false_iff in H as [H1 H2].
  rewrite (IH H2). apply bool_decide_eq_false in H1.
  by rewrite bool_decide_eq_false_2.
Qed.

Lemma before_last_dash_app (a p : string) :
  Py.has_char "-" p = false ->
  Validate.before_last_dash (a +:+ String "-" p) = Some a.
Proof.
  intros Hp. induction a as [|c a IH].
  - rewrite sapp_nil_l. simpl. by rewrite (before_last_dash_none _ Hp).
  - rewrite sapp_cons. simpl. by rewrite IH.
Qed.

Lemma contains_app_r (sub a b : string) :
  Py.contains sub b = true -> Py.contains sub (a +:+ b) = true.
Proof.
  intros H. induction a as [|c a IH].
  - by rewrite sapp_nil_l.
  - rewrite sapp_cons. simpl. rewrite IH. apply orb_true_r.
Qed.

Lemma contains_prefix (sub b : string) :
  Py.contains sub (sub +:+ b) = true.
Proof.
  pose proof (startswith_app sub b) as H.
  destruct (sub +:+ b) as [|c t].
  - change (Py.contains sub "") with (Py.startswith "" sub || false).
    by rewrite H.
  - change (Py.contains sub (String c t))
      with (Py.startswith (String c t) sub || Py.contains sub t).
    by rewrite H.
Qed.

(** X9 ([__fetch_host_release__]): for a host on a patched RELEASE, the
    patch level is cut off: from [v-RELEASE-p], where [p] has no dash, the
    method keeps [v-RELEASE], and that becomes [self.release]. *)
Theorem host_release_drops_patch_level {W} (v p : string) (s : st W) :
  Py.contains "-STABLE" (v +:+ "-RELEASE-" +:+ p) = false ->
  Py.contains "-HBSD" (v +:+ "-RELEASE-" +:+ p) = false ->
  Py.has_char "-" p = false ->
  Validate.fetch_host_release (v +:+ "-RELEASE-" +:+ p) s
  = (Ok (v +:+ "-RELEASE"),
     mkSt (set_release (self s) (Some (v +:+ "-RELEASE")))
       (world s) (trace s)).
Proof.
  intros Hst Hh Hp.
  assert (Validate.host_release (v +:+ "-RELEASE-" +:+ p) = v +:+ "-RELEASE")
    as Hhost.
  { unfold Validate.host_release. rewrite Hst, Hh.
    rewrite (contains_app_r "-RELEASE" v ("-RELEASE-" +:+ p))
      by apply (contains_prefix "-RELEASE" ("-" +:+ p)).
    simpl negb. cbv iota.
    unfold Validate.rsplit_dash_first.
    change (v +:+ "-RELEASE-" +:+ p)
      with (v +:+ ("-RELEASE" +:+ String "-" p)).
    rewrite <- sapp_assoc.
    by rewrite (before_last_dash_app _ _ Hp). }
  unfold Validate.fetch_host_release. mrun. by rewrite Hhost.
Qed.

Lemma host_release_drops_patch_level_witness :
  Validate.fetch_host_release ("11.1" +:+ "-RELEASE-" +:+ "p4")
    (mkSt (Sample.fetcher None false false false) tt [])
  = (Ok ("11.1" +:+ "-RELEASE"),
     mkSt (set_release (Sample.fetcher None false false false)
             (Some ("11.1" +:+ "-RELEASE"))) tt []).
Proof.
  apply (host_release_drops_patch_level (W:=unit) "11.1" "p4"
           (mkSt (Sample.fetcher None false false false) tt []));
    reflexivity.
Defined.

(** ** Plugins, further *)

Lemma merge_loop_prefix (fetch_release : M PluginProps.props_world unit)
    (json : list (string * string)) :
  forall (props l : list string) s s',
  PluginProps.merge_loop fetch_release json props s = (Ok l, s') ->
  exists extra, l = props ++ extra.
Proof.
  induction json as [|[k v] json IH]; intros props l s s' H.
  - simpl in H. injection H as <- _. exists []. by rewrite app_nil_r.
  - simpl in H. unfold bind at 1 in H. unfold get_world at 1 in H.
    cbv beta iota in H. unfold bind at 1 in H.
    destruct ((if negb (PluginProps.release_isdir (world s))
               then fetch_release else ret ()) s) as [[[]|e] s1];
      [|discriminate].
    apply IH in H as [extra ->].
    destruct (negb _).
    + exists ([k +:+ "=" +:+ v] ++ extra). by rewrite app_assoc.
    + by exists extra.
Qed.

Lemma reformat_all_pairs (props qs : list string) :
  PluginProps.reformat_all props = Ok qs ->
  Forall (fun p => exists k v, Py.split "=" p = [k; v]) props.
Proof.
  revert qs. induction props as [|p props IH]; simpl; intros qs H.
  - constructor.
  - destruct (PluginProps.reformat p) as [q|] eqn:Hq; [|discriminate].
    destruct (PluginProps.reformat_all props) as [qs'|] eqn:Hr;
      [|discriminate].
    constructor; [|by apply (IH qs')].
    unfold PluginProps.reformat in Hq.
    destruct (Py.split "=" p) as [|k [|v [|? ?]]]; try discriminate.
    by exists k, v.
Qed.

(** X10 ([__fetch_plugin_props__]): the method returns only when each
    property of the caller has one equals sign, no more and no less; a
    property such as [boot] or [a=b=c] makes the unpacking of [k, v] fail.
    The repositories it returns are the descriptor's fingerprints. *)
Theorem plugin_props_need_one_equals_sign
    (fetch_release : M PluginProps.props_world unit)
    (conf : descriptor) (props : list string)
    (s s' : st PluginProps.props_world)
    (create_props : list string)
    (repos : list (string * list (string * string))) :
  PluginProps.fetch_plugin_props fetch_release conf props s
    = (Ok (create_props, repos), s') ->
  Forall (fun p => exists k v, Py.split "=" p = [k; v]) props /\
  repos = d_fingerprints conf.
Proof.
  intros H. unfold PluginProps.fetch_plugin_props in H.
  unfold bind at 1, get_self at 1 in H. cbv beta iota in H.
  unfold bind at 1, put_self at 1 in H. cbv beta iota in H.
  unfold bind at 1 in H.
  destruct (PluginProps.merge_loop fetch_release _ props _)
    as [[l|e] s1] eqn:Hloop; [|discriminate].
  apply merge_loop_prefix in Hloop as [extra ->].
  unfold bind at 1 in H.
  match type of H with
  | (let (_, _) := ?m s1 in _) = _ => destruct (m s1) as [[[rel|]|e] s2]
  end; try discriminate.
  destruct (PluginProps.reformat_all (props ++ extra)) as [user|e] eqn:Hre;
    [|discriminate].
  injection H as _ <- _.
  apply reformat_all_pairs in Hre. apply Forall_app in Hre as [Hre _].
  by split.
Qed.

Lemma plugin_props_need_one_equals_sign_witness :
  Forall (fun p => exists k v, Py.split "=" p = [k; v])
    ["ip4_addr=em0|10.0.0.2/24"; "boot=off"] /\
  d_fingerprints Sample.quassel = d_fingerprints Sample.quassel.
Proof.
  eapply (plugin_props_need_one_equals_sign (ret tt) Sample.quassel
            ["ip4_addr=em0|10.0.0.2/24"; "boot=off"]
            (mkSt (Sample.fetcher None false false false)
               Sample.release_on_disk [])).
  vm_compute. reflexivity.
Defined.

Lemma makedirs_pass (d : string) (s : st Plugin.plugin_world) :
  exists ds,
    Plugin.ignore_oserror (Plugin.makedirs d) (ret tt) s
    = (Ok tt, mkSt (self s) (Plugin.with_dirs (world s) ds) (trace s)).
Proof.
  unfold Plugin.ignore_oserror, Plugin.makedirs. mrun.
  case_bool_decide; mrun.
  - exists (Plugin.dirs (world s)). by destruct s as [o [] tr].
  - eauto.
Qed.

Lemma write_fingerprints_total (q : string) (pairs : list (string * string))
    (s : st Plugin.plugin_world) :
  exists s', Plugin.write_fingerprints q pairs s = (Ok tt, s').
Proof.
  destruct (write_fingerprints_run q pairs s) as (s' & E & _). eauto.
Qed.

Lemma write_repos_total (jaildir repo_dir packagesite : string)
    (repos : list (string * list (string * string))) :
  forall (rn : option string) (s : st Plugin.plugin_world),
  exists s',
    Plugin.write_repos jaildir repo_dir packagesite repos rn s
    = (Ok (match last repos with
           | Some (n, _) => Some n
           | None => rn
           end), s').
Proof.
  induction repos as [|[n0 pairs0] repos IH]; intros rn s.
  - exists s. reflexivity.
  - simpl Plugin.write_repos. unfold bind at 1.
    destruct (makedirs_frame (Plugin.fingerprint_dir jaildir n0)
                (logit "ERROR" ("Repo: " +:+ n0 +:+ " already exists, skipping!"))
                s) as (s1 & E1 & _); [right; eauto|].
    rewrite E1. unfold bind at 1. rewrite write_file_run.
    unfold bind at 1.
    match goal with
    | |- exists _, (let (_, _) := Plugin.write_fingerprints ?q ?ps ?s2 in _) = _ =>
        destruct (write_fingerprints_total q ps s2) as (s3 & E3);
        rewrite E3
    end.
    destruct (IH (Some n0) s3) as (s' & E). exists s'. rewrite E.
    rewrite last_cons. by destruct (last repos) as [[n1 p1]|].
Qed.

Lemma external_outcome (e : event) (s s' : st Plugin.plugin_world)
    (r : result unit) :
  Plugin.external e s = (r, s') -> r = Ok tt \/ r = Raise KeyboardInterrupt.
Proof.
  unfold Plugin.external. mrun. case_bool_decide; mrun;
    intros E; injection E as <- _; auto.
Qed.

Lemma load_kmods_outcome (kmods : list string) :
  forall (s s' : st Plugin.plugin_world) (r : result unit),
  Plugin.load_kmods kmods s = (r, s') ->
  r = Ok tt \/ r = Raise KeyboardInterrupt \/
  r = Raise (Fatal "Module not found!").
Proof.
  induction kmods as [|k kmods IH]; intros s s' r H.
  - simpl in H. injection H as <- _. by left.
  - simpl in H. unfold bind at 1 in H.
    destruct (Plugin.external (Kldload k) s) as [r1 s1] eqn:E1.
    apply external_outcome in E1 as [-> | ->].
    + unfold bind at 1, get_world at 1 in H. cbv beta iota in H.
      unfold bind at 1 in H.
      destruct (Plugin.kmod_loads (Plugin.oracle (world s1)) k).
      * unfold ret at 1 in H. by apply IH in H.
      * rewrite logit_exception in H. injection H as <- _. auto.
    + injection H as <- _. auto.
Qed.

(** X11 ([__fetch_plugin_install_packages__]): the method ends in one of
    four ways.  It returns; it is interrupted; a kernel module cannot be
    loaded, which is the one fatal error it raises; or the descriptor has
    no repository at all, so that [repo_name] is never bound when the
    packages are to be installed.  An error of the package installation
    itself is reported and the method returns. *)
Theorem install_packages_outcomes
    (uuid jaildir : string) (conf : descriptor) (_conf : Plugin.jail_conf)
    (pkg_repos : list (string * list (string * string)))
    (create_props : list string) (repo_dir : string)
    (s : st Plugin.plugin_world) :
  let r := fst (Plugin.fetch_plugin_install_packages uuid jaildir conf _conf
                  pkg_repos create_props repo_dir s) in
  r = Ok tt \/
  r = Raise KeyboardInterrupt \/
  r = Raise (Fatal "Module not found!") \/
  (r = Raise (UnboundLocalError "repo_name") /\ pkg_repos = []).
Proof.
  cbv zeta.
  destruct (Plugin.fetch_plugin_install_packages uuid jaildir conf _conf
              pkg_repos create_props repo_dir s) as [r s'] eqn:H.
  cbn [fst]. unfold Plugin.fetch_plugin_install_packages in H.
  unfold bind at 1 in H.
  destruct (Plugin.load_kmods (d_kmods conf) s) as [r1 s1] eqn:E1.
  apply load_kmods_outcome in E1 as [-> |[-> | ->]];
    [|injection H as <- _; auto|injection H as <- _; auto].
  unfold bind at 1 in H.
  destruct (makedirs_pass (jaildir +:+ "/root/usr/local/etc/pkg/repos") s1)
    as (ds2 & E2).
  rewrite E2 in H. unfold bind at 1 in H.
  match type of H with
  | context [Plugin.ignore_oserror (Plugin.makedirs repo_dir) (ret ()) ?s2] =>
      destruct (makedirs_pass repo_dir s2) as (ds3 & E3)
  end.
  rewrite E3 in H.
  unfold bind at 1 in H. rewrite write_file_run in H. unfold bind at 1 in H.
  match type of H with
  | context [Plugin.write_repos _ _ _ _ _ ?s4] =>
      destruct (write_repos_total jaildir repo_dir (d_packagesite conf)
                  pkg_repos None s4) as (s5 & E5)
  end.
  rewrite E5 in H.
  destruct (last pkg_repos) as [[n ps]|] eqn:El.
  - unfold bind at 1 in H.
    destruct (Plugin.external (InstallPackages uuid) s5) as [r6 s6] eqn:E6.
    apply external_outcome in E6 as [-> | ->].
    + unfold bind at 1, get_world at 1 in H. cbv beta iota in H.
      destruct (Plugin.install_err (Plugin.oracle (world s6))).
      * rewrite logit_error in H. injection H as <- _. auto.
      * injection H as <- _. auto.
    + injection H as <- _. auto.
  - apply last_None in El. subst pkg_repos.
    injection H as <- _. auto.
Qed.

(** X12 ([__fetch_plugin_install_packages__]): with a descriptor that names
    no repository the method stops with [UnboundLocalError] for
    [repo_name]: the kernel modules are loaded and [FreeBSD.conf] is
    written, and the packages are not installed. *)
Theorem install_without_repository_is_unbound
    (uuid jaildir : string) (conf : descriptor) (_conf : Plugin.jail_conf)
    (create_props : list string) (repo_dir : string)
    (s s1 : st Plugin.plugin_world) :
  Plugin.load_kmods (d_kmods conf) s = (Ok tt, s1) ->
  exists s',
    Plugin.fetch_plugin_install_packages uuid jaildir conf _conf []
      create_props repo_dir s
    = (Raise (UnboundLocalError "repo_name"), s') /\
    trace s'
    = trace s1 ++
      [WriteFile (jaildir +:+ "/root/usr/local/etc/pkg/repos/FreeBSD.conf")] /\
    Plugin.fs (world s')
      !! (jaildir +:+ "/root/usr/local/etc/pkg/repos/FreeBSD.conf")
    = Some Plugin.freebsd_conf.
Proof.
  intros Hk. unfold Plugin.fetch_plugin_install_packages.
  unfold bind at 1. rewrite Hk.
  unfold bind at 1.
  destruct (makedirs_pass (jaildir +:+ "/root/usr/local/etc/pkg/repos") s1)
    as (ds2 & ->).
  unfold bind at 1.
  match goal with
  | |- context [Plugin.ignore_oserror (Plugin.makedirs repo_dir) (ret ()) ?s2] =>
      destruct (makedirs_pass repo_dir s2) as (ds3 & ->)
  end.
  unfold bind at 1. rewrite write_file_run. unfold bind at 1.
  simpl Plugin.write_repos. unfold ret at 1. unfold raise.
  eexists. split; [reflexivity|]. simpl. split; [reflexivity|].
  apply lookup_insert_eq.
Qed.

Lemma install_without_repository_is_unbound_witness :
  let s0 := Sample.host (Sample.answers Sample.static_address (fun _ => true) None) in
  exists s',
    Plugin.fetch_plugin_install_packages "quasselcore" Sample.jaildir
      Sample.quassel Sample.static_address [] []
      (Sample.jaildir +:+ "/root/usr/local/etc/pkg/repos") s0
    = (Raise (UnboundLocalError "repo_name"), s') /\
    trace s'
    = trace s0 ++
      [WriteFile (Sample.jaildir +:+ "/root/usr/local/etc/pkg/repos/FreeBSD.conf")] /\
    Plugin.fs (world s')
      !! (Sample.jaildir +:+ "/root/usr/local/etc/pkg/repos/FreeBSD.conf")
    = Some Plugin.freebsd_conf.
Proof.
  intros s0.
  apply (install_without_repository_is_unbound "quasselcore" Sample.jaildir
           Sample.quassel Sample.static_address []
           (Sample.jaildir +:+ "/root/usr/local/etc/pkg/repos") s0 s0).
  reflexivity.
Defined.

Lemma has_char_app (c : ascii) (a b : string) :
  Py.has_char c (a +:+ b) = Py.has_char c a || Py.has_char c b.
Proof.
  induction a as [|x a IH]; [reflexivity|].
  rewrite sapp_cons. simpl. by rewrite IH, orb_assoc.
Qed.

(** X13 ([__fetch_plugin_post_install__]): from a jail address written as
    interface, bar, address, slash, prefix length, the method takes the
    bare address; a field without a bar, such as [none], gives [none]. *)
Theorem address_of_interface_address_mask (iface ip mask : string) :
  Py.has_char "|" iface = false ->
  Py.has_char "|" ip = false ->
  Py.has_char "/" ip = false ->
  Py.has_char "|" mask = false ->
  PluginRun.address_of (iface +:+ "|" +:+ ip +:+ "/" +:+ mask) = ip /\
  PluginRun.address_of iface = "none".
Proof.
  intros Hi Hip Hs Hm. unfold PluginRun.address_of. split.
  - change (iface +:+ "|" +:+ ip +:+ "/" +:+ mask)
      with (iface +:+ String "|" (ip +:+ String "/" mask)).
    rewrite split_app_sep, (split_no_sep _ _ Hi).
    rewrite (split_no_sep "|" (ip +:+ String "/" mask)).
    + simpl. rewrite split_app_sep, (split_no_sep _ _ Hs). reflexivity.
    + rewrite has_char_app. simpl. rewrite Hip, Hm. reflexivity.
  - by rewrite (split_no_sep _ _ Hi).
Qed.

Lemma address_of_interface_address_mask_witness :
  PluginRun.address_of ("em0" +:+ "|" +:+ "10.0.0.2" +:+ "/" +:+ "24")
  = "10.0.0.2" /\
  PluginRun.address_of "em0" = "none".
Proof.
  apply (address_of_interface_address_mask "em0" "10.0.0.2" "24");
    reflexivity.
Defined.

(** ** Download and verification, further *)

Section MissingList.
Variable sha256 : string -> string.

(** The files a pass adds to the missing list are files of the loop other
    than the MANIFEST, in their order; the pass for missing files adds
    none. *)
Lemma check_loop_added_files (hashes : gmap string string)
    (_list : list string) (_missing : bool) (todo : list string) :
  forall (missing res : list string) (s s' : st Fetch.fetch_world),
  Fetch.check_loop sha256 hashes _list _missing todo missing s = (Ok res, s') ->
  exists added,
    res = missing ++ added /\ added `sublist_of` todo /\
    ("MANIFEST" ∉ added) /\
    Forall (fun g => g ∈ _list) added /\
    (_missing = true -> added = []).
Proof.
  induction todo as [|g todo IH]; intros missing res s s' H.
  - simpl in H. injection H as <- <-. exists []. rewrite app_nil_r.
    repeat split; auto. apply not_elem_of_nil.
  - simpl in H. unfold bind at 1, get_self at 1 in H. cbv beta iota in H.
    destruct (Py.eqb g "MANIFEST") eqn:Eg.
    { apply IH in H as (added & -> & Hsub & Hm & Hl & Hno). exists added.
      split; [done|]. split; [by apply sublist_cons|]. auto. }
    destruct (hardened (self s) && Py.eqb g "lib32.txz").
    { apply IH in H as (added & -> & Hsub & Hm & Hl & Hno). exists added.
      split; [done|]. split; [by apply sublist_cons|]. auto. }
    unfold bind at 1 in H.
    match type of H with
    | (let (_, _) := ?m s in _) = _ =>
        assert (Hstep : (exists e, fst (m s) = Raise e) \/
                  exists m1 s1, m s = (Ok m1, s1) /\
                    (m1 = missing \/
                     (m1 = missing ++ [g] /\ _missing = false /\ g ∈ _list)));
        [|destruct Hstep as [[e He]|(m1 & s1 & E1 & Hm1)];
          [destruct (m s) as [[?|?] ?]; simpl in He; discriminate|rewrite E1 in H]]
    end.
    { unfold Py.mem. case_bool_decide as Hin; mrun;
        [|right; exists missing, s; auto].
      destruct (Fetch.dl (world s) !! g) as [content|].
      - destruct (hashes !! g) as [h|]; mrun; [|left; by eexists].
        destruct (negb (Py.eqb h (sha256 content)));
          [|right; exists missing, s; auto].
        destruct _missing; cbn [negb].
        + rewrite logit_exception. mrun. left. by eexists.
        + rewrite logit_warning. mrun. right. eexists _, _. auto.
      - destruct _missing; cbn [negb].
        + rewrite logit_exception. mrun. left. by eexists.
        + rewrite logit_warning. mrun. right. eexists _, _. auto. }
    unfold bind at 1 in H.
    match type of H with
    | (let (_, _) := ?m s1 in _) = _ =>
        destruct (m s1) as [[[]|e] s2]; [|discriminate]
    end.
    apply IH in H as (added & -> & Hsub & Hm & Hl & Hno).
    destruct Hm1 as [->|(-> & Hmf & Hgl)].
    + exists added. split; [done|]. split; [by apply sublist_cons|]. auto.
    + exists (g :: added). rewrite <- app_assoc. split; [done|].
      split; [by apply sublist_skip|].
      split.
      { intros Hin. apply elem_of_cons in Hin as [Hin|Hin]; [|done].
        subst g. by rewrite eqb_refl in Eg. }
      split; [by constructor|].
      intros Ht. congruence.
Qed.

(** The list [__fetch_check__] returns. *)
Lemma fetch_check_missing (_list : list string) (ftp _missing : bool)
    (s s' : st Fetch.fetch_world) (ms : list string) :
  Fetch.fetch_check sha256 _list ftp _missing s = (Ok (Some ms), s') ->
  exists added,
    (ms = added \/ ms = "MANIFEST" :: added) /\
    added `sublist_of` files (self s) /\
    ("MANIFEST" ∉ added) /\
    Forall (fun g => g ∈ _list) added /\
    (_missing = true -> added = []).
Proof.
  intros H. unfold Fetch.fetch_check in H.
  unfold bind at 1, get_world at 1 in H. cbv beta iota in H.
  destruct (Fetch.download_isdir (world s)) eqn:Hdir; [|discriminate].
  unfold bind at 1 in H.
  match type of H with
  | (let (_, _) := ?m s in _) = _ =>
      assert (Hs1 : forall r1 s1, m s = (r1, s1) -> self s1 = self s);
      [|destruct (m s) as [r1 s1]; pose proof (Hs1 r1 s1 eq_refl) as Hself;
        clear Hs1]
  end.
  { intros r1 s1. destruct (negb _).
    - intros E. by apply refetch_manifest_any in E as (? & _).
    - by intros [= <- <-]. }
  destruct r1 as [[]|e]; [|discriminate].
  unfold bind at 1, get_world at 1 in H. cbv beta iota in H.
  unfold bind at 1 in H.
  match type of H with
  | (let (_, _) := ?m s1 in _) = _ =>
      assert (Hp : (exists e, m s1 = (Raise e, s1)) \/
                   exists h pre, m s1 = (Ok (h, pre), s1) /\
                     (pre = [] \/ pre = ["MANIFEST"]));
      [|destruct Hp as [[e Hp]|(h & pre & Hp & Hpre)]; rewrite Hp in H;
        [discriminate|]]
  end.
  { destruct (Fetch.dl (world s1) !! "MANIFEST") as [content|].
    - destruct (Fetch.parse_manifest _ _); [right|left]; eauto.
    - right. eauto. }
  unfold bind at 1, get_self at 1 in H. cbv beta iota in H.
  unfold bind at 1 in H. cbn [fst snd] in H.
  destruct (Fetch.check_loop sha256 h _list _missing (files (self s1)) pre s1)
    as [[res|e] s2] eqn:E; [|discriminate].
  injection H as <- _.
  apply check_loop_added_files in E as (added & -> & Hsub & Hm & Hl & Hno).
  exists added. rewrite <- Hself. repeat split; auto.
  destruct Hpre as [->| ->]; auto.
Qed.

(** X14 ([__fetch_check__]): the list of files to fetch again is made of
    files of [self.files], in the order of [self.files], that are also in
    the list the caller passed, and never twice the same where
    [self.files] has none twice; [MANIFEST] stands in front when the
    download dataset has none.  The pass for missing files adds no file:
    it returns an empty list or the MANIFEST alone. *)
Theorem missing_list_is_ordered_part_of_files
    (_list : list string) (ftp _missing : bool)
    (s s' : st Fetch.fetch_world) (ms : list string) :
  Fetch.fetch_check sha256 _list ftp _missing s = (Ok (Some ms), s') ->
  exists added,
    (ms = added \/ ms = "MANIFEST" :: added) /\
    added `sublist_of` files (self s) /\
    Forall (fun g => g ∈ _list) added /\
    (NoDup (files (self s)) -> NoDup ms) /\
    (_missing = true -> added = []).
Proof.
  intros H.
  apply fetch_check_missing in H as (added & Hms & Hsub & Hm & Hl & Hno).
  exists added. repeat split; auto.
  intros Hnd. pose proof (sublist_NoDup _ _ Hnd Hsub) as Hna.
  destruct Hms as [->| ->]; [done|]. by apply NoDup_cons.
Qed.

End MissingList.

Lemma missing_list_is_ordered_part_of_files_witness :
  exists added,
    (["doc.txz"] = added \/ ["doc.txz"] = "MANIFEST" :: added) /\
    added `sublist_of` files (self Sample.with_damaged_doc) /\
    Forall (fun g => g ∈ ["MANIFEST"; "base.txz"; "doc.txz"]) added /\
    (NoDup (files (self Sample.with_damaged_doc)) -> NoDup ["doc.txz"]) /\
    (false = true -> added = []).
Proof.
  eapply (missing_list_is_ordered_part_of_files Sample.digest
            ["MANIFEST"; "base.txz"; "doc.txz"] false false
            Sample.with_damaged_doc).
  vm_compute. reflexivity.
Defined.

Lemma filter_eq_at_most_once (f : string) (l : list string) :
  NoDup l -> (length (filter (eq f) l) <= 1)%nat.
Proof.
  intros Hnd. destruct (decide (f ∈ l)) as [Hin|Hin].
  - by rewrite filter_eq_once.
  - rewrite filter_eq_absent by done. simpl. lia.
Qed.

(** X15 ([fetch_download], [__fetch_check__]): over HTTP, however the
    download and its verification end, no file is downloaded more than
    twice, provided [self.files] names no file twice. *)
Theorem no_file_is_downloaded_more_than_twice
    (sha256 : string -> string) (ftp : bool) (s : st Fetch.fetch_world) :
  http (self s) = true ->
  NoDup (files (self s)) ->
  exists d,
    Fetch.downloaded (trace (snd (Fetch.download_and_verify sha256 ftp s)))
    = Fetch.downloaded (trace s) ++ d /\
    forall f, (length (filter (eq f) d) <= 2)%nat.
Proof.
  intros Hhttp Hnd.
  destruct (Fetch.download_and_verify sha256 ftp s) as [r s'] eqn:H.
  cbn [snd]. unfold Fetch.download_and_verify in H.
  unfold bind at 1, get_self at 1 in H. cbv beta iota in H.
  unfold bind at 1 in H.
  destruct (Fetch.fetch_download (files (self s)) ftp false s)
    as [r1 s1] eqn:E1.
  apply (fetch_download_http_run _ _ _ _ _ _ Hhttp) in E1
    as (Hs1 & _ & _ & d1 & Hd1 & Hsub1 & _).
  pose proof (sublist_NoDup _ _ Hnd Hsub1) as Hnd1.
  assert (Hone : forall f, (length (filter (eq f) d1) <= 2)%nat).
  { intros f. pose proof (filter_eq_at_most_once f d1 Hnd1). lia. }
  destruct r1 as [[]|e]; [|injection H as _ <-; eauto].
  unfold bind at 1 in H.
  destruct (Fetch.fetch_check sha256 (files (self s)) ftp false s1)
    as [r2 s2] eqn:E2.
  pose proof (fetch_check_any _ _ _ _ _ _ _ E2) as (Hs2 & _ & _ & Hd2).
  rewrite Hd1 in Hd2.
  destruct r2 as [[[|f fs]|]|e]; try (injection H as _ <-; eauto).
  apply fetch_check_missing in E2 as (added & Hms & Hsub & Hm & _ & _).
  assert (Hndm : NoDup (f :: fs)).
  { rewrite Hs1 in Hsub. pose proof (sublist_NoDup _ _ Hnd Hsub) as Hna.
    destruct Hms as [->| ->]; [done|]. by apply NoDup_cons. }
  unfold bind at 1 in H.
  destruct (Fetch.fetch_download (f :: fs) ftp true s2) as [r3 s3] eqn:E3.
  apply fetch_download_http_run in E3
    as (Hs3 & _ & _ & d2 & Hd3 & Hsub3 & _); [|congruence].
  pose proof (sublist_NoDup _ _ Hndm Hsub3) as Hnd2.
  assert (Htwo : forall g, (length (filter (eq g) (d1 ++ d2)) <= 2)%nat).
  { intros g. rewrite filter_app, length_app.
    pose proof (filter_eq_at_most_once g d1 Hnd1).
    pose proof (filter_eq_at_most_once g d2 Hnd2). lia. }
  rewrite Hd2, <- app_assoc in Hd3.
  destruct r3 as [[]|e]; [|injection H as _ <-; eauto].
  unfold bind at 1 in H.
  destruct (Fetch.fetch_check sha256 (f :: fs) ftp true s3)
    as [r4 s4] eqn:E4.
  apply fetch_check_any in E4 as (_ & _ & _ & Hd4).
  rewrite Hd3 in Hd4.
  destruct r4; injection H as _ <-; eauto.
Qed.

Lemma no_file_is_downloaded_more_than_twice_witness :
  let s := Sample.fetching "https://download.freebsd.org" false ∅
             Sample.damaged_doc in
  exists d,
    Fetch.downloaded
      (trace (snd (Fetch.download_and_verify Sample.digest false s)))
    = Fetch.downloaded (trace s) ++ d /\
    forall f, (length (filter (eq f) d) <= 2)%nat.
Proof.
  intros s.
  apply (no_file_is_downloaded_more_than_twice Sample.digest false s).
  - reflexivity.
  - apply (bool_decide_unpack _). vm_compute. exact I.
Defined.

(** ** The HTTP and FTP fetches, further *)

Section ReleaseFetch.
Variable sha256 : string -> string.

(** X16 ([fetch_http_release]): a hardened fetch from a server other than
    the default one stops with [UnboundLocalError] for [rdir], which only
    the default server binds: the server and the root directory of the
    object have been rewritten by then, no request has been made and
    nothing has been logged. *)
Theorem hardened_custom_server_is_unbound
    (eol : list string) (_list : bool) (s : st Fetch.fetch_world) :
  hardened (self s) = true ->
  server (self s) <> "ftp.freebsd.org" ->
  exists s',
    Fetch.fetch_http_release sha256 eol _list s
    = (Raise (UnboundLocalError "rdir"), s') /\
    world s' = world s /\ trace s' = trace s /\
    release (self s') = release (self s) /\
    is_Some (root_dir (self s')).
Proof.
  intros Hh Hsrv. unfold Fetch.fetch_http_release. mrun.
  rewrite Hh. rewrite (proj2 (eqb_false _ _) Hsrv). cbn [andb]. cbv iota.
  eexists. split; [reflexivity|]. cbn [self world trace].
  repeat split; try done; by eexists.
Qed.

Lemma log_listing_run (eol : option (list string))
    (releases todo : list string) :
  forall s : st Fetch.fetch_world,
  exists msgs,
    Fetch.log_listing eol releases todo s
    = (Ok tt, mkSt (self s) (world s) (trace s ++ (Log "INFO" <$> msgs))) /\
    length msgs = length todo.
Proof.
  induction todo as [|r todo IH]; intros s.
  - exists []. simpl. rewrite app_nil_r. by destruct s.
  - simpl Fetch.log_listing. unfold bind at 1. rewrite logit_info.
    match goal with
    | |- context [Fetch.log_listing eol releases todo ?s1] =>
        destruct (IH s1) as (msgs & E & Hlen); rewrite E
    end.
    cbn [self world trace]. eexists (_ :: msgs).
    rewrite <- app_assoc. split; [reflexivity|]. simpl. by rewrite Hlen.
Qed.

(** X17 ([fetch_http_release], [fetch_ftp_release]): asked for the listing
    and given no release, a fetch that is not hardened logs one line per
    release of the server and returns: it downloads nothing, it changes
    nothing on disk, it asks the operator nothing and [self.release] stays
    as it was.  Over FTP only the names with -RELEASE in them are
    listed. *)
Theorem listing_only_logs
    (eol releases : list string) (s : st Fetch.fetch_world) :
  Py.truthy (release (self s)) = false ->
  Fetch.index (world s) = Some releases ->
  (hardened (self s) = false ->
   exists s' msgs,
     Fetch.fetch_http_release sha256 eol true s = (Ok tt, s') /\
     world s' = world s /\ release (self s') = release (self s) /\
     trace s' = trace s ++ (Log "INFO" <$> msgs) /\
     length msgs = length releases) /\
  (exists s' msgs,
     Fetch.fetch_ftp_release sha256 eol true s = (Ok tt, s') /\
     world s' = world s /\ self s' = self s /\
     trace s' = trace s ++ (Log "INFO" <$> msgs) /\
     length msgs
     = length (filter (fun rel => Py.contains "-RELEASE" rel) releases)).
Proof.
  intros Hrel Hidx. split.
  - intros Hh. unfold Fetch.fetch_http_release.
    unfold bind at 1, get_self at 1. cbv beta iota zeta.
    rewrite Hh. cbn [andb]. cbv iota.
    unfold bind at 1, put_self at 1. cbv beta iota.
    unfold bind at 1, get_world at 1. cbv beta iota.
    cbn [self world trace]. rewrite Hidx, Hrel. cbn [negb].
    unfold bind at 1. unfold bind at 1.
    match goal with
    | |- context [Fetch.log_listing ?e releases releases ?s1] =>
        destruct (log_listing_run e releases releases s1)
          as (msgs & E & Hlen); rewrite E
    end.
    unfold ret. eexists _, msgs. split; [reflexivity|].
    cbn [self world trace release set_server_root]. by repeat split.
  - unfold Fetch.fetch_ftp_release.
    unfold bind at 1, get_self at 1. cbv beta iota.
    unfold bind at 1, get_world at 1. cbv beta iota.
    rewrite Hidx. unfold bind at 1, ret at 1. rewrite Hrel. cbn [negb].
    unfold bind at 1. unfold bind at 1.
    match goal with
    | |- context [Fetch.log_listing ?e ?l ?l ?s1] =>
        destruct (log_listing_run e l l s1) as (msgs & E & Hlen); rewrite E
    end.
    unfold ret. eexists _, msgs. split; [reflexivity|].
    cbn [self world trace]. by repeat split.
Qed.

End ReleaseFetch.

Lemma hardened_custom_server_is_unbound_witness :
  let s :=
    mkSt (init "zroot" "/iocage" "amd64"
            (mkArgs (Some "11") "hbsd.example.org" None None false false
               true true true true default_files))
      (world (Sample.fetching "hbsd.example.org" false ∅ Sample.damaged_doc))
      [] in
  exists s',
    Fetch.fetch_http_release Sample.digest [] false s
    = (Raise (UnboundLocalError "rdir"), s') /\
    world s' = world s /\ trace s' = trace s /\
    release (self s') = release (self s) /\
    is_Some (root_dir (self s')).
Proof.
  intros s.
  apply (hardened_custom_server_is_unbound Sample.digest [] false s).
  - reflexivity.
  - discriminate.
Defined.

Lemma listing_only_logs_witness :
  let s :=
    mkSt (Sample.fetcher None true false false)
      (world (Sample.fetching "ftp.freebsd.org" false ∅ Sample.damaged_doc))
      [] in
  (hardened (self s) = false ->
   exists s' msgs,
     Fetch.fetch_http_release Sample.digest [] true s = (Ok tt, s') /\
     world s' = world s /\ release (self s') = release (self s) /\
     trace s' = trace s ++ (Log "INFO" <$> msgs) /\
     length msgs = length ["11.1-RELEASE"]) /\
  (exists s' msgs,
     Fetch.fetch_ftp_release Sample.digest [] true s = (Ok tt, s') /\
     world s' = world s /\ self s' = self s /\
     trace s' = trace s ++ (Log "INFO" <$> msgs) /\
     length msgs
     = length (filter (fun rel => Py.contains "-RELEASE" rel)
                 ["11.1-RELEASE"])).
Proof.
  intros s.
  apply (listing_only_logs Sample.digest [] ["11.1-RELEASE"] s).
  - reflexivity.
  - reflexivity.
Defined.

(** ** The MANIFEST *)

Lemma split_has_sep (sep : ascii) (s : string) :
  Py.has_char sep s = true ->
  exists c0 c1 rest, Py.split sep s = c0 :: c1 :: rest.
Proof.
  induction s as [|c s IH]; simpl; [done|].
  intros H. case_bool_decide as Hc.
  - pose proof (split_nonempty sep s).
    destruct (Py.split sep s) as [|h t]; [done|]. eauto.
  - simpl in H. destruct (IH H) as (c0 & c1 & rest & ->). eauto.
Qed.

Lemma parse_manifest_keeps (lines : list string) :
  forall (h h' : gmap string string) (k : string),
  Fetch.parse_manifest lines h = Ok h' ->
  is_Some (h !! k) -> is_Some (h' !! k).
Proof.
  induction lines as [|line lines IH]; intros h h' k H Hk.
  - simpl in H. by injection H as <-.
  - simpl in H. destruct (Py.split "009" line) as [|c0 [|c1 rest]];
      try discriminate.
    apply (IH _ _ k) in H; [done|].
    destruct (decide (c0 = k)) as [->|Hne].
    + rewrite lookup_insert_eq. by eexists.
    + by rewrite lookup_insert_ne.
Qed.

(** X18 ([__fetch_check__]): the MANIFEST is read into the table of
    digests exactly when each of its lines has a tab; a line without one,
    an empty line among them, ends the verification with [IndexError].
    When it is read, the first column of every line is a key of the
    table. *)
Theorem manifest_parses_iff_every_line_has_tab
    (lines : list string) (h : gmap string string) :
  match Fetch.parse_manifest lines h with
  | Ok h' =>
      Forall (fun line => Py.has_char "009" line = true /\
                exists c0 rest, Py.split "009" line = c0 :: rest /\
                                is_Some (h' !! c0)) lines
  | Raise e =>
      e = IndexError /\
      Exists (fun line => Py.has_char "009" line = false) lines
  end.
Proof.
  revert h. induction lines as [|line lines IH]; intros h.
  - simpl. constructor.
  - simpl. destruct (Py.has_char "009" line) eqn:Ht.
    + destruct (split_has_sep _ _ Ht) as (c0 & c1 & rest & E). rewrite E.
      specialize (IH (<[c0 := c1]> h)).
      destruct (Fetch.parse_manifest lines (<[c0:=c1]> h)) as [h'|e] eqn:Ep.
      * constructor; [|done]. split; [done|]. exists c0, (c1 :: rest).
        split; [done|]. apply (parse_manifest_keeps _ _ _ _ Ep).
        rewrite lookup_insert_eq. by eexists.
      * destruct IH as [-> Hex]. split; [done|]. by apply Exists_cons_tl.
    + rewrite (split_no_sep _ _ Ht). split; [done|]. by apply Exists_cons_hd.
Qed.

(** ** Downloads over FTP and from a local directory *)

(** X19 ([fetch_download], FTP): a round of FTP downloads that returns has
    fetched [base.txz] and [MANIFEST] wherever they were asked for, since
    their absence on the server is fatal.  An absent file of any other
    name is passed over and taken out of [self.files]; as the new value is
    computed from the list of the call, [self.files] ends as it was or as
    that list without exactly one name, however many files were
    absent. *)
Theorem ftp_download_needs_base_and_manifest (_list todo : list string) :
  forall s s' : st Fetch.fetch_world,
  Fetch.download_ftp _list todo s = (Ok tt, s') ->
  exists d,
    Fetch.downloaded (trace s') = Fetch.downloaded (trace s) ++ d /\
    d `sublist_of` todo /\
    (forall f, f ∈ todo -> f = "base.txz" \/ f = "MANIFEST" -> f ∈ d) /\
    (files (self s') = files (self s) \/
     exists f, f ∈ todo /\ f <> "base.txz" /\ f <> "MANIFEST" /\
               files (self s') = filter (fun x => x <> f) _list).
Proof.
  induction todo as [|g todo IH]; intros s s' H.
  - simpl in H. injection H as <-. exists []. rewrite app_nil_r.
    split; [done|]. split; [done|]. split; [|by left].
    intros f Hf. by apply elem_of_nil in Hf.
  - simpl in H. destruct (Fetch.ftp_name_matches g) eqn:Em.
    + unfold bind at 1 in H. rewrite request_run in H.
      destruct (Fetch.remote (world s) (Fetch.requests (world s)) g)
        as [content|].
      * unfold bind at 1, emit at 1 in H. cbv beta iota in H.
        unfold bind at 1 in H. rewrite store_run in H.
        apply IH in H as (d & Hd & Hsub & Hreq & Hfiles).
        cbn [self world trace] in *.
        exists (g :: d). split.
        { rewrite Hd, downloaded_app. simpl. by rewrite <- app_assoc. }
        split; [by apply sublist_skip|]. split.
        { intros f Hf Hr. apply elem_of_cons in Hf as [->|Hf];
            [by left|right; auto]. }
        destruct Hfiles as [?|(f & Hf & ?)]; [by left|right].
        exists f. split; [by right|done].
      * destruct (Py.eqb g "base.txz") eqn:E1;
        destruct (Py.eqb g "MANIFEST") eqn:E2; cbn [negb andb] in H;
          try (unfold bind at 1 in H; rewrite logit_exception in H;
               discriminate).
        apply eqb_false in E1. apply eqb_false in E2.
        unfold bind at 1, get_self at 1 in H. cbv beta iota in H.
        unfold bind at 1, put_self at 1 in H. cbv beta iota in H.
        apply IH in H as (d & Hd & Hsub & Hreq & Hfiles).
        cbn [self world trace files set_files] in *.
        exists d. split; [done|]. split; [by apply sublist_cons|]. split.
        { intros f Hf Hr. apply elem_of_cons in Hf as [->|Hf];
            [by destruct Hr|auto]. }
        right. destruct Hfiles as [Hsame|(f & Hf & ?)].
        -- exists g. split; [by left|]. by rewrite Hsame.
        -- exists f. split; [by right|done].
    + apply IH in H as (d & Hd & Hsub & Hreq & Hfiles).
      exists d. split; [done|]. split; [by apply sublist_cons|]. split.
      { intros f Hf Hr. apply elem_of_cons in Hf as [->|Hf]; [|auto].
        by destruct Hr as [-> | ->]. }
      destruct Hfiles as [?|(f & Hf & ?)]; [by left|right].
      exists f. split; [by right|done].
Qed.

Lemma ftp_download_needs_base_and_manifest_witness :
  let s :=
    mkSt (Sample.fetcher (Some "11.1-RELEASE") false false false)
      (Fetch.mkFetchWorld false ∅ true ∅
         (fun _ f => if Py.eqb f "MANIFEST" then Some Sample.manifest
                     else if Py.eqb f "base.txz" then Some "BASE"
                     else None)
         0 (fun _ => None) (Some ["11.1-RELEASE"]) true (Some [])
         EmptyString "11.1-RELEASE-p4") [] in
  let s' := snd (Fetch.download_ftp default_files default_files s) in
  files (self s') = ["MANIFEST"; "base.txz"; "lib32.txz"] /\
  exists d,
    Fetch.downloaded (trace s') = Fetch.downloaded (trace s) ++ d /\
    d `sublist_of` default_files /\
    (forall f, f ∈ default_files -> f = "base.txz" \/ f = "MANIFEST" -> f ∈ d) /\
    (files (self s') = files (self s) \/
     exists f, f ∈ default_files /\ f <> "base.txz" /\ f <> "MANIFEST" /\
               files (self s') = filter (fun x => x <> f) default_files).
Proof.
  intros s s'. split; [vm_compute; reflexivity|].
  apply (ftp_download_needs_base_and_manifest default_files default_files
           s s').
  vm_compute. reflexivity.
Defined.

Lemma copy_files_ok (dataset : string) (todo : list string) :
  forall s : st Fetch.fetch_world,
  (forall f, f ∈ todo -> is_Some (Fetch.src_files (world s) !! f)) ->
  (forall f, Fetch.extract_fails (world s) f = None) ->
  exists s',
    Fetch.copy_files dataset todo s = (Ok tt, s') /\
    self s' = self s /\
    Fetch.download_isdir (world s') = Fetch.download_isdir (world s) /\
    Fetch.requests (world s') = Fetch.requests (world s) /\
    Fetch.extracted (trace s')
    = Fetch.extracted (trace s) ++ filter (fun f => f <> "MANIFEST") todo /\
    Fetch.downloaded (trace s') = Fetch.downloaded (trace s) /\
    (forall f,
       Fetch.dl (world s') !! f
       = if decide (f ∈ todo) then Fetch.src_files (world s) !! f
         else Fetch.dl (world s) !! f).
Proof.
  induction todo as [|g todo IH]; intros s Hsrc Hx.
  - exists s. simpl. rewrite app_nil_r. by repeat split.
  - destruct (Hsrc g ltac:(by left)) as [content Hg].
    assert (Hlook : forall (s' : st Fetch.fetch_world) (d1 : gmap string string),
      d1 = <[g := content]> (Fetch.dl (world s)) ->
      (forall f, Fetch.dl (world s') !! f
                 = if decide (f ∈ todo) then Fetch.src_files (world s) !! f
                   else d1 !! f) ->
      forall f, Fetch.dl (world s') !! f
                = if decide (f ∈ g :: todo) then Fetch.src_files (world s) !! f
                  else Fetch.dl (world s) !! f).
    { intros s' d1 -> Hin f. rewrite Hin.
      destruct (decide (f ∈ todo)) as [Hft|Hft].
      - rewrite decide_True; [done|by right].
      - destruct (decide (f = g)) as [->|Hne].
        + rewrite decide_True by by left. by rewrite lookup_insert_eq.
        + rewrite decide_False.
          * by rewrite lookup_insert_ne.
          * intros Hf. apply elem_of_cons in Hf as [?|?]; done. }
    simpl. mrun. rewrite Hg.
    rewrite bool_decide_eq_true_2 by eauto. simpl. mrun.
    rewrite ?logit_info. mrun. unfold Fetch.copy_in. mrun. simpl.
    rewrite Hg. mrun. unfold Fetch.store. mrun. simpl.
    destruct (Py.eqb g "MANIFEST") eqn:Eg; simpl; mrun.
    + apply eqb_true in Eg.
      match goal with
      | |- context [Fetch.copy_files dataset _ ?s1] =>
          destruct (IH s1) as (s' & E & H1 & H2 & H3 & H4 & H5 & H6);
            [intros f Hf; apply Hsrc; by right|exact Hx|]
      end.
      rewrite E. exists s'. split; [reflexivity|].
      cbn [self world trace] in *. simpl in H2, H3, H6.
      split; [done|]. split; [done|]. split; [done|]. split.
      { rewrite H4, !extracted_app. simpl. rewrite !app_nil_r.
        rewrite filter_cons. by rewrite decide_False by (intros ?; done). }
      split.
      { rewrite H5, !downloaded_app. simpl. by rewrite !app_nil_r. }
      by apply (Hlook s' _ eq_refl).
    + apply eqb_false in Eg.
      rewrite ?logit_info. mrun. unfold Fetch.fetch_extract. mrun. simpl.
      rewrite Hx. mrun.
      match goal with
      | |- context [Fetch.copy_files dataset _ ?s1] =>
          destruct (IH s1) as (s' & E & H1 & H2 & H3 & H4 & H5 & H6);
            [intros f Hf; apply Hsrc; by right|exact Hx|]
      end.
      rewrite E. exists s'. split; [reflexivity|].
      cbn [self world trace] in *. simpl in H2, H3, H6.
      split; [done|]. split; [done|]. split; [done|]. split.
      { rewrite H4, !extracted_app. simpl. rewrite !app_nil_r.
        rewrite filter_cons. rewrite decide_True by done.
        by rewrite <- app_assoc. }
      split.
      { rewrite H5, !downloaded_app. simpl. by rewrite !app_nil_r. }
      by apply (Hlook s' _ eq_refl).
Qed.

(** X20 ([fetch_release], local directory): when the local tree holds
    every file of [self.files] and the archives extract, the fetch
    returns; the download dataset then exists and holds each of these
    files with the content of the tree, every file but the MANIFEST has
    been extracted, in the order of [self.files], and no request has gone
    to a server. *)
Theorem local_fetch_copies_and_extracts
    (s : st Fetch.fetch_world) (rd r : string) :
  root_dir (self s) = Some rd -> rd <> EmptyString ->
  release (self s) = Some r ->
  Fetch.src_isdir (world s) = true ->
  (forall f, f ∈ files (self s) ->
     is_Some (Fetch.src_files (world s) !! f)) ->
  (forall f, Fetch.extract_fails (world s) f = None) ->
  exists s',
    Fetch.fetch_local s = (Ok tt, s') /\
    self s' = self s /\
    Fetch.download_isdir (world s') = true /\
    (forall f, f ∈ files (self s) ->
       Fetch.dl (world s') !! f = Fetch.src_files (world s) !! f) /\
    Fetch.extracted (trace s')
    = Fetch.extracted (trace s)
      ++ filter (fun f => f <> "MANIFEST") (files (self s)) /\
    Fetch.downloaded (trace s') = Fetch.downloaded (trace s) /\
    Fetch.requests (world s') = Fetch.requests (world s).
Proof.
  intros Hrd Hne Hrel Hdir Hsrc Hx.
  unfold Fetch.fetch_local. mrun. rewrite Hrd.
  destruct rd as [|c rd]; [done|]. cbn [Py.truthy negb]. mrun.
  rewrite Hrel. mrun. rewrite Hdir. mrun.
  destruct (Fetch.download_isdir (world s)) eqn:Hd; mrun;
    cbn [self world trace].
  - destruct (copy_files_ok
                (iocroot (self s) +:+ "/download/" +:+ release_str (self s))
                (files (self s)) s Hsrc Hx)
      as (s' & E & H1 & H2 & H3 & H4 & H5 & H6).
    rewrite E. exists s'. split; [reflexivity|].
    split; [done|]. split; [congruence|]. split.
    { intros f Hf. rewrite H6. by rewrite decide_True. }
    by repeat split.
  - match goal with
    | |- context [Fetch.copy_files ?ds _ ?s1] =>
        destruct (copy_files_ok ds (files (self s)) s1)
          as (s' & E & H1 & H2 & H3 & H4 & H5 & H6); [exact Hsrc|exact Hx|]
    end.
    rewrite E. exists s'. split; [reflexivity|].
    cbn [self world trace] in *. simpl in H2, H3, H6.
    split; [done|]. split; [done|]. split.
    { intros f Hf. rewrite H6. by rewrite decide_True. }
    split.
    { rewrite H4, !extracted_app. simpl. by rewrite !app_nil_r. }
    split; [|done].
    rewrite H5, !downloaded_app. simpl. by rewrite !app_nil_r.
Qed.

Lemma local_fetch_copies_and_extracts_witness :
  let s := Sample.local_tree
             {[ "MANIFEST" := Sample.manifest; "base.txz" := "BASE";
                "lib32.txz" := "LIB32"; "doc.txz" := "DOC" ]} in
  exists s',
    Fetch.fetch_local s = (Ok tt, s') /\
    self s' = self s /\
    Fetch.download_isdir (world s') = true /\
    (forall f, f ∈ files (self s) ->
       Fetch.dl (world s') !! f = Fetch.src_files (world s) !! f) /\
    Fetch.extracted (trace s')
    = Fetch.extracted (trace s)
      ++ filter (fun f => f <> "MANIFEST") (files (self s)) /\
    Fetch.downloaded (trace s') = Fetch.downloaded (trace s) /\
    Fetch.requests (world s') = Fetch.requests (world s).
Proof.
  intros s.
  apply (local_fetch_copies_and_extracts s "/mnt/rel" "11.1-RELEASE").
  - reflexivity.
  - discriminate.
  - reflexivity.
  - reflexivity.
  - intros f Hf. change (files (self s)) with default_files in Hf.
    unfold default_files in Hf.
    repeat (apply elem_of_cons in Hf as [->|Hf];
            [vm_compute; by eexists|]).
    by apply elem_of_nil in Hf.
  - reflexivity.
Defined.

(** ** Choosing a plugin *)

Lemma after_last_paren_none (s : string) :
  Py.has_char "(" s = false -> PluginIndex.after_last_paren s = None.
Proof.
  induction s as [|c s IH]; simpl; [done|].
  intros H. apply orb_false_iff in H as [H1 H2].
  rewrite (IH H2). apply bool_decide_eq_false in H1.
  by rewrite bool_decide_eq_false_2.
Qed.

Lemma after_last_paren_app (a b : string) :
  Py.has_char "(" b = false ->
  PluginIndex.after_last_paren (a +:+ String "(" b) = Some b.
Proof.
  intros Hb. induction a as [|c a IH].
  - rewrite sapp_nil_l. simpl. by rewrite (after_last_paren_none _ Hb).
  - rewrite sapp_cons. simpl. by rewrite IH.
Qed.

Lemma replace_close_app (s : string) :
  Py.has_char ")" s = false -> Py.replace ")" "" (s +:+ ")") = s.
Proof.
  unfold Py.replace. induction s as [|c s IH]; [reflexivity|].
  intros H. simpl in H. apply orb_false_iff in H as [H1 H2].
  apply bool_decide_eq_false in H1.
  rewrite sapp_cons. simpl.
  rewrite bool_decide_eq_false_2 by congruence. simpl.
  by rewrite (IH H2).
Qed.

Lemma entry_shape (name description pkg : string) :
  PluginIndex.entry name description pkg
  = (name +:+ " - " +:+ description +:+ " ") +:+ String "(" (pkg +:+ ")").
Proof.
  unfold PluginIndex.entry. rewrite !sapp_assoc. reflexivity.
Qed.

Lemma entry_names_package (name description pkg : string) :
  Py.has_char "(" pkg = false -> Py.has_char ")" pkg = false ->
  match PluginIndex.after_last_paren (PluginIndex.entry name description pkg) with
  | Some t => Py.replace ")" "" t = pkg
  | None => False
  end.
Proof.
  intros Ho Hc. rewrite entry_shape, after_last_paren_app.
  - by apply replace_close_app.
  - rewrite has_char_app, Ho. reflexivity.
Qed.

Lemma getitem_of_nat {A} (l : list A) (i : nat) (x : A) :
  l !! i = Some x -> Validate.getitem l (Z.of_nat i) = Some x.
Proof.
  intros H. pose proof (lookup_lt_Some _ _ _ H) as Hlt.
  unfold Validate.getitem.
  assert ((Z.of_nat i <? 0) = false) as -> by lia.
  assert ((0 <=? Z.of_nat i) && (Z.of_nat i <? Z.of_nat (length l)) = true)
    as -> by lia.
  by rewrite Nat2Z.id.
Qed.

Lemma matching_first (plugin : string) (plugins : list string) :
  forall k : nat,
  match PluginIndex.matching plugin k plugins with
  | [] =>
      List.find (fun p => Py.contains (PluginIndex.capitalize plugin) p
                          || Py.contains plugin p) plugins = None
  | i :: _ =>
      (k <= i)%nat /\
      is_Some (plugins !! (i - k)%nat) /\
      plugins !! (i - k)%nat
      = List.find (fun p => Py.contains (PluginIndex.capitalize plugin) p
                            || Py.contains plugin p) plugins
  end.
Proof.
  induction plugins as [|p plugins IH]; intros k; [done|].
  simpl.
  destruct (Py.contains (PluginIndex.capitalize plugin) p
            || Py.contains plugin p).
  - rewrite Nat.sub_diag. simpl. split; [lia|]. split; [by eexists|done].
  - specialize (IH (S k)).
    destruct (PluginIndex.matching plugin (S k) plugins) as [|i rest];
      [done|].
    destruct IH as (Hk & Hs & Hf). split; [lia|].
    replace (i - k)%nat with (S (i - S k)) by lia. simpl. by split.
Qed.

(** X21 ([__fetch_validate_plugin__], [__fetch_sort_plugin__]): an input
    of at most two characters that [int()] reads selects the entry at
    that index, counted from the end where it is negative, and what is
    returned is the package key between the last pair of parentheses of
    the entry, which is the key [__fetch_sort_plugin__] put there. *)
Theorem plugin_chosen_by_number {W} (plugin : string)
    (plugins : list string) (i : Z) (name description pkg : string)
    (s : st W) :
  (String.length plugin <= 2)%nat ->
  Py.lower plugin <> "exit" ->
  Validate.py_int plugin = Some i ->
  Validate.getitem plugins i = Some (PluginIndex.entry name description pkg) ->
  Py.has_char "(" pkg = false -> Py.has_char ")" pkg = false ->
  PluginIndex.fetch_validate_plugin plugin plugins s = (Ok pkg, s).
Proof.
  intros Hlen Hex Hint Hget Ho Hc.
  unfold PluginIndex.fetch_validate_plugin.
  rewrite (proj2 (eqb_false _ _) Hex).
  assert ((String.length plugin <=? 2)%nat = true) as ->
    by by apply Nat.leb_le.
  mrun. rewrite Hint, Hget. mrun.
  pose proof (entry_names_package name description pkg Ho Hc) as He.
  destruct (PluginIndex.after_last_paren _) as [t|]; [|done].
  by rewrite He.
Qed.

Lemma plugin_chosen_by_number_witness :
  PluginIndex.fetch_validate_plugin "-1"
    [PluginIndex.entry "Plex" "Media server (beta)" "plexmediaserver";
     PluginIndex.entry "Quassel" "IRC core" "quasselcore"]
    (mkSt (Sample.fetcher None false false false) tt [])
  = (Ok "quasselcore", mkSt (Sample.fetcher None false false false) tt []).
Proof.
  apply (plugin_chosen_by_number (W:=unit) "-1" _ (-1) "Quassel" "IRC core"
           "quasselcore").
  - simpl. lia.
  - discriminate.
  - reflexivity.
  - reflexivity.
  - reflexivity.
  - reflexivity.
Defined.

(** X22 ([__fetch_validate_plugin__]): a longer input selects the first
    entry of the list in which the input, as typed or capitalized, occurs
    anywhere, be it in the name, the description or the package key;
    where no entry has it the run ends with the fatal message that the
    plugin is not in the list. *)
Theorem plugin_chosen_by_name {W} (plugin : string)
    (plugins : list string) (s : st W) :
  (2 < String.length plugin)%nat ->
  Py.lower plugin <> "exit" ->
  PluginIndex.fetch_validate_plugin plugin plugins s
  = match List.find (fun p => Py.contains (PluginIndex.capitalize plugin) p
                              || Py.contains plugin p) plugins with
    | Some chosen =>
        match PluginIndex.after_last_paren chosen with
        | Some t => (Ok (Py.replace ")" "" t), s)
        | None => (Raise IndexError, s)
        end
    | None =>
        (Raise (Fatal ("Plugin: " +:+ plugin +:+ " not in list!")), s)
    end.
Proof.
  intros Hlen Hex. unfold PluginIndex.fetch_validate_plugin.
  rewrite (proj2 (eqb_false _ _) Hex).
  assert ((String.length plugin <=? 2)%nat = false) as ->
    by (apply Nat.leb_gt; lia).
  pose proof (matching_first plugin plugins 0) as Hm.
  destruct (PluginIndex.matching plugin 0 plugins) as [|i rest].
  - rewrite Hm. mrun. unfold PluginIndex.not_in_list.
    rewrite logit_exception. reflexivity.
  - destruct Hm as (_ & [x Hx] & Hf). rewrite Nat.sub_0_r in Hx, Hf.
    rewrite <- Hf, Hx. mrun. rewrite (getitem_of_nat _ _ _ Hx). mrun.
    by destruct (PluginIndex.after_last_paren x).
Qed.

Lemma plugin_chosen_by_name_witness :
  PluginIndex.fetch_validate_plugin "server"
    [PluginIndex.entry "Plex" "Media server (beta)" "plexmediaserver";
     PluginIndex.entry "Quassel" "IRC server core" "quasselcore"]
    (mkSt (Sample.fetcher None false false false) tt [])
  = (Ok "plexmediaserver",
     mkSt (Sample.fetcher None false false false) tt []).
Proof.
  refine (eq_trans (plugin_chosen_by_name (W:=unit) "server" _ _ _ _) _).
  - simpl. lia.
  - discriminate.
  - reflexivity.
Defined.

Lemma replace_release_prefix (pre rest : string) :
  (forall c, Py.has_char c pre = true -> c <> "-"%char) ->
  Py.replace_from 0 "-RELEASE" "-STABLE" (pre +:+ rest)
  = pre +:+ Py.replace_from 0 "-RELEASE" "-STABLE" rest.
Proof.
  induction pre as [|c pre IH]; intros H; [reflexivity|].
  rewrite !sapp_cons. cbn [Py.replace_from].
  assert (Hc : c <> "-"%char).
  { apply H. simpl. by rewrite bool_decide_eq_true_2. }
  assert (Py.startswith (String c (pre +:+ rest)) "-RELEASE" = false) as ->.
  { cbn [Py.startswith]. by rewrite bool_decide_eq_false_2 by congruence. }
  f_equal. apply IH. intros x Hx. apply H. simpl. rewrite Hx.
  apply orb_true_r.
Qed.

Lemma sub_nonword_word_prefix (pre rest : string) :
  (forall c, Py.has_char c pre = true -> Validate.is_word c = true) ->
  Validate.sub_nonword_word_any (pre +:+ rest)
  = pre +:+ Validate.sub_nonword_word_any rest.
Proof.
  induction pre as [|a pre IH]; intros H; [reflexivity|].
  rewrite !sapp_cons.
  assert (Ha : Validate.is_word a = true).
  { apply H. simpl. by rewrite bool_decide_eq_true_2. }
  assert (Hstep : forall s1, Validate.sub_nonword_word_any (String a s1)
                             = String a (Validate.sub_nonword_word_any s1)).
  { intros [|b [|c r]]; cbn [Validate.sub_nonword_word_any];
      rewrite ?Ha; reflexivity. }
  rewrite Hstep. f_equal. apply IH. intros x Hx. apply H. simpl. rewrite Hx.
  apply orb_true_r.
Qed.

(** X23 ([fetch_plugin]): for a hardened fetch the release of a plugin
    descriptor, written as major, dot, one minor character and -RELEASE,
    becomes the major version followed by -STABLE. *)
Theorem hardened_plugin_release_is_major_stable (major : string) (m : ascii) :
  (forall c, Py.has_char c major = true -> Validate.is_word c = true) ->
  Validate.is_word m = true ->
  PluginIndex.hardened_release (major +:+ "." +:+ String m "-RELEASE")
  = major +:+ "-STABLE".
Proof.
  intros Hmajor Hm. unfold PluginIndex.hardened_release, Py.replace.
  assert (Hdash : forall c, Validate.is_word c = true -> c <> "-"%char).
  { intros c Hc ->. discriminate. }
  change (major +:+ "." +:+ String m "-RELEASE")
    with (major +:+ (String "." (String m "") +:+ "-RELEASE")).
  rewrite <- sapp_assoc.
  rewrite replace_release_prefix.
  - change (Py.replace_from 0 "-RELEASE" "-STABLE" "-RELEASE")
      with "-STABLE".
    rewrite sapp_assoc. rewrite (sub_nonword_word_prefix _ _ Hmajor).
    f_equal. cbn [String.append Validate.sub_nonword_word_any].
    change (String "." (String m "") +:+ "-STABLE")
      with (String "." (String m (String "-" "STABLE"))).
    cbn [Validate.sub_nonword_word_any]. rewrite Hm.
    reflexivity.
  - intros c Hc. rewrite has_char_app in Hc.
    apply orb_true_iff in Hc as [Hc|Hc]; [by apply Hdash, Hmajor|].
    simpl in Hc. rewrite orb_false_r in Hc.
    apply orb_true_iff in Hc as [Hc|Hc]; apply bool_decide_eq_true in Hc;
      subst c; [discriminate|by apply Hdash].
Qed.

Lemma hardened_plugin_release_is_major_stable_witness :
  PluginIndex.hardened_release ("11" +:+ "." +:+ String "1" "-RELEASE")
  = "11" +:+ "-STABLE".
Proof.
  apply (hardened_plugin_release_is_major_stable "11" "1").
  - intros c Hc. simpl in Hc. rewrite orb_false_r in Hc.
    apply orb_true_iff in Hc as [Hc|Hc]; apply bool_decide_eq_true in Hc;
      by subst c.
  - reflexivity.
Defined.
